(** * Observability facade: logger, tracer, metrics and their orchestration

    A shallow embedding of the Go package [observability]: the configuration
    model, the logger facade over zap, the tracer facade and the metrics
    facade over OpenTelemetry, and [InitializeObservabilityProvider] with the
    cleanup procedure it returns.

    The three backends are collaborators outside the package.  What they
    answer (a file that does not open, an exporter that cannot be built, a
    shutdown that fails) is read from an environment [Env]; what the package
    asks of them is appended, in program order, to the trace of the state. *)

From Stdlib Require Import ZArith Floats Ascii String Strings.Byte.
From stdpp Require Import base option list strings gmap.

Local Open Scope string_scope.
Local Open Scope Z_scope.
Local Open Scope list_scope.

(** ** Errors *)

(** A Go [error]: one made by a backend, or one made by
    [fmt.Errorf("<msg>: %w", err)] around another. *)
Inductive error : Type :=
| errorString (s : string)
| wrapError (msg : string) (err : error).

Fixpoint Error (e : error) : string :=
  match e with
  | errorString s => s
  | wrapError msg err => msg +:+ ": " +:+ Error err
  end.

(** [errors.Unwrap]. *)
Definition Unwrap (e : error) : option error :=
  match e with
  | errorString _ => None
  | wrapError _ err => Some err
  end.

(** [fmt.Errorf(msg ++ ": %w", err)]. *)
Definition Errorf (msg : string) (err : error) : error := wrapError msg err.

(** A Go result pair [(T, error)]. *)
Inductive res (T : Type) : Type :=
| Ok (v : T)
| Err (e : error).
Arguments Ok {T} v.
Arguments Err {T} e.

(** ** Contexts and span contexts (go.opentelemetry.io/otel/trace) *)

#[global] Instance byte_eq_dec : EqDecision byte := Byte.byte_eq_dec.

Module trace.

(** [TraceID] is [[16]byte] and [SpanID] is [[8]byte]; both are kept as
    byte lists, the lengths being stated by [wf]. *)
Record SpanContext : Type := mkSpanContext {
  traceID : list byte;
  spanID : list byte;
}.

Definition wf (sc : SpanContext) : Prop :=
  length (traceID sc) = 16%nat ∧ length (spanID sc) = 8%nat.

Definition is_zero (b : byte) : bool := Byte.eqb b x00.

(** [TraceID.IsValid] and [SpanID.IsValid]: some byte is not zero. *)
Definition ID_IsValid (id : list byte) : bool := negb (forallb is_zero id).

Definition IsValid (sc : SpanContext) : bool :=
  ID_IsValid (traceID sc) && ID_IsValid (spanID sc).

Definition hextable : string := "0123456789abcdef".

Definition hexdigit (n : N) : ascii :=
  match String.get (N.to_nat n) hextable with
  | Some c => c
  | None => "0"%char
  end.

(** [hex.EncodeToString]: two lower-case digits a byte, high nibble first. *)
Fixpoint hex (bs : list byte) : string :=
  match bs with
  | [] => ""
  | b :: rest =>
      String (hexdigit (N.shiftr (Byte.to_N b) 4))
        (String (hexdigit (N.land (Byte.to_N b) 15)) (hex rest))
  end.

(** [TraceID.String] and [SpanID.String]. *)
Definition ID_String (id : list byte) : string := hex id.

(** The zero value [SpanContext{}]. *)
Definition emptySpanContext : SpanContext :=
  {| traceID := replicate 16 x00; spanID := replicate 8 x00 |}.

End trace.

(** A [context.Context], as far as this package looks into it: the span it
    carries, if any, and the timeout it was given, in nanoseconds. *)
Record Context : Type := mkContext {
  ctx_span : option trace.SpanContext;
  ctx_timeout : option Z;
}.

Module context.
Definition Background : Context := {| ctx_span := None; ctx_timeout := None |}.

(** [context.WithTimeout(parent, d)]: the earlier deadline wins. *)
Definition WithTimeout (parent : Context) (d : Z) : Context :=
  {| ctx_span := ctx_span parent;
     ctx_timeout := match ctx_timeout parent with
                    | Some d0 => Some (Z.min d0 d)
                    | None => Some d
                    end |}.
End context.

Module time.
Definition Second : Z := 1000000000.
End time.

(** [trace.SpanContextFromContext]: the span context of the span in [ctx],
    the zero span context when [ctx] carries none. *)
Definition SpanContextFromContext (ctx : Context) : trace.SpanContext :=
  match ctx_span ctx with
  | Some sc => sc
  | None => trace.emptySpanContext
  end.

(** The context carries a valid span. *)
Definition carries_valid_span (ctx : Context) : bool :=
  match ctx_span ctx with
  | Some sc => trace.IsValid sc
  | None => false
  end.

(** ** Configuration model *)

(** [type LogLevel int] with its [iota] constants. *)
Definition LogLevel : Type := Z.
Definition DebugLevel : LogLevel := 0.
Definition InfoLevel : LogLevel := 1.
Definition WarnLevel : LogLevel := 2.
Definition ErrorLevel : LogLevel := 3.
Definition FatalLevel : LogLevel := 4.

(** [type LogFormat int]. *)
Definition LogFormat : Type := Z.
Definition JSONFormat : LogFormat := 0.
Definition ConsoleFormat : LogFormat := 1.

Module TracingConfig.
Record t : Type := mk {
  ServiceName : string;
  ServiceVersion : string;
  Environment : string;
  Endpoint : string;
  Enabled : bool;
  SamplingRate : float;
}.
End TracingConfig.

Module LogConfig.
Record t : Type := mk {
  Level : LogLevel;
  Format : LogFormat;
  OutputPaths : list string;
  Development : bool;
}.
End LogConfig.

Module MetricsConfig.
Record t : Type := mk {
  ServiceName : string;
  ServiceVersion : string;
  Environment : string;
  Enabled : bool;
  Endpoint : string;
}.
End MetricsConfig.

Definition ParseLogLevel (level : string) : LogLevel :=
  if String.eqb level "debug" then DebugLevel
  else if String.eqb level "info" then InfoLevel
  else if String.eqb level "warn" || String.eqb level "warning" then WarnLevel
  else if String.eqb level "error" then ErrorLevel
  else if String.eqb level "fatal" then FatalLevel
  else InfoLevel.

Definition ParseLogFormat (format : string) : LogFormat :=
  if String.eqb format "json" then JSONFormat
  else if String.eqb format "console" then ConsoleFormat
  else JSONFormat.

(** ** The logging backend (go.uber.org/zap), as the facade uses it *)

Module zapcore.
Definition Level : Type := Z.
Definition DebugLevel : Level := -1.
Definition InfoLevel : Level := 0.
Definition WarnLevel : Level := 1.
Definition ErrorLevel : Level := 2.
Definition DPanicLevel : Level := 3.
Definition PanicLevel : Level := 4.
Definition FatalLevel : Level := 5.

(** [LevelEnabler.Enabled]: a core at level [min] takes an entry at [lvl]. *)
Definition Enabled (min lvl : Level) : bool := min <=? lvl.

Inductive Encoder : Type := JSONEncoder | ConsoleEncoder.
End zapcore.

Module zap.

(** What [zap.Any] is given. *)
Inductive Value : Type :=
| VString (s : string)
| VInt (n : Z)
| VBool (b : bool).

Inductive Field : Type :=
| String (key val : string)
| Error (err : error)
| Any (key : string) (v : Value).

Definition Key (f : Field) : string :=
  match f with
  | String key _ => key
  | Error _ => "error"
  | Any key _ => key
  end.

Inductive Writer : Type :=
| Stdout
| Stderr
| File (path : string).

(** A [*zap.Logger]: its core (level, encoder, outputs, the fields bound by
    [With]) and its options.  A zap logger is never updated in place;
    [With] and [WithOptions] answer a clone. *)
Record Logger : Type := mkLogger {
  level : zapcore.Level;
  encoder : zapcore.Encoder;
  outputs : list Writer;
  context : list Field;
  addCaller : bool;
  addStack : zapcore.Level;
  development : bool;
  callerSkip : Z;
}.

Definition With (l : Logger) (fields : list Field) : Logger :=
  {| level := level l; encoder := encoder l; outputs := outputs l;
     context := context l ++ fields;
     addCaller := addCaller l; addStack := addStack l;
     development := development l; callerSkip := callerSkip l |}.

(** [l.WithOptions(zap.AddCallerSkip(n))]. *)
Definition AddCallerSkip (l : Logger) (n : Z) : Logger :=
  {| level := level l; encoder := encoder l; outputs := outputs l;
     context := context l;
     addCaller := addCaller l; addStack := addStack l;
     development := development l; callerSkip := callerSkip l + n |}.

(** What the core writes for one log call. *)
Record Entry : Type := mkEntry {
  entry_level : zapcore.Level;
  entry_message : string;
  entry_fields : list Field;
  entry_outputs : list Writer;
  entry_encoder : zapcore.Encoder;
}.

Definition has_key (key : string) (fields : list Field) : bool :=
  existsb (fun f => String.eqb (Key f) key) fields.

End zap.

(** ** The tracing and metrics backends (OpenTelemetry) *)

Inductive Sampler : Type :=
| AlwaysSample
| NeverSample
| TraceIDRatioBased (fraction : float).

Inductive InstrumentKind : Type :=
| Int64Counter
| Float64Histogram
| Float64ObservableGauge.

#[global] Instance InstrumentKind_eq_dec : EqDecision InstrumentKind.
Proof. solve_decision. Defined.

(** An instrument the meter has made.  [inst_id] is its rank among the
    instruments of the meter: two calls of the meter give two instruments,
    also under one name. *)
Record Instrument : Type := mkInstrument {
  inst_kind : InstrumentKind;
  inst_name : string;
  inst_description : string;
  inst_unit : string;
  inst_id : nat;
}.

Definition KeyValue : Type := (string * string)%type.

(** ** Tracer facade (tracer.go) *)

Record Tracer : Type := mkTracer {
  Tracer_tracer : string;   (* the backend tracer, known by the name asked for *)
  Tracer_name : string;
}.

(** [NewTracer] asks the global provider for a tracer of that name. *)
Definition NewTracer (name : string) : Tracer :=
  {| Tracer_tracer := name; Tracer_name := name |}.

Definition GetName (t : Tracer) : string := Tracer_name t.

Definition Tracer_GetTraceID (t : Tracer) (ctx : Context) : string :=
  let spanCtx := SpanContextFromContext ctx in
  if trace.IsValid spanCtx then trace.ID_String (trace.traceID spanCtx) else "".

Definition Tracer_GetSpanID (t : Tracer) (ctx : Context) : string :=
  let spanCtx := SpanContextFromContext ctx in
  if trace.IsValid spanCtx then trace.ID_String (trace.spanID spanCtx) else "".

(** Package-level [GetTraceID] and [GetSpanID]. *)
Definition GetTraceID (ctx : Context) : string :=
  let spanCtx := SpanContextFromContext ctx in
  if trace.IsValid spanCtx then trace.ID_String (trace.traceID spanCtx) else "".

Definition GetSpanID (ctx : Context) : string :=
  let spanCtx := SpanContextFromContext ctx in
  if trace.IsValid spanCtx then trace.ID_String (trace.spanID spanCtx) else "".

(** ** The world: what the backends are asked and what they answer *)

(** The calls of the orchestrator, recorded where they are made. *)
Inductive CallSite : Type :=
| Call_NewLogger
| Call_setupTracing
| Call_NewMetrics
| Call_tracerShutdown (ctx : Context)
| Call_Metrics_Shutdown (ctx : Context)
| Call_Logger_Error (ctx : Context) (msg : string) (fields : list zap.Field)
| Call_Logger_Sync.

Inductive Event : Type :=
| Called (c : CallSite)
| OpenFile (path : string)
| ZapWrite (e : zap.Entry)
| ZapSync (outputs : list zap.Writer)
| Printf (s : string)
| ResourceNew (attrs : list KeyValue)
| TraceExporterNew (endpoint : string)
| MetricExporterNew (endpoint : string)
| SetTracerProvider (sampler : Sampler)
| SetTextMapPropagator
| SetMeterProvider
| OtelTracer (name : string)
| TracerProviderShutdown (ctx : Context)
| MeterProviderShutdown (ctx : Context)
| MeterInstrument (i : Instrument)
| MeterRegisterCallback (i : Instrument)
| CounterAdd (i : Instrument) (ctx : Context) (value : Z) (attrs : list KeyValue)
| HistogramRecord (i : Instrument) (ctx : Context) (value : float) (attrs : list KeyValue)
| Cancel.

(** The facade struct [Logger] of logger.go. *)
Record Logger : Type := mkLoggerFacade {
  logger : zap.Logger;
}.

(** A [*Logger]: an index into the heap of facade structs. *)
Definition ptr : Type := nat.

Record State : Type := mkState {
  loggers : list Logger;            (* the [Logger] structs allocated so far *)
  instruments : list Instrument;    (* what the meter has made, oldest first *)
  now : Z;                          (* the clock, in nanoseconds *)
  events : list Event;              (* backend interactions, oldest first *)
}.

(** The answers of the collaborators.  [None] is a nil error. *)
Record Env : Type := mkEnv {
  os_OpenFile : string → option error;
  resource_New : list KeyValue → option error;
  otlptrace_New : string → option error;
  otlpmetricgrpc_New : string → option error;
  TracerProvider_Shutdown : Context → option error;
  MeterProvider_Shutdown : Context → option error;
  zap_Sync : list zap.Writer → option error;
  (* the meter is asked for an instrument, having made those of the list *)
  meter_new : list Instrument → InstrumentKind → string → option error;
  meter_RegisterCallback : list Instrument → Instrument → option error;
}.

(** ** The monad of the package: state, panics and process exit *)

Inductive Outcome (A : Type) : Type :=
| Done (a : A)
| Panic (msg : string)
| Exit (code : Z).
Arguments Done {A} a.
Arguments Panic {A} msg.
Arguments Exit {A} code.

Definition M (A : Type) : Type := State → Outcome A * State.

#[global] Instance M_ret : MRet M := λ A a s, (Done a, s).

#[global] Instance M_bind : MBind M := λ A B f m s,
  match m s with
  | (Done a, s') => f a s'
  | (Panic msg, s') => (Panic msg, s')
  | (Exit code, s') => (Exit code, s')
  end.

Definition get : M State := λ s, (Done s, s).

Definition emit (e : Event) : M unit := λ s,
  (Done tt, {| loggers := loggers s; instruments := instruments s;
               now := now s; events := events s ++ [e] |}).

Definition panic {A : Type} (msg : string) : M A := λ s, (Panic msg, s).

(** [os.Exit]. *)
Definition os_Exit {A : Type} (code : Z) : M A := λ s, (Exit code, s).

Definition nil_dereference : string :=
  "runtime error: invalid memory address or nil pointer dereference".

(** [&Logger{...}]: a new struct, at a new address. *)
Definition alloc (l : Logger) : M ptr := λ s,
  (Done (length (loggers s)),
   {| loggers := loggers s ++ [l]; instruments := instruments s;
      now := now s; events := events s |}).

Definition deref (p : ptr) : M Logger := λ s,
  match loggers s !! p with
  | Some l => (Done l, s)
  | None => (Panic nil_dereference, s)
  end.

(** A call of the orchestrator, recorded before it runs. *)
Definition call {A : Type} (c : CallSite) (m : M A) : M A := emit (Called c);; m.

(** The trace a computation adds to a state. *)
Definition run_events {A : Type} (m : M A) (s : State) : list Event :=
  drop (length (events s)) (events (m s).2).

Definition newline : string := String (ascii_of_nat 10) EmptyString.

(** [tp.Shutdown(ctx)] of the tracer provider and
    [meterProvider.Shutdown(ctx)] of the meter provider. *)
Definition tp_Shutdown (env : Env) (ctx : Context) : M (option error) :=
  emit (TracerProviderShutdown ctx);;
  mret (TracerProvider_Shutdown env ctx).

Definition meterProvider_Shutdown (env : Env) (ctx : Context) : M (option error) :=
  emit (MeterProviderShutdown ctx);;
  mret (MeterProvider_Shutdown env ctx).

(** One log call on a zap logger: the core writes the entry when its level
    lets it through, with the bound fields before the fields of the call;
    an entry at the fatal level ends the process after the write. *)
Definition zap_log (zl : zap.Logger) (lvl : zapcore.Level) (msg : string)
    (fields : list zap.Field) : M unit :=
  (if zapcore.Enabled (zap.level zl) lvl
   then emit (ZapWrite {| zap.entry_level := lvl;
                          zap.entry_message := msg;
                          zap.entry_fields := zap.context zl ++ fields;
                          zap.entry_outputs := zap.outputs zl;
                          zap.entry_encoder := zap.encoder zl |})
   else mret tt);;
  if lvl =? zapcore.FatalLevel then os_Exit 1 else mret tt.

(** ** Logger facade (logger.go) *)

(** [extractTraceFields]. *)
Definition extractTraceFields (ctx : Context) : list zap.Field :=
  let fields := [] in
  let spanCtx := SpanContextFromContext ctx in
  if trace.IsValid spanCtx
  then
    let fields := fields ++ [zap.String "trace_id" (trace.ID_String (trace.traceID spanCtx))] in
    let fields := fields ++ [zap.String "span_id" (trace.ID_String (trace.spanID spanCtx))] in
    fields
  else fields.

(** [Logger.With]: a new facade struct around the clone zap answers. *)
Definition With (l : ptr) (fields : list zap.Field) : M ptr :=
  lg ← deref l;
  alloc {| logger := zap.With (logger lg) fields |}.

(** [Logger.WithFields].  Go ranges over the map in an order of its own
    choosing; [fields] lists the map in the order of that range. *)
Definition WithFields (l : ptr) (fields : list (string * zap.Value)) : M ptr :=
  let zapFields := foldl (λ zapFields kv, zapFields ++ [zap.Any kv.1 kv.2]) [] fields in
  lg ← deref l;
  alloc {| logger := zap.With (logger lg) zapFields |}.

Definition getSkippedLogger (l : ptr) : M zap.Logger :=
  lg ← deref l;
  mret (zap.AddCallerSkip (logger lg) 1).

Definition Logger_Debug (l : ptr) (ctx : Context) (msg : string)
    (fields : list zap.Field) : M unit :=
  let fields := fields ++ extractTraceFields ctx in
  zl ← getSkippedLogger l;
  zap_log zl zapcore.DebugLevel msg fields.

Definition Logger_Info (l : ptr) (ctx : Context) (msg : string)
    (fields : list zap.Field) : M unit :=
  let fields := fields ++ extractTraceFields ctx in
  zl ← getSkippedLogger l;
  zap_log zl zapcore.InfoLevel msg fields.

Definition Logger_Warn (l : ptr) (ctx : Context) (msg : string)
    (fields : list zap.Field) : M unit :=
  let fields := fields ++ extractTraceFields ctx in
  zl ← getSkippedLogger l;
  zap_log zl zapcore.WarnLevel msg fields.

Definition Logger_Error (l : ptr) (ctx : Context) (msg : string)
    (fields : list zap.Field) : M unit :=
  let fields := fields ++ extractTraceFields ctx in
  zl ← getSkippedLogger l;
  zap_log zl zapcore.ErrorLevel msg fields.

Definition Logger_Fatal (l : ptr) (ctx : Context) (msg : string)
    (fields : list zap.Field) : M unit :=
  let fields := fields ++ extractTraceFields ctx in
  zl ← getSkippedLogger l;
  zap_log zl zapcore.FatalLevel msg fields.

(** The five logging methods and the zap level each logs at. *)
Inductive Method : Type :=
| Method_Debug
| Method_Info
| Method_Warn
| Method_Error
| Method_Fatal.

Definition method_level (mth : Method) : zapcore.Level :=
  match mth with
  | Method_Debug => zapcore.DebugLevel
  | Method_Info => zapcore.InfoLevel
  | Method_Warn => zapcore.WarnLevel
  | Method_Error => zapcore.ErrorLevel
  | Method_Fatal => zapcore.FatalLevel
  end.

Definition Logger_call (mth : Method)
    : ptr → Context → string → list zap.Field → M unit :=
  match mth with
  | Method_Debug => Logger_Debug
  | Method_Info => Logger_Info
  | Method_Warn => Logger_Warn
  | Method_Error => Logger_Error
  | Method_Fatal => Logger_Fatal
  end.

Section Package.

Context (env : Env).

(** The loop of [NewLogger] over [config.OutputPaths]. *)
Fixpoint open_outputs (paths : list string) (outputs : list zap.Writer)
    : M (res (list zap.Writer)) :=
  match paths with
  | [] => mret (Ok outputs)
  | path :: rest =>
      if String.eqb path "stdout" then open_outputs rest (outputs ++ [zap.Stdout])
      else if String.eqb path "stderr" then open_outputs rest (outputs ++ [zap.Stderr])
      else
        emit (OpenFile path);;
        match os_OpenFile env path with
        | Some err => mret (Err err)
        | None => open_outputs rest (outputs ++ [zap.File path])
        end
  end.

(** [NewLogger].  The write syncer of the core, one output or the multi
    syncer of several, is kept as the list of its outputs. *)
Definition NewLogger (config : LogConfig.t) : M (res ptr) :=
  let logLevel :=
    if LogConfig.Level config =? DebugLevel then zapcore.DebugLevel
    else if LogConfig.Level config =? InfoLevel then zapcore.InfoLevel
    else if LogConfig.Level config =? WarnLevel then zapcore.WarnLevel
    else if LogConfig.Level config =? ErrorLevel then zapcore.ErrorLevel
    else if LogConfig.Level config =? FatalLevel then zapcore.FatalLevel
    else zapcore.InfoLevel in
  r ← open_outputs (LogConfig.OutputPaths config) [];
  match r with
  | Err err => mret (Err err)
  | Ok outputs =>
      let outputs := if (length outputs =? 0)%nat then outputs ++ [zap.Stdout] else outputs in
      let encoder :=
        if LogConfig.Format config =? JSONFormat
        then zapcore.JSONEncoder else zapcore.ConsoleEncoder in
      let zl :=
        {| zap.level := logLevel; zap.encoder := encoder; zap.outputs := outputs;
           zap.context := [];
           zap.addCaller := true; zap.addStack := zapcore.ErrorLevel;
           zap.development := LogConfig.Development config;
           zap.callerSkip := 0 |} in
      l ← alloc {| logger := zl |};
      mret (Ok l)
  end.

(** [Logger.Sync]. *)
Definition Logger_Sync (l : ptr) : M (option error) :=
  lg ← deref l;
  emit (ZapSync (zap.outputs (logger lg)));;
  mret (zap_Sync env (zap.outputs (logger lg))).

End Package.

(** ** Metrics facade (metrics.go) *)

Record Meter : Type := mkMeter {
  meter_name : string;
}.

(** The struct [Metrics].  [meter] is an interface value: [None] is nil. *)
Record Metrics : Type := mkMetrics {
  meter : option Meter;
  counters : gmap string Instrument;
  gauges : gmap string Instrument;
  histograms : gmap string Instrument;
  shutdown : M (option error);
}.

Definition set_counters (m : Metrics) (c : gmap string Instrument) : Metrics :=
  {| meter := meter m; counters := c; gauges := gauges m;
     histograms := histograms m; shutdown := shutdown m |}.

Definition set_gauges (m : Metrics) (g : gmap string Instrument) : Metrics :=
  {| meter := meter m; counters := counters m; gauges := g;
     histograms := histograms m; shutdown := shutdown m |}.

Definition set_histograms (m : Metrics) (h : gmap string Instrument) : Metrics :=
  {| meter := meter m; counters := counters m; gauges := gauges m;
     histograms := h; shutdown := shutdown m |}.

(** The meter records the instrument it has made. *)
Definition register (i : Instrument) : M unit := λ s,
  (Done tt, {| loggers := loggers s; instruments := instruments s ++ [i];
               now := now s; events := events s ++ [MeterInstrument i] |}).

(** [float64(n)] for an [int64]. *)
Definition float_of_Z (n : Z) : float :=
  if n <? 0 then PrimFloat.opp (PrimFloat.of_uint63 (Uint63.of_Z (- n)))
  else PrimFloat.of_uint63 (Uint63.of_Z n).

(** [Duration.Seconds]. *)
Definition Duration_Seconds (d : Z) : float :=
  let sec := Z.quot d time.Second in
  let nsec := Z.rem d time.Second in
  PrimFloat.add (float_of_Z sec) (PrimFloat.div (float_of_Z nsec) 1e9%float).

Section Metrics.

Context (env : Env).

(** A method of the meter that makes an instrument.  On a nil meter the
    call is a nil dereference. *)
Definition meter_instrument (mt : option Meter) (kind : InstrumentKind)
    (name description unit : string) : M (res Instrument) :=
  match mt with
  | None => panic nil_dereference
  | Some _ =>
      s ← get;
      match meter_new env (instruments s) kind name with
      | Some err => mret (Err err)
      | None =>
          let i := {| inst_kind := kind; inst_name := name;
                      inst_description := description; inst_unit := unit;
                      inst_id := length (instruments s) |} in
          register i;;
          mret (Ok i)
      end
  end.

(** [meter.RegisterCallback(f, gauge)]. *)
Definition Meter_RegisterCallback (mt : option Meter) (callback : unit → float)
    (gauge : Instrument) : M (option error) :=
  match mt with
  | None => panic nil_dereference
  | Some _ =>
      s ← get;
      match meter_RegisterCallback env (instruments s) gauge with
      | Some err => mret (Some err)
      | None => emit (MeterRegisterCallback gauge);; mret None
      end
  end.

Definition NewMetrics (ctx : Context) (config : MetricsConfig.t) : M (res Metrics) :=
  if negb (MetricsConfig.Enabled config)
  then mret (Ok {| meter := None; counters := ∅; gauges := ∅; histograms := ∅;
                   shutdown := mret None |})
  else
    let attrs := [("service.name", MetricsConfig.ServiceName config);
                  ("service.version", MetricsConfig.ServiceVersion config);
                  ("environment", MetricsConfig.Environment config)] in
    emit (ResourceNew attrs);;
    match resource_New env attrs with
    | Some err => mret (Err (Errorf "failed to create resource" err))
    | None =>
        emit (MetricExporterNew (MetricsConfig.Endpoint config));;
        match otlpmetricgrpc_New env (MetricsConfig.Endpoint config) with
        | Some err => mret (Err (Errorf "failed to create OTLP exporter" err))
        | None =>
            emit SetMeterProvider;;
            let meter := {| meter_name := MetricsConfig.ServiceName config |} in
            mret (Ok {| meter := Some meter;
                        counters := ∅; gauges := ∅; histograms := ∅;
                        shutdown := meterProvider_Shutdown env ctx |})
        end
    end.

(** [Metrics.Shutdown]: the context it is given is not used. *)
Definition Metrics_Shutdown (m : Metrics) (ctx : Context) : M (option error) :=
  shutdown m.

(** The methods below have a pointer receiver and update the maps of the
    facade in place: each takes the facade and answers it as it leaves it. *)

Definition CreateCounter (m : Metrics) (name description : string)
    : M (res Instrument * Metrics) :=
  match counters m !! name with
  | Some counter => mret (Ok counter, m)
  | None =>
      r ← meter_instrument (meter m) Int64Counter name description "";
      match r with
      | Err err => mret (Err (Errorf "failed to create counter" err), m)
      | Ok counter =>
          mret (Ok counter, set_counters m (<[name := counter]> (counters m)))
      end
  end.

Definition IncrementCounter (m : Metrics) (ctx : Context) (name : string)
    (value : Z) (attrs : list KeyValue) : M (option error * Metrics) :=
  match counters m !! name with
  | Some counter =>
      emit (CounterAdd counter ctx value attrs);;
      mret (None, m)
  | None =>
      '(r, m) ← CreateCounter m name ("Counter for " +:+ name);
      match r with
      | Err err =>
          emit (Printf ("Failed to create counter: " +:+ Error err +:+ newline));;
          mret (Some err, m)
      | Ok counter =>
          emit (CounterAdd counter ctx value attrs);;
          mret (None, m)
      end
  end.

Definition CreateHistogram (m : Metrics) (name description unit : string)
    : M (res Instrument * Metrics) :=
  match histograms m !! name with
  | Some histogram => mret (Ok histogram, m)
  | None =>
      r ← meter_instrument (meter m) Float64Histogram name description unit;
      match r with
      | Err err => mret (Err (Errorf "failed to create histogram" err), m)
      | Ok histogram =>
          mret (Ok histogram, set_histograms m (<[name := histogram]> (histograms m)))
      end
  end.

Definition RecordHistogram (m : Metrics) (ctx : Context) (name : string)
    (value : float) (attrs : list KeyValue) : M (option error * Metrics) :=
  match histograms m !! name with
  | Some histogram =>
      emit (HistogramRecord histogram ctx value attrs);;
      mret (None, m)
  | None =>
      '(r, m) ← CreateHistogram m name ("Duration of " +:+ name) "s";
      match r with
      | Err err =>
          emit (Printf ("Failed to create histogram: " +:+ Error err +:+ newline));;
          mret (Some err, m)
      | Ok histogram =>
          emit (HistogramRecord histogram ctx value attrs);;
          mret (None, m)
      end
  end.

Definition CreateGauge (m : Metrics) (name description : string)
    (callback : unit → float) : M (res Instrument * Metrics) :=
  match gauges m !! name with
  | Some gauge => mret (Ok gauge, m)
  | None =>
      r ← meter_instrument (meter m) Float64ObservableGauge name description "";
      match r with
      | Err err => mret (Err (Errorf "failed to create gauge" err), m)
      | Ok gauge =>
          err ← Meter_RegisterCallback (meter m) callback gauge;
          match err with
          | Some err => mret (Err (Errorf "failed to register callback" err), m)
          | None => mret (Ok gauge, set_gauges m (<[name := gauge]> (gauges m)))
          end
      end
  end.

(** The stop function [MeasureDuration] answers, with the variables it
    closes over; it runs on the facade as it is when it is called. *)
Definition MeasureDuration_stop (start : Z) (ctx : Context) (name : string)
    (attrs : list KeyValue) (m : Metrics) : M Metrics :=
  s ← get;
  let duration := Duration_Seconds (now s - start) in
  match histograms m !! name with
  | Some histogram =>
      emit (HistogramRecord histogram ctx duration attrs);;
      mret m
  | None =>
      '(r, m) ← CreateHistogram m name ("Duration of " +:+ name) "s";
      match r with
      | Err err =>
          emit (Printf ("Failed to create histogram: " +:+ Error err +:+ newline));;
          mret m
      | Ok histogram =>
          emit (HistogramRecord histogram ctx duration attrs);;
          mret m
      end
  end.

Definition MeasureDuration (m : Metrics) (ctx : Context) (name : string)
    (attrs : list KeyValue) : M (Metrics → M Metrics) :=
  s ← get;
  let start := now s in
  mret (MeasureDuration_stop start ctx name attrs).

(** *** The three caches, by kind *)

Definition cache (k : InstrumentKind) (m : Metrics) : gmap string Instrument :=
  match k with
  | Int64Counter => counters m
  | Float64Histogram => histograms m
  | Float64ObservableGauge => gauges m
  end.

Definition set_cache (k : InstrumentKind) (m : Metrics) (c : gmap string Instrument)
    : Metrics :=
  match k with
  | Int64Counter => set_counters m c
  | Float64Histogram => set_histograms m c
  | Float64ObservableGauge => set_gauges m c
  end.

(** [CreateCounter], [CreateHistogram] or [CreateGauge]. *)
Definition Create (k : InstrumentKind) (m : Metrics) (name description unit_ : string)
    (callback : unit → float) : M (res Instrument * Metrics) :=
  match k with
  | Int64Counter => CreateCounter m name description
  | Float64Histogram => CreateHistogram m name description unit_
  | Float64ObservableGauge => CreateGauge m name description callback
  end.

(** *** The life of a facade: any sequence of its operations *)

Inductive Op : Type :=
| OpCreateCounter (name description : string)
| OpIncrementCounter (ctx : Context) (name : string) (value : Z) (attrs : list KeyValue)
| OpCreateHistogram (name description unit : string)
| OpRecordHistogram (ctx : Context) (name : string) (value : float) (attrs : list KeyValue)
| OpCreateGauge (name description : string) (callback : unit → float)
| OpMeasureDuration (ctx : Context) (name : string) (attrs : list KeyValue)
| OpStop (start : Z) (ctx : Context) (name : string) (attrs : list KeyValue).

Definition run_op (o : Op) (m : Metrics) : M Metrics :=
  match o with
  | OpCreateCounter name description =>
      r ← CreateCounter m name description; mret r.2
  | OpIncrementCounter ctx name value attrs =>
      r ← IncrementCounter m ctx name value attrs; mret r.2
  | OpCreateHistogram name description unit =>
      r ← CreateHistogram m name description unit; mret r.2
  | OpRecordHistogram ctx name value attrs =>
      r ← RecordHistogram m ctx name value attrs; mret r.2
  | OpCreateGauge name description callback =>
      r ← CreateGauge m name description callback; mret r.2
  | OpMeasureDuration ctx name attrs =>
      MeasureDuration m ctx name attrs;; mret m
  | OpStop start ctx name attrs =>
      MeasureDuration_stop start ctx name attrs m
  end.

Fixpoint run_ops (ops : list Op) (m : Metrics) : M Metrics :=
  match ops with
  | [] => mret m
  | o :: ops => m ← run_op o m; run_ops ops m
  end.

(** *** Concurrent callers: the steps of a Create call

    A call of [CreateCounter], [CreateHistogram] or [CreateGauge] reads its
    cache, asks the meter, ([CreateGauge] registers the callback,) and
    writes its cache.  Nothing in [Metrics] orders these steps between
    callers: the facade has no lock.  A caller is at one of the points
    below, and a schedule says which caller takes the next step. *)

Inductive pc : Type :=
| AtLookup
| AtCreate
| AtRegister (i : Instrument)
| AtInsert (i : Instrument)
| Returned (r : res Instrument).

Record Caller : Type := mkCaller {
  c_kind : InstrumentKind;
  c_name : string;
  c_description : string;
  c_unit : string;
  c_callback : unit → float;
  c_pc : pc;
}.

Definition at_pc (c : Caller) (p : pc) : Caller :=
  {| c_kind := c_kind c; c_name := c_name c; c_description := c_description c;
     c_unit := c_unit c; c_callback := c_callback c; c_pc := p |}.

Definition failed_to_create (k : InstrumentKind) : string :=
  match k with
  | Int64Counter => "failed to create counter"
  | Float64Histogram => "failed to create histogram"
  | Float64ObservableGauge => "failed to create gauge"
  end.

Definition step (c : Caller) (m : Metrics) : M (Caller * Metrics) :=
  match c_pc c with
  | AtLookup =>
      match cache (c_kind c) m !! c_name c with
      | Some i => mret (at_pc c (Returned (Ok i)), m)
      | None => mret (at_pc c AtCreate, m)
      end
  | AtCreate =>
      r ← meter_instrument (meter m) (c_kind c) (c_name c) (c_description c)
            (match c_kind c with Float64Histogram => c_unit c | _ => "" end);
      match r with
      | Err err => mret (at_pc c (Returned (Err (Errorf (failed_to_create (c_kind c)) err))), m)
      | Ok i =>
          match c_kind c with
          | Float64ObservableGauge => mret (at_pc c (AtRegister i), m)
          | _ => mret (at_pc c (AtInsert i), m)
          end
      end
  | AtRegister i =>
      err ← Meter_RegisterCallback (meter m) (c_callback c) i;
      match err with
      | Some err => mret (at_pc c (Returned (Err (Errorf "failed to register callback" err))), m)
      | None => mret (at_pc c (AtInsert i), m)
      end
  | AtInsert i =>
      mret (at_pc c (Returned (Ok i)),
            set_cache (c_kind c) m (<[c_name c := i]> (cache (c_kind c) m)))
  | Returned _ => mret (c, m)
  end.

(** The callers take steps in the order of the schedule. *)
Fixpoint run_schedule (schedule : list nat) (cs : list Caller) (m : Metrics)
    : M (list Caller * Metrics) :=
  match schedule with
  | [] => mret (cs, m)
  | t :: schedule =>
      match cs !! t with
      | Some c =>
          '(c, m) ← step c m;
          run_schedule schedule (<[t := c]> cs) m
      | None => run_schedule schedule cs m
      end
  end.

(** A call has at most four steps; [serial n] runs [n] callers one after
    the other, each to its end. *)
Definition serial (n : nat) : list nat :=
  flat_map (λ t, replicate 4 t) (seq 0 n).

Definition first_use (k : InstrumentKind) (name description unit_ : string)
    (callback : unit → float) : Caller :=
  {| c_kind := k; c_name := name; c_description := description; c_unit := unit_;
     c_callback := callback; c_pc := AtLookup |}.

(** The instruments of a kind and a name among those the meter has made. *)
Definition made (k : InstrumentKind) (name : string) (l : list Instrument)
    : list Instrument :=
  filter (λ i, inst_kind i = k ∧ inst_name i = name) l.

End Metrics.

(** ** Provider and orchestrator *)

Module ObservabilityProvider.
Record t : Type := mk {
  Logger : ptr;
  Tracer : Tracer;
  Metrics : Metrics;
  serviceName : string;
  serviceVersion : string;
}.
End ObservabilityProvider.

Definition NewObservabilityProvider (logger : ptr) (tracer : Tracer) (metrics : Metrics)
    (serviceName serviceVersion : string) : ObservabilityProvider.t :=
  {| ObservabilityProvider.Logger := logger;
     ObservabilityProvider.Tracer := tracer;
     ObservabilityProvider.Metrics := metrics;
     ObservabilityProvider.serviceName := serviceName;
     ObservabilityProvider.serviceVersion := serviceVersion |}.

(** The sampler [setupTracing] builds from [config.SamplingRate]. *)
Definition sampler_of (SamplingRate : float) : Sampler :=
  if PrimFloat.leb 1.0%float SamplingRate then AlwaysSample
  else if PrimFloat.leb SamplingRate 0.0%float then NeverSample
  else TraceIDRatioBased SamplingRate.

Section Orchestrator.

Context (env : Env).

(** [setupTracing] answers the tracer and its shutdown function. *)
Definition setupTracing (ctx : Context) (config : TracingConfig.t)
    : M (res (Tracer * (Context → M (option error)))) :=
  if negb (TracingConfig.Enabled config)
  then
    emit (OtelTracer (TracingConfig.ServiceName config));;
    let tracer := NewTracer (TracingConfig.ServiceName config) in
    mret (Ok (tracer, λ _ : Context, mret None))
  else
    let attrs := [("service.name", TracingConfig.ServiceName config);
                  ("service.version", TracingConfig.ServiceVersion config);
                  ("deployment.environment", TracingConfig.Environment config)] in
    emit (ResourceNew attrs);;
    match resource_New env attrs with
    | Some err => mret (Err (Errorf "failed to create resource" err))
    | None =>
        emit (TraceExporterNew (TracingConfig.Endpoint config));;
        match otlptrace_New env (TracingConfig.Endpoint config) with
        | Some err => mret (Err (Errorf "failed to create OTLP exporter" err))
        | None =>
            let sampler := sampler_of (TracingConfig.SamplingRate config) in
            emit (SetTracerProvider sampler);;
            emit SetTextMapPropagator;;
            emit (OtelTracer (TracingConfig.ServiceName config));;
            let tracer := NewTracer (TracingConfig.ServiceName config) in
            mret (Ok (tracer, tp_Shutdown env))
        end
    end.

(** The cleanup function [InitializeObservabilityProvider] answers, with
    the three variables it closes over. *)
Definition cleanup (metrics : Metrics) (tracerShutdown : Context → M (option error))
    (logger : ptr) : M unit :=
  let ctx := context.WithTimeout context.Background (5 * time.Second) in
  err ← call (Call_Metrics_Shutdown ctx) (Metrics_Shutdown metrics ctx);
  match err with
  | Some err =>
      call (Call_Logger_Error ctx "Error shutting down metrics" [zap.Error err])
        (Logger_Error logger ctx "Error shutting down metrics" [zap.Error err])
  | None => mret tt
  end;;
  err ← call (Call_tracerShutdown ctx) (tracerShutdown ctx);
  match err with
  | Some err =>
      call (Call_Logger_Error ctx "Error shutting down tracer" [zap.Error err])
        (Logger_Error logger ctx "Error shutting down tracer" [zap.Error err])
  | None => mret tt
  end;;
  err ← call Call_Logger_Sync (Logger_Sync env logger);
  match err with
  | Some err => emit (Printf ("Error syncing logger: " +:+ Error err +:+ newline))
  | None => mret tt
  end;;
  emit Cancel.

Definition InitializeObservabilityProvider (ctx : Context)
    (logConfig : LogConfig.t) (tracingConfig : TracingConfig.t)
    (metricsConfig : MetricsConfig.t)
    : M (res (ObservabilityProvider.t * M unit)) :=
  r ← call Call_NewLogger (NewLogger env logConfig);
  match r with
  | Err err => mret (Err (Errorf "failed to initialize logger" err))
  | Ok logger =>
      r ← call Call_setupTracing (setupTracing ctx tracingConfig);
      match r with
      | Err err => mret (Err (Errorf "failed to initialize tracer" err))
      | Ok (tracer, tracerShutdown) =>
          r ← call Call_NewMetrics (NewMetrics env ctx metricsConfig);
          match r with
          | Err err =>
              call (Call_tracerShutdown ctx) (tracerShutdown ctx);;
              mret (Err (Errorf "failed to initialize metrics" err))
          | Ok metrics =>
              mret (Ok ({| ObservabilityProvider.Logger := logger;
                           ObservabilityProvider.Tracer := tracer;
                           ObservabilityProvider.Metrics := metrics;
                           ObservabilityProvider.serviceName :=
                             TracingConfig.ServiceName tracingConfig;
                           ObservabilityProvider.serviceVersion :=
                             TracingConfig.ServiceVersion tracingConfig |},
                        cleanup metrics tracerShutdown logger))
          end
      end
  end.

End Orchestrator.

(** A state with more events. *)
Definition add_events (s : State) (evs : list Event) : State :=
  {| loggers := loggers s; instruments := instruments s; now := now s;
     events := events s ++ evs |}.

(** The entry a logging method hands to the core. *)
Definition entry_of (zl : zap.Logger) (mth : Method) (msg : string)
    (fields : list zap.Field) : zap.Entry :=
  {| zap.entry_level := method_level mth;
     zap.entry_message := msg;
     zap.entry_fields := zap.context zl ++ fields;
     zap.entry_outputs := zap.outputs zl;
     zap.entry_encoder := zap.encoder zl |}.

(** ** Reading a trace *)

(** The calls of the orchestrator in a trace, in order. *)
Definition calls_of (evs : list Event) : list CallSite :=
  omap (λ e, match e with Called c => Some c | _ => None end) evs.

(** The context a backend shutdown call was given: [Some None] for a
    shutdown call that takes no context, [None] for any other event. *)
Definition shutdown_context (e : Event) : option (option Context) :=
  match e with
  | MeterProviderShutdown ctx => Some (Some ctx)
  | TracerProviderShutdown ctx => Some (Some ctx)
  | ZapSync _ => Some None
  | _ => None
  end.

Definition Context_eqb (a b : Context) : bool :=
  bool_decide (ctx_timeout a = ctx_timeout b) &&
  match ctx_span a, ctx_span b with
  | None, None => true
  | Some x, Some y =>
      bool_decide (trace.traceID x = trace.traceID y) &&
      bool_decide (trace.spanID x = trace.spanID y)
  | _, _ => false
  end.

(** Every backend shutdown call of the trace was given the context [ctx]. *)
Definition shutdowns_guarded_by (ctx : Context) (evs : list Event) : bool :=
  forallb (λ e, match shutdown_context e with
                | Some (Some c) => Context_eqb c ctx
                | Some None => false
                | None => true
                end) evs.

(** The events of building a backend. *)
Definition constructing (e : Event) : bool :=
  match e with
  | OpenFile _ | ResourceNew _ | TraceExporterNew _ | MetricExporterNew _
  | SetTracerProvider _ | SetTextMapPropagator | SetMeterProvider | OtelTracer _ => true
  | _ => false
  end.

(** The backend shutdown calls of a trace, each with the context it was
    given, in order. *)
Definition teardowns (evs : list Event) : list (option Context) :=
  omap shutdown_context evs.

(** A computation that only builds backends: whatever the state, the
    events it adds are events of building. *)
Definition builds {A : Type} (m : M A) : Prop :=
  ∀ s, ∃ evs, events (m s).2 = events s ++ evs ∧
              Forall (λ e, constructing e = true) evs.

(** The error-log call that follows a failed step. *)
Definition logged (ctx : Context) (msg : string) (err : option error) : list CallSite :=
  match err with
  | Some err => [Call_Logger_Error ctx msg [zap.Error err]]
  | None => []
  end.

(** The context of the cleanup: the background context with a timeout of
    five seconds. *)
Definition timeoutCtx : Context :=
  context.WithTimeout context.Background (5 * time.Second).

(** What the cleanup adds to the trace after a step that answered [err]:
    nothing when the step went well; the call of [Logger.Error], and the
    entry when the logger emits the error level, when it failed. *)
Definition log_error (lg : Logger) (ctx : Context) (msg : string)
    (err : option error) : list Event :=
  match err with
  | Some err =>
      Called (Call_Logger_Error ctx msg [zap.Error err]) ::
      (if zapcore.Enabled (zap.level (logger lg)) zapcore.ErrorLevel
       then [ZapWrite (entry_of (zap.AddCallerSkip (logger lg) 1) Method_Error msg
                         ([zap.Error err] ++ extractTraceFields ctx))]
       else [])
  | None => []
  end.

(** What the cleanup prints after the sync of the logger answered [err]. *)
Definition print_sync_error (err : option error) : list Event :=
  match err with
  | Some err => [Printf ("Error syncing logger: " +:+ Error err +:+ newline)]
  | None => []
  end.

(** The state in which a recorded call starts to run. *)
Definition called (c : CallSite) (s : State) : State := (emit (Called c) s).2.

(** [r] is what deriving a child of the facade [l] with the fields [bound]
    answers in the state [s]: a facade struct at a new address that holds
    the clone of the zap logger of [l] with [bound] added, every struct of
    [s] (that of [l] among them) left as it was, nothing written.  The
    parent logs in the new state as it did in [s]; the child logs the
    parent's fields, then [bound], then those of the call, to the parent's
    outputs. *)
Definition child_of (s : State) (l : ptr) (lg : Logger) (bound : list zap.Field)
    (r : Outcome ptr * State) : Prop :=
  ∃ (child : ptr) (s' : State),
    r = (Done child, s') ∧
    loggers s !! child = None ∧
    loggers s' !! child = Some {| logger := zap.With (logger lg) bound |} ∧
    (∀ (p : ptr) (x : Logger), loggers s !! p = Some x → loggers s' !! p = Some x) ∧
    events s' = events s ∧
    (∀ mth ctx msg fields,
       run_events (Logger_call mth l ctx msg fields) s' =
         run_events (Logger_call mth l ctx msg fields) s ∧
       (Logger_call mth l ctx msg fields s').1 = (Logger_call mth l ctx msg fields s).1) ∧
    (∀ mth ctx msg fields,
       zapcore.Enabled (zap.level (logger lg)) (method_level mth) = true →
       ∃ e : zap.Entry,
         run_events (Logger_call mth child ctx msg fields) s' = [ZapWrite e] ∧
         zap.entry_fields e =
           zap.context (logger lg) ++ bound ++ fields ++ extractTraceFields ctx ∧
         zap.entry_outputs e = zap.outputs (logger lg) ∧
         zap.entry_encoder e = zap.encoder (logger lg)).

(** The instrument the meter makes next, and the state once it is made. *)
Definition next_instrument (s : State) (k : InstrumentKind)
    (name description unit_ : string) : Instrument :=
  {| inst_kind := k; inst_name := name; inst_description := description;
     inst_unit := match k with Float64Histogram => unit_ | _ => "" end;
     inst_id := length (instruments s) |}.

Definition registered (s : State) (i : Instrument) : State :=
  {| loggers := loggers s; instruments := instruments s ++ [i];
     now := now s; events := events s ++ [MeterInstrument i] |}.

(** What an operation on the instruments of kind [k] and name [n] may do to
    the facade and to the meter: the meter makes instruments of that kind
    and name only, and only when the cache has none; the facade is left as
    it was or has the new instrument put in its cache. *)
Definition op_effect (k : InstrumentKind) (n : string) (m m' : Metrics)
    (s s' : State) : Prop :=
  (m' = m ∧ instruments s' = instruments s) ∨
  (cache k m !! n = None ∧
   ∃ news : list Instrument,
     instruments s' = instruments s ++ news ∧
     (∀ j, j ∈ news → inst_kind j = k ∧ inst_name j = n) ∧
     (m' = m ∨ ∃ i, m' = set_cache k m (<[n := i]> (cache k m)))).

(** The callers of the run [r], started in the state [s], have all been
    answered one and the same instrument of kind [k] and name [name], the
    cache holds it, and the meter has made that instrument and no other of
    the kind and name. *)
Definition makes_one (k : InstrumentKind) (name : string) (s : State)
    (r : Outcome (list Caller * Metrics) * State) : Prop :=
  ∃ (i : Instrument) (cs' : list Caller) (m' : Metrics) (s' : State),
    r = (Done (cs', m'), s') ∧
    Forall (λ c, c_pc c = Returned (Ok i)) cs' ∧
    cache k m' !! name = Some i ∧
    made k name (instruments s') = made k name (instruments s) ++ [i].

(** ** Example worlds *)

Module Ex.

Definition s0 : State :=
  {| loggers := []; instruments := []; now := 0; events := [] |}.

(** Every backend answers without an error. *)
Definition all_well : Env :=
  {| os_OpenFile := λ _, None;
     resource_New := λ _, None;
     otlptrace_New := λ _, None;
     otlpmetricgrpc_New := λ _, None;
     TracerProvider_Shutdown := λ _, None;
     MeterProvider_Shutdown := λ _, None;
     zap_Sync := λ _, None;
     meter_new := λ _ _ _, None;
     meter_RegisterCallback := λ _ _, None |}.

(** The log file cannot be opened. *)
Definition no_log_file : Env :=
  {| os_OpenFile := λ _, Some (errorString "permission denied");
     resource_New := λ _, None;
     otlptrace_New := λ _, None;
     otlpmetricgrpc_New := λ _, None;
     TracerProvider_Shutdown := λ _, None;
     MeterProvider_Shutdown := λ _, None;
     zap_Sync := λ _, None;
     meter_new := λ _ _ _, None;
     meter_RegisterCallback := λ _ _, None |}.

(** The trace exporter cannot be built. *)
Definition no_trace_exporter : Env :=
  {| os_OpenFile := λ _, None;
     resource_New := λ _, None;
     otlptrace_New := λ _, Some (errorString "connection refused");
     otlpmetricgrpc_New := λ _, None;
     TracerProvider_Shutdown := λ _, None;
     MeterProvider_Shutdown := λ _, None;
     zap_Sync := λ _, None;
     meter_new := λ _ _ _, None;
     meter_RegisterCallback := λ _ _, None |}.

(** The metric exporter cannot be built. *)
Definition no_metric_exporter : Env :=
  {| os_OpenFile := λ _, None;
     resource_New := λ _, None;
     otlptrace_New := λ _, None;
     otlpmetricgrpc_New := λ _, Some (errorString "connection refused");
     TracerProvider_Shutdown := λ _, None;
     MeterProvider_Shutdown := λ _, None;
     zap_Sync := λ _, None;
     meter_new := λ _ _ _, None;
     meter_RegisterCallback := λ _ _, None |}.

(** Every shutdown step fails. *)
Definition shutdowns_fail : Env :=
  {| os_OpenFile := λ _, None;
     resource_New := λ _, None;
     otlptrace_New := λ _, None;
     otlpmetricgrpc_New := λ _, None;
     TracerProvider_Shutdown := λ _, Some (errorString "export timed out");
     MeterProvider_Shutdown := λ _, Some (errorString "flush failed");
     zap_Sync := λ _, Some (errorString "sync: invalid argument");
     meter_new := λ _ _ _, None;
     meter_RegisterCallback := λ _ _, None |}.

Definition logConfig : LogConfig.t :=
  {| LogConfig.Level := InfoLevel; LogConfig.Format := JSONFormat;
     LogConfig.OutputPaths := ["stdout"]; LogConfig.Development := false |}.

Definition logConfig_file : LogConfig.t :=
  {| LogConfig.Level := InfoLevel; LogConfig.Format := JSONFormat;
     LogConfig.OutputPaths := ["/var/log/app.log"]; LogConfig.Development := false |}.

Definition tracingConfig : TracingConfig.t :=
  {| TracingConfig.ServiceName := "svc"; TracingConfig.ServiceVersion := "1.0.0";
     TracingConfig.Environment := "dev"; TracingConfig.Endpoint := "localhost:4317";
     TracingConfig.Enabled := true; TracingConfig.SamplingRate := 0.5%float |}.

Definition metricsConfig : MetricsConfig.t :=
  {| MetricsConfig.ServiceName := "svc"; MetricsConfig.ServiceVersion := "1.0.0";
     MetricsConfig.Environment := "dev"; MetricsConfig.Enabled := true;
     MetricsConfig.Endpoint := "localhost:4317" |}.

Definition metricsConfig_disabled : MetricsConfig.t :=
  {| MetricsConfig.ServiceName := "svc"; MetricsConfig.ServiceVersion := "1.0.0";
     MetricsConfig.Environment := "dev"; MetricsConfig.Enabled := false;
     MetricsConfig.Endpoint := "localhost:4317" |}.

(** A context with a valid span. *)
Definition spanContext : trace.SpanContext :=
  {| trace.traceID := [x4b; xf9; x2f; x35; x77; xb3; x4d; xa6;
                       xa3; xce; x92; x9d; x0e; x0e; x47; x36];
     trace.spanID := [x00; xf0; x67; xaa; x0b; xa9; x02; xb7] |}.

Definition ctx_in_span : Context :=
  {| ctx_span := Some spanContext; ctx_timeout := None |}.

(** A zap logger at the info level, and a state that holds its facade. *)
Definition zl : zap.Logger :=
  {| zap.level := zapcore.InfoLevel; zap.encoder := zapcore.JSONEncoder;
     zap.outputs := [zap.Stdout]; zap.context := [];
     zap.addCaller := true; zap.addStack := zapcore.ErrorLevel;
     zap.development := false; zap.callerSkip := 0 |}.

Definition s_logger : State :=
  {| loggers := [{| logger := zl |}]; instruments := []; now := 0; events := [] |}.

(** An enabled facade with empty caches. *)
Definition metrics : Metrics :=
  {| meter := Some {| meter_name := "svc" |};
     counters := ∅; gauges := ∅; histograms := ∅;
     shutdown := mret None |}.

(** A facade that holds a counter named hits. *)
Definition hits : Instrument :=
  {| inst_kind := Int64Counter; inst_name := "hits";
     inst_description := "Counter for hits"; inst_unit := ""; inst_id := 0 |}.

Definition metrics_hits : Metrics :=
  {| meter := Some {| meter_name := "svc" |};
     counters := {[ "hits" := hits ]}; gauges := ∅; histograms := ∅;
     shutdown := mret None |}.

Definition s_hits : State :=
  {| loggers := []; instruments := [hits]; now := 0; events := [MeterInstrument hits] |}.

Definition zero : unit → float := λ _, 0%float.

(** A first use of the counter named hits. *)
Definition use_hits : Caller :=
  first_use Int64Counter "hits" "Counter for hits" "" zero.

(** The meter makes every instrument; it registers every callback but that
    of the first instrument it has made. *)
Definition first_callback_fails : Env :=
  {| os_OpenFile := λ _, None;
     resource_New := λ _, None;
     otlptrace_New := λ _, None;
     otlpmetricgrpc_New := λ _, None;
     TracerProvider_Shutdown := λ _, None;
     MeterProvider_Shutdown := λ _, None;
     zap_Sync := λ _, None;
     meter_new := λ _ _ _, None;
     meter_RegisterCallback := λ _ i,
       if (inst_id i =? 0)%nat then Some (errorString "callback rejected") else None |}.

(** The meter makes no instrument. *)
Definition no_instruments : Env :=
  {| os_OpenFile := λ _, None;
     resource_New := λ _, None;
     otlptrace_New := λ _, None;
     otlpmetricgrpc_New := λ _, None;
     TracerProvider_Shutdown := λ _, None;
     MeterProvider_Shutdown := λ _, None;
     zap_Sync := λ _, None;
     meter_new := λ _ _ _, Some (errorString "invalid instrument name");
     meter_RegisterCallback := λ _ _, None |}.

End Ex.

(** ** Reading configurations *)

(** An output path that [NewLogger] opens as a file: any path but the names
    of the two standard streams. *)
Definition is_file (path : string) : bool :=
  negb (String.eqb path "stdout") && negb (String.eqb path "stderr").

(** The writer [NewLogger] takes for an output path. *)
Definition writer_of (path : string) : zap.Writer :=
  if String.eqb path "stdout" then zap.Stdout
  else if String.eqb path "stderr" then zap.Stderr
  else zap.File path.

(** The level of the configuration a logging method stands for. *)
Definition Method_LogLevel (mth : Method) : LogLevel :=
  match mth with
  | Method_Debug => DebugLevel
  | Method_Info => InfoLevel
  | Method_Warn => WarnLevel
  | Method_Error => ErrorLevel
  | Method_Fatal => FatalLevel
  end.

(** The level a configured level acts as: itself when it is one of the five
    constants, the info level otherwise. *)
Definition effective_level (l : LogLevel) : LogLevel :=
  if (DebugLevel <=? l) && (l <=? FatalLevel) then l else InfoLevel.

(** The attributes of the resource [setupTracing] and [NewMetrics] ask for. *)
Definition tracing_attrs (config : TracingConfig.t) : list KeyValue :=
  [("service.name", TracingConfig.ServiceName config);
   ("service.version", TracingConfig.ServiceVersion config);
   ("deployment.environment", TracingConfig.Environment config)].

Definition metrics_attrs (config : MetricsConfig.t) : list KeyValue :=
  [("service.name", MetricsConfig.ServiceName config);
   ("service.version", MetricsConfig.ServiceVersion config);
   ("environment", MetricsConfig.Environment config)].

(** The events of a [setupTracing] and of a [NewMetrics] that go well. *)
Definition tracing_events (config : TracingConfig.t) : list Event :=
  if TracingConfig.Enabled config
  then [ResourceNew (tracing_attrs config);
        TraceExporterNew (TracingConfig.Endpoint config);
        SetTracerProvider (sampler_of (TracingConfig.SamplingRate config));
        SetTextMapPropagator;
        OtelTracer (TracingConfig.ServiceName config)]
  else [OtelTracer (TracingConfig.ServiceName config)].

Definition metrics_events (config : MetricsConfig.t) : list Event :=
  if MetricsConfig.Enabled config
  then [ResourceNew (metrics_attrs config);
        MetricExporterNew (MetricsConfig.Endpoint config);
        SetMeterProvider]
  else [].

(** The calls and the files of a [NewLogger] that goes well, up to the call
    of [setupTracing]. *)
Definition logger_events (config : LogConfig.t) : list Event :=
  Called Call_NewLogger ::
  (OpenFile <$> List.filter is_file (LogConfig.OutputPaths config)).

(** Every backend the configurations ask for can be built: the files of
    the output paths open and, where tracing or metrics are enabled, the
    resource and the exporter are made. *)
Definition backends_ready (env : Env) (logConfig : LogConfig.t)
    (tracingConfig : TracingConfig.t) (metricsConfig : MetricsConfig.t) : Prop :=
  Forall (λ p, is_file p = true → os_OpenFile env p = None)
    (LogConfig.OutputPaths logConfig) ∧
  (TracingConfig.Enabled tracingConfig = true →
   resource_New env (tracing_attrs tracingConfig) = None ∧
   otlptrace_New env (TracingConfig.Endpoint tracingConfig) = None) ∧
  (MetricsConfig.Enabled metricsConfig = true →
   resource_New env (metrics_attrs metricsConfig) = None ∧
   otlpmetricgrpc_New env (MetricsConfig.Endpoint metricsConfig) = None).

(** The trace of a cleanup on a logger [zl], after an initialization in the
    context [ctx] with the given configurations. *)
Definition cleanup_events (env : Env) (ctx : Context) (tracingConfig : TracingConfig.t)
    (metricsConfig : MetricsConfig.t) (zl : zap.Logger) : list Event :=
  [Called (Call_Metrics_Shutdown timeoutCtx)] ++
  (if MetricsConfig.Enabled metricsConfig then [MeterProviderShutdown ctx] else []) ++
  log_error {| logger := zl |} timeoutCtx "Error shutting down metrics"
    (if MetricsConfig.Enabled metricsConfig
     then MeterProvider_Shutdown env ctx else None) ++
  [Called (Call_tracerShutdown timeoutCtx)] ++
  (if TracingConfig.Enabled tracingConfig then [TracerProviderShutdown timeoutCtx] else []) ++
  log_error {| logger := zl |} timeoutCtx "Error shutting down tracer"
    (if TracingConfig.Enabled tracingConfig
     then TracerProvider_Shutdown env timeoutCtx else None) ++
  [Called Call_Logger_Sync; ZapSync (zap.outputs zl)] ++
  print_sync_error (zap_Sync env (zap.outputs zl)) ++
  [Cancel].

(** The event is an entry written by a logger. *)
Definition is_write (e : Event) : bool :=
  match e with ZapWrite _ => true | _ => false end.

(** A character of the table of hexadecimal digits. *)
Definition is_hexdigit (c : ascii) : bool :=
  existsb (Ascii.eqb c) (list_ascii_of_string trace.hextable).

(** * Properties *)

(** ** Identifiers *)

Lemma hex_length (bs : list byte) :
  String.length (trace.hex bs) = (2 * length bs)%nat.
Proof.
  induction bs as [|b bs IH]; simpl; [reflexivity|].
  rewrite IH. lia.
Qed.

Lemma ID_IsValid_not_nil (id : list byte) :
  trace.ID_IsValid id = true → id ≠ [].
Proof. intros H ->. discriminate H. Qed.

Lemma ID_String_not_empty (id : list byte) :
  trace.ID_IsValid id = true → trace.ID_String id ≠ "".
Proof.
  intros H Hs. apply ID_IsValid_not_nil in H.
  destruct id as [|b id]; [congruence|]. discriminate Hs.
Qed.

Lemma emptySpanContext_invalid : trace.IsValid trace.emptySpanContext = false.
Proof. reflexivity. Qed.

Lemma IsValid_SpanContextFromContext (ctx : Context) :
  trace.IsValid (SpanContextFromContext ctx) = carries_valid_span ctx.
Proof.
  unfold SpanContextFromContext, carries_valid_span.
  destruct (ctx_span ctx); [reflexivity | apply emptySpanContext_invalid].
Qed.

Lemma GetTraceID_eq (ctx : Context) :
  GetTraceID ctx =
    if carries_valid_span ctx
    then trace.ID_String (trace.traceID (SpanContextFromContext ctx)) else "".
Proof. unfold GetTraceID. by rewrite IsValid_SpanContextFromContext. Qed.

Lemma GetSpanID_eq (ctx : Context) :
  GetSpanID ctx =
    if carries_valid_span ctx
    then trace.ID_String (trace.spanID (SpanContextFromContext ctx)) else "".
Proof. unfold GetSpanID. by rewrite IsValid_SpanContextFromContext. Qed.

Lemma valid_span_ids (ctx : Context) :
  carries_valid_span ctx = true →
  trace.ID_IsValid (trace.traceID (SpanContextFromContext ctx)) = true ∧
  trace.ID_IsValid (trace.spanID (SpanContextFromContext ctx)) = true.
Proof.
  rewrite <- IsValid_SpanContextFromContext. unfold trace.IsValid.
  intros H. by apply andb_true_iff in H.
Qed.

(** The identifiers have a fixed format: 32 and 16 hexadecimal digits. *)
Lemma ids_fixed_format (ctx : Context) :
  trace.wf (SpanContextFromContext ctx) →
  carries_valid_span ctx = true →
  String.length (GetTraceID ctx) = 32%nat ∧ String.length (GetSpanID ctx) = 16%nat.
Proof.
  intros [Ht Hs] Hv. rewrite GetTraceID_eq, GetSpanID_eq, Hv.
  unfold trace.ID_String. rewrite !hex_length, Ht, Hs. done.
Qed.

(** C6: [GetTraceID] and [GetSpanID], as methods of the tracer facade and as
    package functions, answer the empty string for a context that carries
    no valid span, and for a context that carries one the hexadecimal
    string of the trace and span identifier of its span context, which is
    not empty. *)
Theorem ids_empty_without_valid_span (t : Tracer) (ctx : Context) :
  if carries_valid_span ctx
  then
    Tracer_GetTraceID t ctx = trace.ID_String (trace.traceID (SpanContextFromContext ctx)) ∧
    Tracer_GetSpanID t ctx = trace.ID_String (trace.spanID (SpanContextFromContext ctx)) ∧
    GetTraceID ctx = trace.ID_String (trace.traceID (SpanContextFromContext ctx)) ∧
    GetSpanID ctx = trace.ID_String (trace.spanID (SpanContextFromContext ctx)) ∧
    Tracer_GetTraceID t ctx ≠ "" ∧ Tracer_GetSpanID t ctx ≠ "" ∧
    GetTraceID ctx ≠ "" ∧ GetSpanID ctx ≠ ""
  else
    Tracer_GetTraceID t ctx = "" ∧ Tracer_GetSpanID t ctx = "" ∧
    GetTraceID ctx = "" ∧ GetSpanID ctx = "".
Proof.
  pose proof (GetTraceID_eq ctx) as Ht. pose proof (GetSpanID_eq ctx) as Hs.
  pose proof (valid_span_ids ctx) as Hv.
  change (Tracer_GetTraceID t ctx) with (GetTraceID ctx).
  change (Tracer_GetSpanID t ctx) with (GetSpanID ctx).
  destruct (carries_valid_span ctx).
  - destruct (Hv eq_refl) as [H1 H2]. rewrite Ht, Hs.
    repeat split; auto using ID_String_not_empty.
  - by rewrite Ht, Hs.
Qed.

Example GetTraceID_in_span :
  GetTraceID Ex.ctx_in_span = "4bf92f3577b34da6a3ce929d0e0e4736" ∧
  GetSpanID Ex.ctx_in_span = "00f067aa0ba902b7" ∧
  GetTraceID context.Background = "" ∧ GetSpanID context.Background = "".
Proof. repeat split; reflexivity. Qed.

(** C10: on every context the package functions [GetTraceID] and [GetSpanID]
    answer the string the methods of the tracer facade answer, whatever the
    tracer the methods are called on. *)
Theorem package_ids_agree_with_facade (t : Tracer) (ctx : Context) :
  GetTraceID ctx = Tracer_GetTraceID t ctx ∧ GetSpanID ctx = Tracer_GetSpanID t ctx.
Proof. split; reflexivity. Qed.

Lemma facade_ids_any_tracer (t1 t2 : Tracer) (ctx : Context) :
  Tracer_GetTraceID t1 ctx = Tracer_GetTraceID t2 ctx ∧
  Tracer_GetSpanID t1 ctx = Tracer_GetSpanID t2 ctx.
Proof. split; reflexivity. Qed.

(** ** Sampler selection *)

Lemma SFcompare_Lt_swap (x y : SpecFloat.spec_float) :
  SpecFloat.SFcompare x y = Some Lt → SpecFloat.SFcompare y x = Some Gt.
Proof.
  destruct x as [sx|sx| |sx mx ex], y as [sy|sy| |sy my ey]; simpl;
    try discriminate; try (destruct sx; discriminate);
    try (destruct sy; discriminate);
    try (destruct sx, sy; (discriminate || reflexivity)).
  change (Pos.compare_cont Eq mx my) with (Pos.compare mx my).
  change (Pos.compare_cont Eq my mx) with (Pos.compare my mx).
  rewrite (Z.compare_antisym ex ey), (Pos.compare_antisym mx my).
  destruct sx, sy; try (discriminate || reflexivity);
    destruct (ex ?= ey)%Z; simpl; try (discriminate || reflexivity);
    destruct (mx ?= my)%positive; simpl; (discriminate || reflexivity).
Qed.

(** On floats, [x < y] excludes [y <= x]. *)
Lemma ltb_not_leb (x y : float) :
  PrimFloat.ltb x y = true → PrimFloat.leb y x = false.
Proof.
  rewrite ltb_spec, leb_spec. unfold SpecFloat.SFltb, SpecFloat.SFleb.
  destruct (SpecFloat.SFcompare (Prim2SF x) (Prim2SF y)) as [[]|] eqn:E;
    try discriminate.
  intros _. by rewrite (SFcompare_Lt_swap _ _ E).
Qed.

Lemma sampler_of_cases (r : float) :
  (PrimFloat.leb 1.0%float r = true → sampler_of r = AlwaysSample) ∧
  (PrimFloat.leb r 0.0%float = true → sampler_of r = NeverSample) ∧
  (PrimFloat.ltb 0.0%float r = true → PrimFloat.ltb r 1.0%float = true →
   sampler_of r = TraceIDRatioBased r).
Proof.
  unfold sampler_of. split; [|split].
  - by intros ->.
  - intros H0. destruct (PrimFloat.leb 1.0%float r) eqn:H1; [|by rewrite H0].
    (* both 1 <= r and r <= 0: excluded, since 0 < 1 *)
    exfalso. rewrite leb_spec in H0, H1.
    unfold SpecFloat.SFleb in H0, H1.
    destruct (Prim2SF r) as [sr|sr| |sr mr er] eqn:Er;
      try (vm_compute in H1; discriminate H1);
      try (destruct sr; vm_compute in H0, H1; discriminate).
  - intros H0 H1. by rewrite (ltb_not_leb _ _ H1), (ltb_not_leb _ _ H0).
Qed.

(** A rate that is not a number is in none of the three cases above; the
    code hands it to the ratio sampler. *)
Example sampler_of_nan : sampler_of PrimFloat.nan = TraceIDRatioBased PrimFloat.nan.
Proof. reflexivity. Qed.

(** ** Running the monad *)

Lemma run_events_app {A : Type} (m : M A) (s : State) (evs : list Event) :
  events (m s).2 = events s ++ evs → run_events m s = evs.
Proof. unfold run_events. intros ->. by rewrite drop_app_length. Qed.

Ltac run :=
  cbv beta delta [mbind M_bind mret M_ret call emit get panic os_Exit register
                  alloc deref called] in *;
  cbn beta iota zeta delta [fst snd events loggers instruments now negb] in *.

(** C4: with tracing enabled and the resource and the exporter built,
    [setupTracing] registers a tracer provider whose sampler is the
    always-sample sampler when the sampling rate is at least 1.0, the
    never-sample sampler when it is at most 0.0, and the trace-ID-ratio
    sampler of that rate when the rate lies strictly between the two. *)
Theorem sampler_selection (env : Env) (ctx : Context) (config : TracingConfig.t)
    (s : State) :
  TracingConfig.Enabled config = true →
  resource_New env [("service.name", TracingConfig.ServiceName config);
                    ("service.version", TracingConfig.ServiceVersion config);
                    ("deployment.environment", TracingConfig.Environment config)] = None →
  otlptrace_New env (TracingConfig.Endpoint config) = None →
  ∃ sampler : Sampler,
    run_events (setupTracing env ctx config) s =
      [ResourceNew [("service.name", TracingConfig.ServiceName config);
                    ("service.version", TracingConfig.ServiceVersion config);
                    ("deployment.environment", TracingConfig.Environment config)];
       TraceExporterNew (TracingConfig.Endpoint config);
       SetTracerProvider sampler;
       SetTextMapPropagator;
       OtelTracer (TracingConfig.ServiceName config)] ∧
    (PrimFloat.leb 1.0%float (TracingConfig.SamplingRate config) = true →
     sampler = AlwaysSample) ∧
    (PrimFloat.leb (TracingConfig.SamplingRate config) 0.0%float = true →
     sampler = NeverSample) ∧
    (PrimFloat.ltb 0.0%float (TracingConfig.SamplingRate config) = true →
     PrimFloat.ltb (TracingConfig.SamplingRate config) 1.0%float = true →
     sampler = TraceIDRatioBased (TracingConfig.SamplingRate config)).
Proof.
  intros He Hr Hx.
  exists (sampler_of (TracingConfig.SamplingRate config)).
  split; [|apply sampler_of_cases].
  apply run_events_app. unfold setupTracing. rewrite He.
  run. rewrite Hr. run. rewrite Hx. run.
  by rewrite <- !app_assoc.
Qed.

(** C4, at a rate of one half. *)
Lemma sampler_selection_witness :
  ∃ sampler : Sampler,
    run_events (setupTracing Ex.all_well context.Background Ex.tracingConfig) Ex.s0 =
      [ResourceNew [("service.name", "svc"); ("service.version", "1.0.0");
                    ("deployment.environment", "dev")];
       TraceExporterNew "localhost:4317";
       SetTracerProvider sampler;
       SetTextMapPropagator;
       OtelTracer "svc"] ∧
    (PrimFloat.leb 1.0%float 0.5%float = true → sampler = AlwaysSample) ∧
    (PrimFloat.leb 0.5%float 0.0%float = true → sampler = NeverSample) ∧
    (PrimFloat.ltb 0.0%float 0.5%float = true →
     PrimFloat.ltb 0.5%float 1.0%float = true →
     sampler = TraceIDRatioBased 0.5%float).
Proof.
  apply (sampler_selection Ex.all_well context.Background Ex.tracingConfig Ex.s0);
    reflexivity.
Defined.

(** ** Logger facade *)

Lemma zap_log_run (zl : zap.Logger) (mth : Method) (msg : string)
    (fields : list zap.Field) (s : State) :
  zap_log zl (method_level mth) msg fields s =
    (if method_level mth =? zapcore.FatalLevel then Exit 1 else Done tt,
     if zapcore.Enabled (zap.level zl) (method_level mth)
     then add_events s [ZapWrite (entry_of zl mth msg fields)] else s).
Proof.
  unfold zap_log. run.
  destruct (zapcore.Enabled (zap.level zl) (method_level mth));
    destruct mth; reflexivity.
Qed.

Lemma Logger_call_run (mth : Method) (l : ptr) (lg : Logger) (ctx : Context)
    (msg : string) (fields : list zap.Field) (s : State) :
  loggers s !! l = Some lg →
  Logger_call mth l ctx msg fields s =
    zap_log (zap.AddCallerSkip (logger lg) 1) (method_level mth) msg
      (fields ++ extractTraceFields ctx) s.
Proof.
  intros H.
  destruct mth; unfold Logger_call, Logger_Debug, Logger_Info, Logger_Warn,
    Logger_Error, Logger_Fatal, getSkippedLogger; run; rewrite H; reflexivity.
Qed.

Lemma extractTraceFields_eq (ctx : Context) :
  extractTraceFields ctx =
    if carries_valid_span ctx
    then [zap.String "trace_id" (GetTraceID ctx); zap.String "span_id" (GetSpanID ctx)]
    else [].
Proof.
  unfold extractTraceFields. rewrite GetTraceID_eq, GetSpanID_eq.
  rewrite IsValid_SpanContextFromContext.
  by destruct (carries_valid_span ctx).
Qed.

Lemma has_key_app (key : string) (xs ys : list zap.Field) :
  zap.has_key key (xs ++ ys) = zap.has_key key xs || zap.has_key key ys.
Proof. unfold zap.has_key. apply existsb_app. Qed.

Lemma log_call_entry (mth : Method) (l : ptr) (lg : Logger)
    (ctx : Context) (msg : string) (fields : list zap.Field) (s : State) :
  loggers s !! l = Some lg →
  zapcore.Enabled (zap.level (logger lg)) (method_level mth) = true →
  run_events (Logger_call mth l ctx msg fields) s =
    [ZapWrite (entry_of (zap.AddCallerSkip (logger lg) 1) mth msg
                 (fields ++ extractTraceFields ctx))] ∧
  (Logger_call mth l ctx msg fields s).1 =
    (if method_level mth =? zapcore.FatalLevel then Exit 1 else Done tt).
Proof.
  intros Hl Hen. unfold run_events.
  rewrite (Logger_call_run _ _ _ _ _ _ _ Hl), zap_log_run.
  change (zap.level (zap.AddCallerSkip (logger lg) 1)) with (zap.level (logger lg)).
  rewrite Hen. cbn [fst snd add_events events].
  by rewrite drop_app_length.
Qed.

(** C7: a log call at a level the logger emits hands the core one entry
    whose fields are the bound fields, the fields of the call and the
    correlation fields; the correlation fields are [trace_id] and [span_id]
    when the context carries a valid span and none otherwise, so that, the
    caller's own fields aside, the entry has a [trace_id] and a [span_id]
    field exactly when the context carries a valid span.  The call raises
    nothing: it returns, and at the fatal level it ends the process after
    the write. *)
Theorem log_call_correlation_fields (mth : Method) (l : ptr) (lg : Logger)
    (ctx : Context) (msg : string) (fields : list zap.Field) (s : State) :
  loggers s !! l = Some lg →
  zapcore.Enabled (zap.level (logger lg)) (method_level mth) = true →
  ∃ e : zap.Entry,
    run_events (Logger_call mth l ctx msg fields) s = [ZapWrite e] ∧
    (Logger_call mth l ctx msg fields s).1 =
      (if method_level mth =? zapcore.FatalLevel then Exit 1 else Done tt) ∧
    zap.entry_fields e = zap.context (logger lg) ++ fields ++ extractTraceFields ctx ∧
    extractTraceFields ctx =
      (if carries_valid_span ctx
       then [zap.String "trace_id" (GetTraceID ctx); zap.String "span_id" (GetSpanID ctx)]
       else []) ∧
    (zap.has_key "trace_id" (zap.context (logger lg) ++ fields) = false →
     zap.has_key "trace_id" (zap.entry_fields e) = carries_valid_span ctx) ∧
    (zap.has_key "span_id" (zap.context (logger lg) ++ fields) = false →
     zap.has_key "span_id" (zap.entry_fields e) = carries_valid_span ctx).
Proof.
  intros Hl Hen.
  destruct (log_call_entry mth l lg ctx msg fields s Hl Hen) as [He Ho].
  eexists. split; [exact He|]. split; [exact Ho|].
  cbn [entry_of zap.entry_fields zap.AddCallerSkip zap.context].
  split; [done|]. split; [apply extractTraceFields_eq|].
  rewrite !app_assoc, !(has_key_app _ (_ ++ _)), extractTraceFields_eq.
  split; intros ->; by destruct (carries_valid_span ctx).
Qed.

(** C7, for [Info] in a context with a valid span. *)
Lemma log_call_correlation_fields_witness :
  ∃ e : zap.Entry,
    run_events (Logger_call Method_Info 0%nat Ex.ctx_in_span "started" []) Ex.s_logger
      = [ZapWrite e] ∧
    zap.has_key "trace_id" (zap.entry_fields e) = true ∧
    zap.has_key "span_id" (zap.entry_fields e) = true.
Proof.
  destruct (log_call_correlation_fields Method_Info 0%nat {| logger := Ex.zl |}
              Ex.ctx_in_span "started" [] Ex.s_logger eq_refl eq_refl)
    as (e & He & _ & _ & _ & Ht & Hs).
  exists e. split; [exact He|]. split; [exact (Ht eq_refl) | exact (Hs eq_refl)].
Defined.

Lemma foldl_Any (fields : list (string * zap.Value)) (acc : list zap.Field) :
  foldl (λ zapFields kv, zapFields ++ [zap.Any kv.1 kv.2]) acc fields =
    acc ++ map (λ kv, zap.Any kv.1 kv.2) fields.
Proof.
  revert acc. induction fields as [|kv fields IH]; intros acc; simpl.
  - by rewrite app_nil_r.
  - by rewrite IH, <- app_assoc.
Qed.

Lemma With_run (l : ptr) (lg : Logger) (fields : list zap.Field) (s : State) :
  loggers s !! l = Some lg →
  With l fields s =
    (Done (length (loggers s)),
     {| loggers := loggers s ++ [{| logger := zap.With (logger lg) fields |}];
        instruments := instruments s; now := now s; events := events s |}).
Proof. intros H. unfold With. run. by rewrite H. Qed.

Lemma WithFields_run (l : ptr) (lg : Logger) (fields : list (string * zap.Value))
    (s : State) :
  loggers s !! l = Some lg →
  WithFields l fields s =
    (Done (length (loggers s)),
     {| loggers := loggers s ++
          [{| logger := zap.With (logger lg) (map (λ kv, zap.Any kv.1 kv.2) fields) |}];
        instruments := instruments s; now := now s; events := events s |}).
Proof. intros H. unfold WithFields. rewrite foldl_Any. run. by rewrite H. Qed.

(** What a logging method does depends on the state through the facade
    struct it is called on and the trace only. *)
Lemma Logger_call_frame (mth : Method) (l : ptr) (ctx : Context) (msg : string)
    (fields : list zap.Field) (s s' : State) :
  loggers s' !! l = loggers s !! l →
  events s' = events s →
  run_events (Logger_call mth l ctx msg fields) s' =
    run_events (Logger_call mth l ctx msg fields) s ∧
  (Logger_call mth l ctx msg fields s').1 = (Logger_call mth l ctx msg fields s).1.
Proof.
  intros Hl He. unfold run_events. rewrite He.
  destruct (loggers s !! l) as [lg|] eqn:E.
  - rewrite (Logger_call_run _ _ lg _ _ _ s'), (Logger_call_run _ _ lg _ _ _ s);
      [|done..].
    rewrite !zap_log_run.
    destruct (zapcore.Enabled _ _); cbn [fst snd add_events events];
      by rewrite ?He.
  - destruct mth; unfold Logger_call, Logger_Debug, Logger_Info, Logger_Warn,
      Logger_Error, Logger_Fatal, getSkippedLogger; run; rewrite Hl, E;
      cbn [fst snd]; by rewrite He.
Qed.

(** A child logger emits the fields of its parent, then the fields it was
    derived with, then those of the call. *)
Lemma child_entry (mth : Method) (l child : ptr) (lg : Logger) (bound : list zap.Field)
    (ctx : Context) (msg : string) (fields : list zap.Field) (s : State) :
  loggers s !! child = Some {| logger := zap.With (logger lg) bound |} →
  zapcore.Enabled (zap.level (logger lg)) (method_level mth) = true →
  ∃ e : zap.Entry,
    run_events (Logger_call mth child ctx msg fields) s = [ZapWrite e] ∧
    zap.entry_fields e =
      zap.context (logger lg) ++ bound ++ fields ++ extractTraceFields ctx ∧
    zap.entry_outputs e = zap.outputs (logger lg) ∧
    zap.entry_encoder e = zap.encoder (logger lg).
Proof.
  intros Hc Hen.
  destruct (log_call_entry mth child _ ctx msg fields s Hc Hen) as [He _].
  eexists. split; [exact He|].
  cbn [entry_of zap.entry_fields zap.entry_outputs zap.entry_encoder
       zap.AddCallerSkip zap.With zap.context zap.outputs zap.encoder logger].
  by rewrite <- app_assoc.
Qed.

Lemma alloc_child (l : ptr) (lg : Logger) (bound : list zap.Field) (s : State) :
  loggers s !! l = Some lg →
  child_of s l lg bound
    (Done (length (loggers s)),
     {| loggers := loggers s ++ [{| logger := zap.With (logger lg) bound |}];
        instruments := instruments s; now := now s; events := events s |}).
Proof.
  intros Hl. eexists _, _. split; [reflexivity|]. cbn [loggers events].
  split; [by apply lookup_ge_None_2|].
  split; [by rewrite lookup_app_r, Nat.sub_diag|].
  split; [by intros p x Hp; apply lookup_app_l_Some|].
  split; [done|]. split.
  - intros mth ctx msg fields. apply Logger_call_frame; cbn [loggers events]; [|done].
    rewrite Hl. by apply lookup_app_l_Some.
  - intros mth ctx msg fields Hen.
    apply (child_entry mth l); [|done]. cbn [loggers].
    by rewrite lookup_app_r, Nat.sub_diag.
Qed.

(** C9: [With] and [WithFields] answer a new facade, which carries the extra
    fields, and leave the parent as it was: after the derivation the parent
    holds the zap logger it held, and each of its log calls writes what it
    would have written before. *)
Theorem With_leaves_parent_unchanged (l : ptr) (lg : Logger)
    (fields : list zap.Field) (mapFields : list (string * zap.Value)) (s : State) :
  loggers s !! l = Some lg →
  child_of s l lg fields (With l fields s) ∧
  child_of s l lg (map (λ kv, zap.Any kv.1 kv.2) mapFields) (WithFields l mapFields s).
Proof.
  intros Hl.
  rewrite (With_run _ _ _ _ Hl), (WithFields_run _ _ _ _ Hl).
  split; by apply alloc_child.
Qed.

(** C9, for a child bound to a request identifier. *)
Lemma With_leaves_parent_unchanged_witness :
  child_of Ex.s_logger 0%nat {| logger := Ex.zl |} [zap.String "request_id" "42"]
    (With 0%nat [zap.String "request_id" "42"] Ex.s_logger) ∧
  child_of Ex.s_logger 0%nat {| logger := Ex.zl |} [zap.Any "user" (zap.VInt 7)]
    (WithFields 0%nat [("user", zap.VInt 7)] Ex.s_logger).
Proof.
  exact (With_leaves_parent_unchanged 0%nat {| logger := Ex.zl |}
           [zap.String "request_id" "42"] [("user", zap.VInt 7)] Ex.s_logger eq_refl).
Defined.

(** ** Metrics facade *)

(** C3 fails on the code: the facade [NewMetrics] builds for a
    configuration with metrics disabled has a nil meter and empty caches,
    and every operation that has to create its instrument calls a method of
    that nil meter.  [IncrementCounter], [RecordHistogram] and [CreateGauge]
    panic, for every name and value; [MeasureDuration] answers its stop
    function, and the stop function panics. *)
Theorem disabled_metrics_operations_panic (env : Env) (ctx ctx' : Context)
    (ServiceName ServiceVersion Environment Endpoint : string)
    (name description : string) (value : Z) (fvalue : float)
    (attrs : list KeyValue) (callback : unit → float) (s s' : State) :
  ∃ m : Metrics,
    NewMetrics env ctx
      {| MetricsConfig.ServiceName := ServiceName;
         MetricsConfig.ServiceVersion := ServiceVersion;
         MetricsConfig.Environment := Environment;
         MetricsConfig.Enabled := false;
         MetricsConfig.Endpoint := Endpoint |} s = (Done (Ok m), s) ∧
    IncrementCounter env m ctx' name value attrs s' = (Panic nil_dereference, s') ∧
    RecordHistogram env m ctx' name fvalue attrs s' = (Panic nil_dereference, s') ∧
    CreateGauge env m name description callback s' = (Panic nil_dereference, s') ∧
    ∃ stop : Metrics → M Metrics,
      MeasureDuration env m ctx' name attrs s' = (Done stop, s') ∧
      stop m s' = (Panic nil_dereference, s').
Proof.
  eexists. split; [reflexivity|].
  split; [reflexivity|]. split; [reflexivity|]. split; [reflexivity|].
  eexists. split; reflexivity.
Qed.

(** Counting one request on the facade of a disabled configuration. *)
Example disabled_IncrementCounter_requests :
  (m ← NewMetrics Ex.all_well context.Background Ex.metricsConfig_disabled;
   match m with
   | Ok m => IncrementCounter Ex.all_well m context.Background "requests" 1 []
   | Err err => mret (Some err, Ex.metrics)
   end) Ex.s0 = (Panic nil_dereference, Ex.s0).
Proof. reflexivity. Qed.

Lemma meter_instrument_ok (env : Env) (mt : Meter) (k : InstrumentKind)
    (name description unit_ : string) (s : State) :
  meter_new env (instruments s) k name = None →
  meter_instrument env (Some mt) k name description
      (match k with Float64Histogram => unit_ | _ => "" end) s =
    (Done (Ok (next_instrument s k name description unit_)),
     registered s (next_instrument s k name description unit_)).
Proof. intros H. unfold meter_instrument. run. by rewrite H. Qed.

Lemma meter_instrument_cases (env : Env) (mt : option Meter) (k : InstrumentKind)
    (name description unit_ : string) (s : State) (r : res Instrument) (s' : State) :
  meter_instrument env mt k name description unit_ s = (Done r, s') →
  (∃ err, r = Err err ∧ s' = s) ∨
  (∃ i, r = Ok i ∧ inst_kind i = k ∧ inst_name i = name ∧ s' = registered s i).
Proof.
  unfold meter_instrument. destruct mt as [mt|]; run; [|discriminate].
  destruct (meter_new env (instruments s) k name) as [err|]; run;
    intros [= <- <-]; [left | right]; eauto.
Qed.

Lemma Meter_RegisterCallback_instruments (env : Env) (mt : option Meter)
    (callback : unit → float) (g : Instrument) (s : State) (r : option error)
    (s' : State) :
  Meter_RegisterCallback env mt callback g s = (Done r, s') →
  instruments s' = instruments s.
Proof.
  unfold Meter_RegisterCallback. destruct mt as [mt|]; run; [|discriminate].
  destruct (meter_RegisterCallback env (instruments s) g); run;
    by intros [= <- <-].
Qed.

Lemma op_effect_refl (k : InstrumentKind) (n : string) (m : Metrics) (s s' : State) :
  instruments s' = instruments s → op_effect k n m m s s'.
Proof. intros H. by left. Qed.

Lemma op_effect_made (k : InstrumentKind) (n : string) (m m' : Metrics)
    (s s' : State) (i : Instrument) :
  cache k m !! n = None →
  instruments s' = instruments s ++ [i] →
  inst_kind i = k → inst_name i = n →
  m' = m ∨ (∃ i, m' = set_cache k m (<[n := i]> (cache k m))) →
  op_effect k n m m' s s'.
Proof.
  intros Hc H Hk Hn Hm. right. split; [done|]. exists [i]. split; [done|].
  split; [|done]. by intros j ->%list_elem_of_singleton.
Qed.

Lemma Create_effect (env : Env) (k : InstrumentKind) (m : Metrics)
    (name description unit_ : string) (callback : unit → float) (s : State)
    (r : res Instrument) (m' : Metrics) (s' : State) :
  Create env k m name description unit_ callback s = (Done (r, m'), s') →
  op_effect k name m m' s s' ∧
  (∀ i, r = Ok i → cache k m' !! name = Some i).
Proof.
  destruct k; unfold Create, CreateCounter, CreateHistogram, CreateGauge; cbn [cache].
  - destruct (counters m !! name) as [i|] eqn:E; run.
    { intros [= <- <- <-]. split; [by apply op_effect_refl | by intros ? [= <-]]. }
    destruct (meter_instrument _ _ _ _ _ _ s) as [[r0| |] s0] eqn:Em; [|done..].
    apply meter_instrument_cases in Em as [(err & -> & ->)|(i & -> & Hk & Hn & ->)];
      intros [= <- <- <-].
    + split; [by apply op_effect_refl | done].
    + split; [apply (op_effect_made _ _ _ _ _ _ i); eauto|].
      intros ? [= <-]. cbn. by rewrite lookup_insert_eq.
  - destruct (histograms m !! name) as [i|] eqn:E; run.
    { intros [= <- <- <-]. split; [by apply op_effect_refl | by intros ? [= <-]]. }
    destruct (meter_instrument _ _ _ _ _ _ s) as [[r0| |] s0] eqn:Em; [|done..].
    apply meter_instrument_cases in Em as [(err & -> & ->)|(i & -> & Hk & Hn & ->)];
      intros [= <- <- <-].
    + split; [by apply op_effect_refl | done].
    + split; [apply (op_effect_made _ _ _ _ _ _ i); eauto|].
      intros ? [= <-]. cbn. by rewrite lookup_insert_eq.
  - destruct (gauges m !! name) as [i|] eqn:E; run.
    { intros [= <- <- <-]. split; [by apply op_effect_refl | by intros ? [= <-]]. }
    destruct (meter_instrument _ _ _ _ _ _ s) as [[r0| |] s0] eqn:Em; [|done..].
    apply meter_instrument_cases in Em as [(err & -> & ->)|(i & -> & Hk & Hn & ->)].
    + intros [= <- <- <-]. split; [by apply op_effect_refl | done].
    + destruct (Meter_RegisterCallback _ _ _ _ _) as [[e| |] s1] eqn:Er; [|done..].
      apply Meter_RegisterCallback_instruments in Er. cbn [registered instruments] in Er.
      destruct e as [err|]; intros [= <- <- <-].
      * split; [apply (op_effect_made _ _ _ _ _ _ i); eauto | done].
      * split; [apply (op_effect_made _ _ _ _ _ _ i); eauto|].
        intros ? [= <-]. cbn. by rewrite lookup_insert_eq.
Qed.

Lemma emit_instruments (e : Event) (s : State) :
  instruments (emit e s).2 = instruments s.
Proof. reflexivity. Qed.

Lemma IncrementCounter_effect (env : Env) (m : Metrics) (ctx : Context)
    (name : string) (value : Z) (attrs : list KeyValue) (s : State)
    (r : option error) (m' : Metrics) (s' : State) :
  IncrementCounter env m ctx name value attrs s = (Done (r, m'), s') →
  op_effect Int64Counter name m m' s s'.
Proof.
  unfold IncrementCounter.
  destruct (counters m !! name) as [i|] eqn:E; run.
  { intros [= <- <- <-]. by apply op_effect_refl. }
  destruct (CreateCounter env m name _ s) as [[[r0 m0]| |] s0] eqn:Ec; [|done..].
  apply (Create_effect env Int64Counter m name _ "" (λ _, 0%float)) in Ec as [Ec _].
  destruct r0; intros [= <- <- <-];
    (destruct Ec as [[-> Hi]|(Hc & news & Hi & Hj & Hm)];
     [by apply op_effect_refl | right; split; [done|]; by exists news]).
Qed.

Lemma RecordHistogram_effect (env : Env) (m : Metrics) (ctx : Context)
    (name : string) (value : float) (attrs : list KeyValue) (s : State)
    (r : option error) (m' : Metrics) (s' : State) :
  RecordHistogram env m ctx name value attrs s = (Done (r, m'), s') →
  op_effect Float64Histogram name m m' s s'.
Proof.
  unfold RecordHistogram.
  destruct (histograms m !! name) as [i|] eqn:E; run.
  { intros [= <- <- <-]. by apply op_effect_refl. }
  destruct (CreateHistogram env m name _ _ s) as [[[r0 m0]| |] s0] eqn:Ec; [|done..].
  apply (Create_effect env Float64Histogram m name _ "s" (λ _, 0%float)) in Ec as [Ec _].
  destruct r0; intros [= <- <- <-];
    (destruct Ec as [[-> Hi]|(Hc & news & Hi & Hj & Hm)];
     [by apply op_effect_refl | right; split; [done|]; by exists news]).
Qed.

Lemma MeasureDuration_stop_effect (env : Env) (start : Z) (ctx : Context)
    (name : string) (attrs : list KeyValue) (m : Metrics) (s : State)
    (m' : Metrics) (s' : State) :
  MeasureDuration_stop env start ctx name attrs m s = (Done m', s') →
  op_effect Float64Histogram name m m' s s'.
Proof.
  unfold MeasureDuration_stop. run.
  destruct (histograms m !! name) as [i|] eqn:E; run.
  { intros [= <- <-]. by apply op_effect_refl. }
  destruct (CreateHistogram env m name _ _ s) as [[[r0 m0]| |] s0] eqn:Ec; [|done..].
  apply (Create_effect env Float64Histogram m name _ "s" (λ _, 0%float)) in Ec as [Ec _].
  destruct r0; intros [= <- <-];
    (destruct Ec as [[-> Hi]|(Hc & news & Hi & Hj & Hm)];
     [by apply op_effect_refl | right; split; [done|]; by exists news]).
Qed.

Lemma run_op_effect (env : Env) (o : Op) (m : Metrics) (s : State)
    (m' : Metrics) (s' : State) :
  run_op env o m s = (Done m', s') →
  ∃ k n, op_effect k n m m' s s'.
Proof.
  destruct o; unfold run_op; run.
  - destruct (CreateCounter _ _ _ _ s) as [[[r0 m0]| |] s0] eqn:Ec; [|done..].
    intros [= <- <-].
    apply (Create_effect env Int64Counter m name _ "" (λ _, 0%float)) in Ec as [Ec _].
    eauto.
  - destruct (IncrementCounter _ _ _ _ _ _ s) as [[[r0 m0]| |] s0] eqn:Ec; [|done..].
    intros [= <- <-]. apply IncrementCounter_effect in Ec. eauto.
  - destruct (CreateHistogram _ _ _ _ _ s) as [[[r0 m0]| |] s0] eqn:Ec; [|done..].
    intros [= <- <-].
    apply (Create_effect env Float64Histogram m name _ _ (λ _, 0%float)) in Ec as [Ec _].
    eauto.
  - destruct (RecordHistogram _ _ _ _ _ _ s) as [[[r0 m0]| |] s0] eqn:Ec; [|done..].
    intros [= <- <-]. apply RecordHistogram_effect in Ec. eauto.
  - destruct (CreateGauge _ _ _ _ _ s) as [[[r0 m0]| |] s0] eqn:Ec; [|done..].
    intros [= <- <-].
    apply (Create_effect env Float64ObservableGauge m name _ "") in Ec as [Ec _].
    eauto.
  - unfold MeasureDuration. run. intros [= <- <-].
    exists Int64Counter, name. by apply op_effect_refl.
  - intros H. apply MeasureDuration_stop_effect in H. eauto.
Qed.

Lemma cache_set_cache (k k' : InstrumentKind) (m : Metrics) (c : gmap string Instrument) :
  cache k (set_cache k' m c) = if decide (k = k') then c else cache k m.
Proof. by destruct k, k'. Qed.

Lemma made_app (k : InstrumentKind) (name : string) (l1 l2 : list Instrument) :
  made k name (l1 ++ l2) = made k name l1 ++ made k name l2.
Proof. apply filter_app. Qed.

Lemma made_others (k k' : InstrumentKind) (name n' : string) (news : list Instrument) :
  (∀ j, j ∈ news → inst_kind j = k' ∧ inst_name j = n') →
  ¬ (k' = k ∧ n' = name) →
  made k name news = [].
Proof.
  intros Hj Hne. induction news as [|j news IH]; [done|].
  unfold made in *. rewrite filter_cons.
  destruct (Hj j) as [Hk Hn]; [by left|].
  rewrite decide_False; [|intros [? ?]; apply Hne; split; congruence].
  apply IH. intros j' Hj'. apply Hj. by right.
Qed.

(** An entry of a cache outlives every operation, and the meter is not asked
    again for an instrument of that kind and name. *)
Lemma op_effect_preserves (k k' : InstrumentKind) (name n' : string)
    (m m' : Metrics) (s s' : State) (i : Instrument) :
  op_effect k' n' m m' s s' →
  cache k m !! name = Some i →
  cache k m' !! name = Some i ∧
  made k name (instruments s') = made k name (instruments s).
Proof.
  intros [[-> Hi]|(Hc & news & Hi & Hj & Hm)] Hk.
  { by rewrite Hi. }
  assert (¬ (k' = k ∧ n' = name)) as Hne by (intros [-> ->]; congruence).
  rewrite Hi, made_app, (made_others k k' name n' news Hj Hne), app_nil_r.
  split; [|done].
  destruct Hm as [->|[i' ->]]; [done|].
  rewrite cache_set_cache. case_decide as Hd; [|done].
  subst k'. rewrite lookup_insert_ne; [done|]. intros ->. by apply Hne.
Qed.

Lemma run_ops_preserves (env : Env) (ops : list Op) (k : InstrumentKind)
    (name : string) (i : Instrument) (m : Metrics) (s : State)
    (m' : Metrics) (s' : State) :
  cache k m !! name = Some i →
  run_ops env ops m s = (Done m', s') →
  cache k m' !! name = Some i ∧
  made k name (instruments s') = made k name (instruments s).
Proof.
  revert m s. induction ops as [|o ops IH]; intros m s Hc; cbn [run_ops]; run.
  - by intros [= <- <-].
  - destruct (run_op env o m s) as [[m1| |] s1] eqn:Eo; [|done..].
    intros Hr. apply run_op_effect in Eo as (k' & n' & Ho).
    destruct (op_effect_preserves k k' name n' _ _ _ _ i Ho Hc) as [Hc1 Hm1].
    destruct (IH m1 s1 Hc1 Hr) as [Hc2 Hm2]. split; [done|]. by rewrite Hm2.
Qed.

Lemma Create_hit (env : Env) (k : InstrumentKind) (m : Metrics)
    (name description unit_ : string) (callback : unit → float) (s : State)
    (i : Instrument) :
  cache k m !! name = Some i →
  Create env k m name description unit_ callback s = (Done (Ok i, m), s).
Proof.
  destruct k; cbn [cache]; intros H;
    unfold Create, CreateCounter, CreateHistogram, CreateGauge; by rewrite H.
Qed.

Lemma Create_miss (env : Env) (k : InstrumentKind) (m : Metrics) (mt : Meter)
    (name description unit_ : string) (callback : unit → float) (s : State) :
  meter m = Some mt →
  cache k m !! name = None →
  meter_new env (instruments s) k name = None →
  (k = Float64ObservableGauge →
   meter_RegisterCallback env
     (instruments s ++ [next_instrument s k name description unit_])
     (next_instrument s k name description unit_) = None) →
  ∃ s' : State,
    Create env k m name description unit_ callback s =
      (Done (Ok (next_instrument s k name description unit_),
             set_cache k m (<[name := next_instrument s k name description unit_]>
                              (cache k m))), s') ∧
    instruments s' = instruments s ++ [next_instrument s k name description unit_].
Proof.
  intros Hm Hc Hn Hg.
  pose proof (meter_instrument_ok env mt k name description unit_ s Hn) as Hi.
  destruct k; cbn [cache] in Hc;
    unfold Create, CreateCounter, CreateHistogram, CreateGauge;
    rewrite Hc, Hm; run; cbn match in Hi; rewrite Hi.
  - eexists. split; reflexivity.
  - eexists. split; reflexivity.
  - unfold Meter_RegisterCallback. run. cbn [registered instruments].
    rewrite (Hg eq_refl).
    eexists. split; reflexivity.
Qed.

(** C5: on a facade with a meter, a Create call of a kind and a name that
    the cache of that kind does not hold makes an instrument and stores
    that one instrument under the name; a Create call of a name the cache
    holds answers the cached instrument and asks the meter for nothing; and
    through any sequence of operations of the facade the entry stays as it
    is and the meter is not asked again for an instrument of that kind and
    name. *)
Theorem create_once (env : Env) (k : InstrumentKind) (m : Metrics)
    (name description unit_ : string) (callback : unit → float) (s : State) :
  (∀ mt : Meter,
     meter m = Some mt →
     cache k m !! name = None →
     meter_new env (instruments s) k name = None →
     (k = Float64ObservableGauge →
      meter_RegisterCallback env
        (instruments s ++ [next_instrument s k name description unit_])
        (next_instrument s k name description unit_) = None) →
     ∃ (i : Instrument) (m' : Metrics) (s' : State),
       Create env k m name description unit_ callback s = (Done (Ok i, m'), s') ∧
       instruments s' = instruments s ++ [i] ∧
       inst_kind i = k ∧ inst_name i = name ∧
       cache k m' = <[name := i]> (cache k m) ∧
       size (cache k m') = S (size (cache k m)) ∧
       (∀ k', k' ≠ k → cache k' m' = cache k' m)) ∧
  (∀ i : Instrument,
     cache k m !! name = Some i →
     Create env k m name description unit_ callback s = (Done (Ok i, m), s)) ∧
  (∀ (i : Instrument) (ops : list Op) (m' : Metrics) (s' : State),
     cache k m !! name = Some i →
     run_ops env ops m s = (Done m', s') →
     cache k m' !! name = Some i ∧
     made k name (instruments s') = made k name (instruments s)).
Proof.
  split; [|split].
  - intros mt Hm Hc Hn Hg.
    destruct (Create_miss env k m mt name description unit_ callback s Hm Hc Hn Hg)
      as (s' & Hr & Hi).
    eexists _, _, s'. split; [exact Hr|]. split; [exact Hi|].
    split; [done|]. split; [done|].
    rewrite cache_set_cache, decide_True by done.
    split; [done|]. split; [by apply map_size_insert_None|].
    intros k' Hk'. by rewrite cache_set_cache, decide_False.
  - intros i. apply Create_hit.
  - intros i ops m' s'. apply run_ops_preserves.
Qed.

(** C5, for a first counter, for a counter the cache holds, and for that
    counter through four more operations. *)
Lemma create_once_witness :
  (∃ (i : Instrument) (m' : Metrics) (s' : State),
     Create Ex.all_well Int64Counter Ex.metrics "hits" "Counter for hits" "" Ex.zero Ex.s0
       = (Done (Ok i, m'), s') ∧
     instruments s' = [i] ∧ cache Int64Counter m' !! "hits" = Some i) ∧
  Create Ex.all_well Int64Counter Ex.metrics_hits "hits" "another description" "" Ex.zero
    Ex.s_hits = (Done (Ok Ex.hits, Ex.metrics_hits), Ex.s_hits) ∧
  ∃ (m' : Metrics) (s' : State),
    run_ops Ex.all_well
      [OpIncrementCounter context.Background "hits" 1 [];
       OpCreateCounter "hits" "another description";
       OpRecordHistogram context.Background "hits" 0.25%float [];
       OpCreateGauge "hits" "a gauge" Ex.zero]
      Ex.metrics_hits Ex.s_hits = (Done m', s') ∧
    cache Int64Counter m' !! "hits" = Some Ex.hits ∧
    made Int64Counter "hits" (instruments s') = [Ex.hits].
Proof.
  split; [|split].
  - destruct (proj1 (create_once Ex.all_well Int64Counter Ex.metrics "hits"
                       "Counter for hits" "" Ex.zero Ex.s0)
                {| meter_name := "svc" |} eq_refl eq_refl eq_refl)
      as (i & m' & s' & Hr & Hi & _ & _ & Hc & _); [discriminate|].
    exists i, m', s'. split; [exact Hr|]. split; [exact Hi|].
    rewrite Hc. apply lookup_insert_eq.
  - exact (proj1 (proj2 (create_once Ex.all_well Int64Counter Ex.metrics_hits "hits"
                           "another description" "" Ex.zero Ex.s_hits))
             Ex.hits eq_refl).
  - assert (∃ m' s',
              run_ops Ex.all_well
                [OpIncrementCounter context.Background "hits" 1 [];
                 OpCreateCounter "hits" "another description";
                 OpRecordHistogram context.Background "hits" 0.25%float [];
                 OpCreateGauge "hits" "a gauge" Ex.zero]
                Ex.metrics_hits Ex.s_hits = (Done m', s')) as (m' & s' & E)
      by (eexists _, _; reflexivity).
    exists m', s'. split; [exact E|].
    exact (proj2 (proj2 (create_once Ex.all_well Int64Counter Ex.metrics_hits "hits"
                           "another description" "" Ex.zero Ex.s_hits))
             Ex.hits _ _ _ eq_refl E).
Defined.

(** ** Concurrent first use *)

Lemma run_schedule_cons (env : Env) (t : nat) (rest : list nat) (cs : list Caller)
    (c : Caller) (m : Metrics) (s : State) :
  cs !! t = Some c →
  run_schedule env (t :: rest) cs m s =
    match step env c m s with
    | (Done (c', m'), s') => run_schedule env rest (<[t := c']> cs) m' s'
    | (Panic msg, s') => (Panic msg, s')
    | (Exit code, s') => (Exit code, s')
    end.
Proof.
  intros H. cbn [run_schedule]. rewrite H. run.
  by destruct (step env c m s) as [[[c' m']| |] s'].
Qed.

(** A caller that has returned takes no further step. *)
Lemma run_schedule_returned (env : Env) (t : nat) (n : nat) (rest : list nat)
    (cs : list Caller) (c : Caller) (r : res Instrument) (m : Metrics) (s : State) :
  cs !! t = Some c →
  c_pc c = Returned r →
  run_schedule env (replicate n t ++ rest) cs m s = run_schedule env rest cs m s.
Proof.
  intros Hc Hr. induction n as [|n IH]; [done|].
  cbn [replicate app]. rewrite (run_schedule_cons _ _ _ _ c) by done.
  unfold step. rewrite Hr. run. by rewrite list_insert_id.
Qed.

Lemma at_pc_pc (c : Caller) (p : pc) : c_pc (at_pc c p) = p.
Proof. reflexivity. Qed.

Lemma at_pc_at_pc (c : Caller) (p q : pc) : at_pc (at_pc c p) q = at_pc c q.
Proof. reflexivity. Qed.

(** Four steps of one caller, taken with no step of another between them,
    are one call of [Create]. *)
Lemma four_steps (env : Env) (t : nat) (rest : list nat) (cs : list Caller)
    (c : Caller) (m : Metrics) (s : State) :
  cs !! t = Some c →
  c_pc c = AtLookup →
  run_schedule env (replicate 4 t ++ rest) cs m s =
    match Create env (c_kind c) m (c_name c) (c_description c) (c_unit c)
            (c_callback c) s with
    | (Done (r, m'), s') =>
        run_schedule env rest (<[t := at_pc c (Returned r)]> cs) m' s'
    | (Panic msg, s') => (Panic msg, s')
    | (Exit code, s') => (Exit code, s')
    end.
Proof.
  intros Hc Hpc.
  assert (t < length cs)%nat as Hlt by (by eapply lookup_lt_Some).
  assert (∀ (c' : Caller) (l : list Caller),
            length l = length cs → <[t := c']> l !! t = Some c') as Hins.
  { intros c' l Hl. apply list_lookup_insert_eq. by rewrite Hl. }
  cbn [replicate app].
  rewrite (run_schedule_cons _ _ _ _ c) by done.
  unfold step at 1. rewrite Hpc.
  destruct (cache (c_kind c) m !! c_name c) as [i|] eqn:Ecache.
  { (* the cache holds the name *)
    rewrite (Create_hit _ _ _ _ _ _ _ _ i Ecache). run.
    by rewrite (run_schedule_returned env t 3 rest _ (at_pc c (Returned (Ok i))) (Ok i))
      by (by rewrite ?Hins). }
  run.
  rewrite (run_schedule_cons _ _ _ _ (at_pc c AtCreate)) by (by apply Hins).
  unfold step at 1. rewrite at_pc_pc.
  cbn [at_pc c_kind c_name c_description c_unit c_callback].
  destruct c as [k name description unit_ callback p].
  cbn [c_pc c_kind c_name c_description c_unit c_callback at_pc] in *. subst p.
  assert (∀ (c' : Caller) (l : list Caller),
            length l = length cs → length (<[t := c']> l) = length cs) as Hlen.
  { intros c' l Hl. by rewrite length_insert. }
  destruct k; unfold Create, CreateCounter, CreateHistogram, CreateGauge;
    cbn [cache] in Ecache; rewrite Ecache; run;
    destruct (meter_instrument env (meter m) _ name description _ s)
      as [[[i|err]| |] s1]; try done; run.
  - rewrite (run_schedule_cons _ _ _ _ (mkCaller Int64Counter name description unit_ callback (AtInsert i)))
      by (apply Hins; auto).
    unfold step. cbn [c_pc]. run.
    rewrite (run_schedule_returned env t 1 rest _
               (mkCaller Int64Counter name description unit_ callback (Returned (Ok i))) (Ok i))
      by (try apply Hins; auto).
    by rewrite !list_insert_insert_eq.
  - rewrite (run_schedule_returned env t 2 rest _
               (mkCaller Int64Counter name description unit_ callback
                  (Returned (Err (Errorf "failed to create counter" err)))) _)
      by (try apply Hins; auto).
    by rewrite !list_insert_insert_eq.
  - rewrite (run_schedule_cons _ _ _ _ (mkCaller Float64Histogram name description unit_ callback (AtInsert i)))
      by (apply Hins; auto).
    unfold step. cbn [c_pc]. run.
    rewrite (run_schedule_returned env t 1 rest _
               (mkCaller Float64Histogram name description unit_ callback (Returned (Ok i))) (Ok i))
      by (try apply Hins; auto).
    by rewrite !list_insert_insert_eq.
  - rewrite (run_schedule_returned env t 2 rest _
               (mkCaller Float64Histogram name description unit_ callback
                  (Returned (Err (Errorf "failed to create histogram" err)))) _)
      by (try apply Hins; auto).
    by rewrite !list_insert_insert_eq.
  - rewrite (run_schedule_cons _ _ _ _ (mkCaller Float64ObservableGauge name description unit_ callback (AtRegister i)))
      by (apply Hins; auto).
    unfold step at 1. cbn [c_pc c_callback]. run.
    destruct (Meter_RegisterCallback env (meter m) callback i s1)
      as [[[err|]| |] s2]; try done; run.
    + rewrite (run_schedule_returned env t 1 rest _
                 (mkCaller Float64ObservableGauge name description unit_ callback
                    (Returned (Err (Errorf "failed to register callback" err)))) _)
        by (try apply Hins; auto).
      by rewrite !list_insert_insert_eq.
    + rewrite (run_schedule_cons _ _ _ _ (mkCaller Float64ObservableGauge name description unit_ callback (AtInsert i)))
        by (apply Hins; auto).
      unfold step. cbn [c_pc]. run.
      by rewrite !list_insert_insert_eq.
  - rewrite (run_schedule_returned env t 2 rest _
               (mkCaller Float64ObservableGauge name description unit_ callback
                  (Returned (Err (Errorf "failed to create gauge" err)))) _)
      by (try apply Hins; auto).
    by rewrite !list_insert_insert_eq.
Qed.

Lemma serial_hits (env : Env) (k : InstrumentKind) (name : string) (i : Instrument)
    (m : Metrics) (s : State) (cnt : nat) :
  cache k m !! name = Some i →
  ∀ (start : nat) (cs : list Caller),
    (∀ t, (start ≤ t < start + cnt)%nat →
          ∃ c, cs !! t = Some c ∧ c_kind c = k ∧ c_name c = name ∧ c_pc c = AtLookup) →
    ∃ cs' : list Caller,
      run_schedule env (flat_map (λ t, replicate 4 t) (seq start cnt)) cs m s =
        (Done (cs', m), s) ∧
      length cs' = length cs ∧
      (∀ t, (start ≤ t < start + cnt)%nat →
            c_pc <$> (cs' !! t) = Some (Returned (Ok i))) ∧
      (∀ t, ¬ (start ≤ t < start + cnt)%nat → cs' !! t = cs !! t).
Proof.
  intros Hc. induction cnt as [|cnt IH]; intros start cs Hcs.
  - exists cs. split; [reflexivity|]. split; [done|]. split; [lia | done].
  - destruct (Hcs start) as (c & Hl & Hk & Hn & Hp); [lia|].
    cbn [seq flat_map]. rewrite (four_steps env start _ cs c m s Hl Hp).
    rewrite Hk, Hn, (Create_hit _ _ _ _ _ _ _ _ i Hc).
    assert (start < length cs)%nat as Hlt by (by eapply lookup_lt_Some).
    destruct (IH (S start) (<[start := at_pc c (Returned (Ok i))]> cs))
      as (cs' & Hr & Hlen & Hin & Hout).
    { intros t Ht. destruct (Hcs t) as (c' & ? & ?); [lia|].
      exists c'. rewrite list_lookup_insert_ne by lia. done. }
    exists cs'. split; [exact Hr|]. rewrite length_insert in Hlen.
    split; [done|]. split.
    + intros t Ht. destruct (decide (t = start)) as [->|Hne].
      * rewrite Hout by lia. by rewrite list_lookup_insert_eq.
      * apply Hin. lia.
    + intros t Ht. rewrite Hout by lia. apply list_lookup_insert_ne. lia.
Qed.

(** C8, as the code has it: the facade has no lock, and the steps of
    first-use calls for one name make exactly one instrument when the calls
    do not interleave.  With callers that run one after the other, each to
    its end, the first call asks the meter once and stores the instrument,
    every call answers that instrument, and the meter has made one
    instrument of that kind and name more. *)
Theorem serial_first_use_makes_one (env : Env) (k : InstrumentKind) (m : Metrics)
    (mt : Meter) (name : string) (c0 : Caller) (cs : list Caller) (s : State) :
  meter m = Some mt →
  cache k m !! name = None →
  Forall (λ c, c_kind c = k ∧ c_name c = name ∧ c_pc c = AtLookup) (c0 :: cs) →
  meter_new env (instruments s) k name = None →
  (k = Float64ObservableGauge →
   meter_RegisterCallback env
     (instruments s ++ [next_instrument s k name (c_description c0) (c_unit c0)])
     (next_instrument s k name (c_description c0) (c_unit c0)) = None) →
  makes_one k name s (run_schedule env (serial (length (c0 :: cs))) (c0 :: cs) m s).
Proof.
  intros Hm Hc Hall Hn Hg.
  pose proof (Forall_inv Hall) as (Hk0 & Hn0 & Hp0).
  destruct (Create_miss env k m mt name (c_description c0) (c_unit c0)
              (c_callback c0) s Hm Hc Hn Hg) as (s' & Hr & Hi).
  set (i := next_instrument s k name (c_description c0) (c_unit c0)) in *.
  set (m' := set_cache k m (<[name := i]> (cache k m))) in *.
  assert (cache k m' !! name = Some i) as Hc'.
  { unfold m'. rewrite cache_set_cache, decide_True by done. apply lookup_insert_eq. }
  unfold serial. cbn [length seq flat_map].
  rewrite (four_steps env 0 _ (c0 :: cs) c0 m s eq_refl Hp0).
  rewrite Hk0, Hn0, Hr. cbn [insert list_insert].
  destruct (serial_hits env k name i m' s' (length cs) Hc' 1
              (at_pc c0 (Returned (Ok i)) :: cs)) as (cs' & Hrun & Hlen & Hin & Hout).
  { intros t Ht. destruct t as [|t]; [lia|]. cbn [lookup list_lookup].
    destruct (lookup_lt_is_Some_2 cs t) as [c Hl]; [lia|].
    exists c. split; [done|].
    apply Forall_inv_tail in Hall. rewrite Forall_lookup in Hall. by apply (Hall t). }
  exists i, cs', m', s'. split; [exact Hrun|].
  split; [|split; [done|]].
  - apply Forall_lookup. intros t c Hl.
    assert (t < length cs')%nat as Hlt by (by eapply lookup_lt_Some).
    rewrite Hlen in Hlt. cbn [length] in Hlt.
    destruct t as [|t].
    + rewrite Hout in Hl by lia. by injection Hl as <-.
    + specialize (Hin (S t)). rewrite Hl in Hin. cbn in Hin.
      assert (Some (c_pc c) = Some (Returned (Ok i))) as [= ->] by (apply Hin; lia).
      done.
  - rewrite Hi, made_app. f_equal. unfold made. rewrite filter_cons, decide_True; [done|].
    by unfold i.
Qed.

(** C8, for three callers of the counter named hits, one after the other. *)
Lemma serial_first_use_makes_one_witness :
  makes_one Int64Counter "hits" Ex.s0
    (run_schedule Ex.all_well (serial 3) [Ex.use_hits; Ex.use_hits; Ex.use_hits]
       Ex.metrics Ex.s0).
Proof.
  apply (serial_first_use_makes_one Ex.all_well Int64Counter Ex.metrics
           {| meter_name := "svc" |} "hits" Ex.use_hits [Ex.use_hits; Ex.use_hits] Ex.s0).
  - reflexivity.
  - reflexivity.
  - repeat constructor.
  - reflexivity.
  - discriminate.
Defined.

(** Two first uses of the counter named hits, each taking its steps in turn
    with the other: both miss the cache, the meter is asked twice and makes
    two instruments of that name, and the second write of the cache drops
    the instrument the first caller was answered. *)
Lemma racing_first_use (i0 i1 : Instrument) :
  i0 = next_instrument Ex.s0 Int64Counter "hits" "Counter for hits" "" →
  i1 = next_instrument (registered Ex.s0 i0) Int64Counter "hits" "Counter for hits" "" →
  ∃ (cs' : list Caller) (m' : Metrics) (s' : State),
    run_schedule Ex.all_well [0; 1; 0; 1; 0; 1]%nat [Ex.use_hits; Ex.use_hits]
      Ex.metrics Ex.s0 = (Done (cs', m'), s') ∧
    c_pc <$> cs' = [Returned (Ok i0); Returned (Ok i1)] ∧
    i0 ≠ i1 ∧
    made Int64Counter "hits" (instruments s') = [i0; i1] ∧
    cache Int64Counter m' !! "hits" = Some i1.
Proof.
  intros -> ->. eexists _, _, _. split; [reflexivity|].
  split; [reflexivity|]. split; [discriminate|]. split; reflexivity.
Qed.

(** C8 as stated fails on the code: nothing orders the steps of two calls,
    and under the schedule in which two first uses of one name take their
    steps in turn the meter makes two instruments of that name. *)
Lemma racing_first_use_makes_two :
  ¬ makes_one Int64Counter "hits" Ex.s0
      (run_schedule Ex.all_well [0; 1; 0; 1; 0; 1]%nat [Ex.use_hits; Ex.use_hits]
         Ex.metrics Ex.s0).
Proof.
  intros (i & cs' & m' & s' & Hr & _ & _ & Hmade).
  destruct (racing_first_use _ _ eq_refl eq_refl) as (cs0 & m0 & s0 & Hr0 & _ & _ & Hm0 & _).
  rewrite Hr0 in Hr. injection Hr as <- <- <-.
  rewrite Hm0 in Hmade. discriminate Hmade.
Qed.

(** ** Initialization *)

Lemma calls_of_app (xs ys : list Event) :
  calls_of (xs ++ ys) = calls_of xs ++ calls_of ys.
Proof. apply omap_app. Qed.

Lemma teardowns_app (xs ys : list Event) :
  teardowns (xs ++ ys) = teardowns xs ++ teardowns ys.
Proof. apply omap_app. Qed.

Lemma constructing_quiet (evs : list Event) :
  Forall (λ e, constructing e = true) evs →
  calls_of evs = [] ∧ teardowns evs = [].
Proof.
  induction 1 as [|e evs He _ [IH1 IH2]]; [done|].
  unfold calls_of, teardowns in *. cbn [omap list_omap].
  by destruct e; try discriminate He; cbn; rewrite ?IH1, ?IH2.
Qed.

Lemma builds_ret {A : Type} (a : A) : builds (mret a).
Proof. intros s. exists []. by rewrite app_nil_r. Qed.

Lemma builds_emit (e : Event) : constructing e = true → builds (emit e).
Proof. intros H s. exists [e]. split; [done|]. by constructor. Qed.

Lemma builds_bind {A B : Type} (m : M A) (f : A → M B) :
  builds m → (∀ a, builds (f a)) → builds (m ≫= f).
Proof.
  intros Hm Hf s. destruct (Hm s) as (evs & He & Hc).
  unfold mbind, M_bind. destruct (m s) as [[a|msg|code] s1]; cbn [snd] in *.
  - destruct (Hf a s1) as (evs' & He' & Hc').
    exists (evs ++ evs'). rewrite He', He, app_assoc. split; [done|].
    by apply Forall_app.
  - by exists evs.
  - by exists evs.
Qed.

Lemma builds_open_outputs (env : Env) (paths : list string) (outputs : list zap.Writer) :
  builds (open_outputs env paths outputs).
Proof.
  revert outputs. induction paths as [|path paths IH]; intros outputs; cbn [open_outputs].
  - apply builds_ret.
  - destruct (String.eqb path "stdout"); [apply IH|].
    destruct (String.eqb path "stderr"); [apply IH|].
    apply builds_bind; [by apply builds_emit|]. intros _.
    destruct (os_OpenFile env path); [apply builds_ret | apply IH].
Qed.

Lemma builds_alloc (l : Logger) : builds (alloc l).
Proof. intros s. exists []. by rewrite app_nil_r. Qed.

Lemma builds_NewLogger (env : Env) (config : LogConfig.t) :
  builds (NewLogger env config).
Proof.
  unfold NewLogger. apply builds_bind; [apply builds_open_outputs|].
  intros [outputs|err]; [|apply builds_ret].
  apply builds_bind; [apply builds_alloc|]. intros l. apply builds_ret.
Qed.

Lemma builds_setupTracing (env : Env) (ctx : Context) (config : TracingConfig.t) :
  builds (setupTracing env ctx config).
Proof.
  unfold setupTracing. destruct (negb (TracingConfig.Enabled config)).
  { apply builds_bind; [by apply builds_emit|]. intros _. apply builds_ret. }
  apply builds_bind; [by apply builds_emit|]. intros _.
  destruct (resource_New env _); [apply builds_ret|].
  apply builds_bind; [by apply builds_emit|]. intros _.
  destruct (otlptrace_New env _); [apply builds_ret|].
  repeat (apply builds_bind; [by apply builds_emit|]; intros _).
  apply builds_ret.
Qed.

Lemma builds_NewMetrics (env : Env) (ctx : Context) (config : MetricsConfig.t) :
  builds (NewMetrics env ctx config).
Proof.
  unfold NewMetrics. destruct (negb (MetricsConfig.Enabled config)); [apply builds_ret|].
  apply builds_bind; [by apply builds_emit|]. intros _.
  destruct (resource_New env _); [apply builds_ret|].
  apply builds_bind; [by apply builds_emit|]. intros _.
  destruct (otlpmetricgrpc_New env _); [apply builds_ret|].
  apply builds_bind; [by apply builds_emit|]. intros _. apply builds_ret.
Qed.

(** The shutdown function [setupTracing] answers. *)
Lemma setupTracing_shutdown (env : Env) (ctx : Context) (config : TracingConfig.t)
    (s : State) (tracer : Tracer) (tracerShutdown : Context → M (option error))
    (s' : State) :
  setupTracing env ctx config s = (Done (Ok (tracer, tracerShutdown)), s') →
  tracerShutdown =
    if TracingConfig.Enabled config then tp_Shutdown env else (λ _, mret None).
Proof.
  unfold setupTracing. destruct (TracingConfig.Enabled config); run.
  - destruct (resource_New env _); run; [discriminate|].
    destruct (otlptrace_New env _); run; [discriminate|].
    by intros [= _ <- _].
  - by intros [= _ <- _].
Qed.

(** The shutdown function of the facade [NewMetrics] answers. *)
Lemma NewMetrics_shutdown (env : Env) (ctx : Context) (config : MetricsConfig.t)
    (s : State) (m : Metrics) (s' : State) :
  NewMetrics env ctx config s = (Done (Ok m), s') →
  shutdown m =
    if MetricsConfig.Enabled config then meterProvider_Shutdown env ctx else mret None.
Proof.
  unfold NewMetrics. destruct (MetricsConfig.Enabled config); run.
  - destruct (resource_New env _); run; [discriminate|].
    destruct (otlpmetricgrpc_New env _); run; [discriminate|].
    by intros [= <- _].
  - by intros [= <- _].
Qed.

Lemma builds_at {A : Type} (m : M A) (s : State) (o : Outcome A) (s' : State) :
  builds m → m s = (o, s') →
  ∃ evs, events s' = events s ++ evs ∧ calls_of evs = [] ∧ teardowns evs = [].
Proof.
  intros Hb Hr. destruct (Hb s) as (evs & He & Hc). rewrite Hr in He.
  exists evs. split; [done|]. by apply constructing_quiet.
Qed.

Lemma run_events_at {A : Type} (m : M A) (s : State) (o : Outcome A) (s' : State)
    (evs : list Event) :
  m s = (o, s') → events s' = events s ++ evs → run_events m s = evs.
Proof. intros Hr He. apply run_events_app. by rewrite Hr. Qed.

(** C1: initialization builds the logger, then the tracer, then the metrics.
    When the logger cannot be built, the error names the logger stage and
    neither [setupTracing] nor [NewMetrics] is called.  When the tracer
    cannot be built, the error names the tracer stage, [NewMetrics] is not
    called and the logger is not torn down.  When the metrics cannot be
    built, the shutdown function of the tracer is called with the context
    of the initialization, and then the error that names the metrics stage
    is answered. *)
Theorem initialization_stages (env : Env) (ctx : Context) (logConfig : LogConfig.t)
    (tracingConfig : TracingConfig.t) (metricsConfig : MetricsConfig.t) (s : State) :
  (∀ (err : error) (s1 : State),
     NewLogger env logConfig (called Call_NewLogger s) = (Done (Err err), s1) →
     InitializeObservabilityProvider env ctx logConfig tracingConfig metricsConfig s =
       (Done (Err (Errorf "failed to initialize logger" err)), s1) ∧
     calls_of (run_events (InitializeObservabilityProvider env ctx logConfig
                             tracingConfig metricsConfig) s) = [Call_NewLogger] ∧
     teardowns (run_events (InitializeObservabilityProvider env ctx logConfig
                              tracingConfig metricsConfig) s) = []) ∧
  (∀ (logger : ptr) (s1 : State) (err : error) (s2 : State),
     NewLogger env logConfig (called Call_NewLogger s) = (Done (Ok logger), s1) →
     setupTracing env ctx tracingConfig (called Call_setupTracing s1) =
       (Done (Err err), s2) →
     InitializeObservabilityProvider env ctx logConfig tracingConfig metricsConfig s =
       (Done (Err (Errorf "failed to initialize tracer" err)), s2) ∧
     calls_of (run_events (InitializeObservabilityProvider env ctx logConfig
                             tracingConfig metricsConfig) s) =
       [Call_NewLogger; Call_setupTracing] ∧
     teardowns (run_events (InitializeObservabilityProvider env ctx logConfig
                              tracingConfig metricsConfig) s) = []) ∧
  (∀ (logger : ptr) (s1 : State) (tracer : Tracer)
     (tracerShutdown : Context → M (option error)) (s2 : State)
     (err : error) (s3 : State),
     NewLogger env logConfig (called Call_NewLogger s) = (Done (Ok logger), s1) →
     setupTracing env ctx tracingConfig (called Call_setupTracing s1) =
       (Done (Ok (tracer, tracerShutdown)), s2) →
     NewMetrics env ctx metricsConfig (called Call_NewMetrics s2) = (Done (Err err), s3) →
     ∃ (r : option error) (s4 : State),
       tracerShutdown ctx (called (Call_tracerShutdown ctx) s3) = (Done r, s4) ∧
       InitializeObservabilityProvider env ctx logConfig tracingConfig metricsConfig s =
         (Done (Err (Errorf "failed to initialize metrics" err)), s4) ∧
       calls_of (run_events (InitializeObservabilityProvider env ctx logConfig
                               tracingConfig metricsConfig) s) =
         [Call_NewLogger; Call_setupTracing; Call_NewMetrics; Call_tracerShutdown ctx] ∧
       teardowns (run_events (InitializeObservabilityProvider env ctx logConfig
                                tracingConfig metricsConfig) s) =
         (if TracingConfig.Enabled tracingConfig then [Some ctx] else [])).
Proof.
  split; [|split].
  - intros err s1 HL.
    destruct (builds_at _ _ _ _ (builds_NewLogger env logConfig) HL)
      as (evsL & HeL & HcL & HtL).
    assert (InitializeObservabilityProvider env ctx logConfig tracingConfig
              metricsConfig s =
            (Done (Err (Errorf "failed to initialize logger" err)), s1)) as Hr.
    { unfold InitializeObservabilityProvider. unfold called in HL. run. by rewrite HL. }
    split; [exact Hr|].
    rewrite (run_events_at _ _ _ _ ([Called Call_NewLogger] ++ evsL) Hr)
      by (rewrite HeL; cbn [called emit snd events]; by rewrite <- app_assoc).
    by rewrite calls_of_app, teardowns_app, HcL, HtL.
  - intros logger s1 err s2 HL HT.
    destruct (builds_at _ _ _ _ (builds_NewLogger env logConfig) HL)
      as (evsL & HeL & HcL & HtL).
    destruct (builds_at _ _ _ _ (builds_setupTracing env ctx tracingConfig) HT)
      as (evsT & HeT & HcT & HtT).
    assert (InitializeObservabilityProvider env ctx logConfig tracingConfig
              metricsConfig s =
            (Done (Err (Errorf "failed to initialize tracer" err)), s2)) as Hr.
    { unfold InitializeObservabilityProvider. unfold called in HL, HT. run.
      rewrite HL. run. by rewrite HT. }
    split; [exact Hr|].
    rewrite (run_events_at _ _ _ _
               ([Called Call_NewLogger] ++ evsL ++ [Called Call_setupTracing] ++ evsT) Hr).
    + rewrite !calls_of_app, !teardowns_app, HcL, HtL, HcT, HtT. done.
    + rewrite HeT. cbn [called emit snd events]. rewrite HeL.
      cbn [called emit snd events]. by rewrite <- !app_assoc.
  - intros logger s1 tracer tracerShutdown s2 err s3 HL HT HM.
    destruct (builds_at _ _ _ _ (builds_NewLogger env logConfig) HL)
      as (evsL & HeL & HcL & HtL).
    destruct (builds_at _ _ _ _ (builds_setupTracing env ctx tracingConfig) HT)
      as (evsT & HeT & HcT & HtT).
    destruct (builds_at _ _ _ _ (builds_NewMetrics env ctx metricsConfig) HM)
      as (evsM & HeM & HcM & HtM).
    pose proof (setupTracing_shutdown _ _ _ _ _ _ _ HT) as ->.
    remember (if TracingConfig.Enabled tracingConfig
              then tp_Shutdown env else λ _ : Context, mret None) as sh eqn:Hsh.
    destruct (sh ctx (called (Call_tracerShutdown ctx) s3)) as [o s4] eqn:HS.
    assert (∃ r, o = Done r ∧
                 events s4 = events (called (Call_tracerShutdown ctx) s3) ++
                   (if TracingConfig.Enabled tracingConfig
                    then [TracerProviderShutdown ctx] else [])) as (r & -> & He4).
    { rewrite Hsh in HS. destruct (TracingConfig.Enabled tracingConfig).
      - injection HS as <- <-. eexists. split; reflexivity.
      - injection HS as <- <-. eexists. split; [reflexivity|]. by rewrite app_nil_r. }
    exists r, s4. split; [done|].
    assert (InitializeObservabilityProvider env ctx logConfig tracingConfig
              metricsConfig s =
            (Done (Err (Errorf "failed to initialize metrics" err)), s4)) as Hr.
    { unfold InitializeObservabilityProvider. unfold called in HL, HT, HM, HS. run.
      rewrite HL. run. rewrite HT. run. rewrite HM. run. by rewrite HS. }
    split; [exact Hr|].
    rewrite (run_events_at _ _ _ _
               ([Called Call_NewLogger] ++ evsL ++ [Called Call_setupTracing] ++ evsT ++
                [Called Call_NewMetrics] ++ evsM ++ [Called (Call_tracerShutdown ctx)] ++
                (if TracingConfig.Enabled tracingConfig
                 then [TracerProviderShutdown ctx] else [])) Hr).
    + rewrite !calls_of_app, !teardowns_app, HcL, HtL, HcT, HtT, HcM, HtM.
      by destruct (TracingConfig.Enabled tracingConfig).
    + rewrite He4. cbn [called emit snd events]. rewrite HeM.
      cbn [called emit snd events]. rewrite HeT. cbn [called emit snd events].
      rewrite HeL. cbn [called emit snd events]. by rewrite <- !app_assoc.
Qed.

(** C1, where the log file does not open, where the trace exporter cannot
    be built, and where the metric exporter cannot be built. *)
Lemma initialization_stages_witness :
  ((InitializeObservabilityProvider Ex.no_log_file context.Background
      Ex.logConfig_file Ex.tracingConfig Ex.metricsConfig Ex.s0).1 =
     Done (Err (Errorf "failed to initialize logger" (errorString "permission denied"))) ∧
   calls_of (run_events (InitializeObservabilityProvider Ex.no_log_file context.Background
                           Ex.logConfig_file Ex.tracingConfig Ex.metricsConfig) Ex.s0) =
     [Call_NewLogger]) ∧
  ((InitializeObservabilityProvider Ex.no_trace_exporter context.Background
      Ex.logConfig Ex.tracingConfig Ex.metricsConfig Ex.s0).1 =
     Done (Err (Errorf "failed to initialize tracer"
                  (Errorf "failed to create OTLP exporter"
                     (errorString "connection refused")))) ∧
   calls_of (run_events (InitializeObservabilityProvider Ex.no_trace_exporter
                           context.Background Ex.logConfig Ex.tracingConfig
                           Ex.metricsConfig) Ex.s0) =
     [Call_NewLogger; Call_setupTracing]) ∧
  ((InitializeObservabilityProvider Ex.no_metric_exporter context.Background
      Ex.logConfig Ex.tracingConfig Ex.metricsConfig Ex.s0).1 =
     Done (Err (Errorf "failed to initialize metrics"
                  (Errorf "failed to create OTLP exporter"
                     (errorString "connection refused")))) ∧
   calls_of (run_events (InitializeObservabilityProvider Ex.no_metric_exporter
                           context.Background Ex.logConfig Ex.tracingConfig
                           Ex.metricsConfig) Ex.s0) =
     [Call_NewLogger; Call_setupTracing; Call_NewMetrics;
      Call_tracerShutdown context.Background] ∧
   teardowns (run_events (InitializeObservabilityProvider Ex.no_metric_exporter
                            context.Background Ex.logConfig Ex.tracingConfig
                            Ex.metricsConfig) Ex.s0) =
     [Some context.Background]).
Proof.
  split; [|split].
  - edestruct (proj1 (initialization_stages Ex.no_log_file context.Background
                        Ex.logConfig_file Ex.tracingConfig Ex.metricsConfig Ex.s0))
      as (Hr & Hc & _); [lazy; reflexivity|].
    split; [by rewrite Hr | exact Hc].
  - edestruct (proj1 (proj2 (initialization_stages Ex.no_trace_exporter
                               context.Background Ex.logConfig Ex.tracingConfig
                               Ex.metricsConfig Ex.s0)))
      as (Hr & Hc & _); [lazy; reflexivity | lazy; reflexivity |].
    split; [by rewrite Hr | exact Hc].
  - edestruct (proj2 (proj2 (initialization_stages Ex.no_metric_exporter
                               context.Background Ex.logConfig Ex.tracingConfig
                               Ex.metricsConfig Ex.s0)))
      as (r & s4 & _ & Hr & Hc & Ht);
      [lazy; reflexivity | lazy; reflexivity | lazy; reflexivity |].
    split; [by rewrite Hr|]. split; [exact Hc | exact Ht].
Defined.

(** ** Cleanup *)

Lemma log_step (lg : Logger) (l : ptr) (ctx : Context) (msg : string)
    (err : option error) (s : State) :
  loggers s !! l = Some lg →
  match err with
  | Some err =>
      call (Call_Logger_Error ctx msg [zap.Error err])
        (Logger_Error l ctx msg [zap.Error err])
  | None => mret tt
  end s = (Done tt, add_events s (log_error lg ctx msg err)).
Proof.
  intros Hl. destruct err as [err|].
  - unfold call. run.
    change Logger_Error with (Logger_call Method_Error).
    rewrite (Logger_call_run Method_Error l lg) by done.
    rewrite zap_log_run. unfold log_error, add_events. cbn [loggers instruments now events].
    destruct (zapcore.Enabled _ _); cbn; by rewrite <- ?app_assoc.
  - unfold add_events, log_error. run. rewrite app_nil_r. by destruct s.
Qed.

Lemma add_events_add_events (s : State) (xs ys : list Event) :
  add_events (add_events s xs) ys = add_events s (xs ++ ys).
Proof. unfold add_events. cbn. by rewrite app_assoc. Qed.

Lemma emit_add_events (e : Event) (s : State) :
  emit e s = (Done tt, add_events s [e]).
Proof. reflexivity. Qed.

Lemma bind_assoc {A B C : Type} (m : M A) (f : A → M B) (g : B → M C) (s : State) :
  ((m ≫= f) ≫= g) s = (m ≫= λ a, f a ≫= g) s.
Proof. unfold mbind, M_bind. by destruct (m s) as [[a| |] s']. Qed.

Lemma emit_bind {B : Type} (e : Event) (f : unit → M B) (s : State) :
  (emit e ≫= f) s = f tt (add_events s [e]).
Proof. reflexivity. Qed.

Lemma bind_Done {A B : Type} (m : M A) (f : A → M B) (s : State) (a : A) (s' : State) :
  m s = (Done a, s') → (m ≫= f) s = f a s'.
Proof. intros H. unfold mbind, M_bind. by rewrite H. Qed.

(** The trace of the cleanup, given what its first two steps do. *)
Lemma cleanup_run (env : Env) (metrics : Metrics)
    (tracerShutdown : Context → M (option error)) (l : ptr) (lg : Logger)
    (evsM evsT : list Event) (em et : option error) (s : State) :
  loggers s !! l = Some lg →
  (∀ s', shutdown metrics s' = (Done em, add_events s' evsM)) →
  (∀ s', tracerShutdown timeoutCtx s' = (Done et, add_events s' evsT)) →
  cleanup env metrics tracerShutdown l s =
    (Done tt,
     add_events s
       ([Called (Call_Metrics_Shutdown timeoutCtx)] ++ evsM ++
        log_error lg timeoutCtx "Error shutting down metrics" em ++
        [Called (Call_tracerShutdown timeoutCtx)] ++ evsT ++
        log_error lg timeoutCtx "Error shutting down tracer" et ++
        [Called Call_Logger_Sync; ZapSync (zap.outputs (logger lg))] ++
        print_sync_error (zap_Sync env (zap.outputs (logger lg))) ++
        [Cancel])).
Proof.
  intros Hl Hm Ht. unfold cleanup. cbv zeta. fold timeoutCtx.
  unfold call, Metrics_Shutdown.
  rewrite bind_assoc, emit_bind. rewrite (bind_Done _ _ _ _ _ (Hm _)).
  rewrite add_events_add_events.
  erewrite (bind_Done (match em with Some _ => _ | None => _ end)) by (by apply log_step).
  rewrite add_events_add_events.
  rewrite bind_assoc, emit_bind. rewrite (bind_Done _ _ _ _ _ (Ht _)).
  rewrite !add_events_add_events.
  erewrite (bind_Done (match et with Some _ => _ | None => _ end)) by (by apply log_step).
  rewrite add_events_add_events.
  rewrite bind_assoc, emit_bind, add_events_add_events.
  unfold Logger_Sync. run. cbn [add_events loggers]. rewrite Hl. run.
  unfold add_events, print_sync_error. cbn [loggers instruments now events].
  destruct (zap_Sync env _); run; do 2 f_equal; by rewrite <- !app_assoc.
Qed.

(** What a successful initialization answers. *)
Lemma Initialize_Ok (env : Env) (ctx : Context) (logConfig : LogConfig.t)
    (tracingConfig : TracingConfig.t) (metricsConfig : MetricsConfig.t)
    (s : State) (p : ObservabilityProvider.t) (c : M unit) (s1 : State) :
  InitializeObservabilityProvider env ctx logConfig tracingConfig metricsConfig s =
    (Done (Ok (p, c)), s1) →
  c = cleanup env (ObservabilityProvider.Metrics p)
        (if TracingConfig.Enabled tracingConfig then tp_Shutdown env else (λ _, mret None))
        (ObservabilityProvider.Logger p) ∧
  shutdown (ObservabilityProvider.Metrics p) =
    (if MetricsConfig.Enabled metricsConfig
     then meterProvider_Shutdown env ctx else mret None).
Proof.
  unfold InitializeObservabilityProvider, call. run.
  destruct (NewLogger env logConfig _) as [[[l|e]| |] sL]; try done; run.
  destruct (setupTracing env ctx tracingConfig _) as [[[[t sh]|e]| |] sT] eqn:ET;
    try done; run.
  apply setupTracing_shutdown in ET as ->.
  destruct (NewMetrics env ctx metricsConfig _) as [[[m|e]| |] sM] eqn:EM;
    try done; run.
  - apply NewMetrics_shutdown in EM. by intros [= <- <- <-].
  - destruct (TracingConfig.Enabled tracingConfig); by run.
Qed.

(** C2, as the code has it: the cleanup calls the shutdown of the metrics,
    then the shutdown function of the tracer, then the sync of the logger,
    in that order and whatever the earlier steps answered; a step that
    fails is followed by a call of [Logger.Error] (by a print, for the
    sync) and nothing is raised; one context with a timeout of five seconds
    is made and handed to the shutdown of the metrics, to the shutdown
    function of the tracer, which hands it to the tracer provider, and to
    the error logs.  The sync of the logger takes no context. *)
Theorem cleanup_sequence (env : Env) (ctx : Context) (logConfig : LogConfig.t)
    (tracingConfig : TracingConfig.t) (metricsConfig : MetricsConfig.t)
    (s : State) (p : ObservabilityProvider.t) (c : M unit) (s1 s2 : State)
    (lg : Logger) :
  InitializeObservabilityProvider env ctx logConfig tracingConfig metricsConfig s =
    (Done (Ok (p, c)), s1) →
  loggers s2 !! ObservabilityProvider.Logger p = Some lg →
  ∃ (evsM : list Event) (em : option error),
    Metrics_Shutdown (ObservabilityProvider.Metrics p) timeoutCtx
        (called (Call_Metrics_Shutdown timeoutCtx) s2) =
      (Done em, add_events (called (Call_Metrics_Shutdown timeoutCtx) s2) evsM) ∧
    calls_of evsM = [] ∧
    c s2 =
      (Done tt,
       add_events s2
         ([Called (Call_Metrics_Shutdown timeoutCtx)] ++ evsM ++
          log_error lg timeoutCtx "Error shutting down metrics" em ++
          [Called (Call_tracerShutdown timeoutCtx)] ++
          (if TracingConfig.Enabled tracingConfig
           then [TracerProviderShutdown timeoutCtx] else []) ++
          log_error lg timeoutCtx "Error shutting down tracer"
            (if TracingConfig.Enabled tracingConfig
             then TracerProvider_Shutdown env timeoutCtx else None) ++
          [Called Call_Logger_Sync; ZapSync (zap.outputs (logger lg))] ++
          print_sync_error (zap_Sync env (zap.outputs (logger lg))) ++
          [Cancel])) ∧
    calls_of (run_events c s2) =
      [Call_Metrics_Shutdown timeoutCtx] ++
      logged timeoutCtx "Error shutting down metrics" em ++
      [Call_tracerShutdown timeoutCtx] ++
      logged timeoutCtx "Error shutting down tracer"
        (if TracingConfig.Enabled tracingConfig
         then TracerProvider_Shutdown env timeoutCtx else None) ++
      [Call_Logger_Sync].
Proof.
  intros Hi Hl. apply Initialize_Ok in Hi as [-> Hs].
  set (evsM := if MetricsConfig.Enabled metricsConfig
               then [MeterProviderShutdown ctx] else []).
  set (em := if MetricsConfig.Enabled metricsConfig
             then MeterProvider_Shutdown env ctx else None).
  assert (∀ s', shutdown (ObservabilityProvider.Metrics p) s' =
                (Done em, add_events s' evsM)) as Hm.
  { intros s'. rewrite Hs. unfold evsM, em, add_events.
    destruct (MetricsConfig.Enabled metricsConfig); [reflexivity|].
    run. rewrite app_nil_r. by destruct s'. }
  assert (∀ s',
            (if TracingConfig.Enabled tracingConfig
             then tp_Shutdown env else (λ _, mret None)) timeoutCtx s' =
            (Done (if TracingConfig.Enabled tracingConfig
                   then TracerProvider_Shutdown env timeoutCtx else None),
             add_events s' (if TracingConfig.Enabled tracingConfig
                            then [TracerProviderShutdown timeoutCtx] else []))) as Ht.
  { intros s'. unfold add_events.
    destruct (TracingConfig.Enabled tracingConfig); [reflexivity|].
    run. rewrite app_nil_r. by destruct s'. }
  exists evsM, em. split; [apply Hm|].
  split; [unfold evsM; by destruct (MetricsConfig.Enabled metricsConfig)|].
  pose proof (cleanup_run env _ _ _ lg _ _ _ _ s2 Hl Hm Ht) as Hc.
  split; [exact Hc|].
  rewrite (run_events_at _ _ _ _ _ Hc eq_refl).
  rewrite !calls_of_app.
  assert (∀ msg e, calls_of (log_error lg timeoutCtx msg e) = logged timeoutCtx msg e)
    as Hlog.
  { intros msg [e|]; [|done]. unfold log_error.
    by destruct (zapcore.Enabled _ _). }
  rewrite !Hlog.
  replace (calls_of evsM) with (@nil CallSite)
    by (unfold evsM; by destruct (MetricsConfig.Enabled metricsConfig)).
  replace (calls_of (print_sync_error _)) with (@nil CallSite)
    by (by destruct (zap_Sync env _)).
  replace (calls_of (if TracingConfig.Enabled tracingConfig
                     then [TracerProviderShutdown timeoutCtx] else []))
    with (@nil CallSite) by (by destruct (TracingConfig.Enabled tracingConfig)).
  cbn [calls_of omap list_omap app]. by rewrite ?app_nil_r.
Qed.

(** C2, where every shutdown step fails: the three steps are all taken, in
    order, and each failure of the first two is logged. *)
Lemma cleanup_sequence_witness :
  ∃ (p : ObservabilityProvider.t) (c : M unit) (s1 : State),
    InitializeObservabilityProvider Ex.shutdowns_fail context.Background
      Ex.logConfig Ex.tracingConfig Ex.metricsConfig Ex.s0 = (Done (Ok (p, c)), s1) ∧
    (c s1).1 = Done tt ∧
    calls_of (run_events c s1) =
      [Call_Metrics_Shutdown timeoutCtx;
       Call_Logger_Error timeoutCtx "Error shutting down metrics"
         [zap.Error (errorString "flush failed")];
       Call_tracerShutdown timeoutCtx;
       Call_Logger_Error timeoutCtx "Error shutting down tracer"
         [zap.Error (errorString "export timed out")];
       Call_Logger_Sync].
Proof.
  pose proof (cleanup_sequence Ex.shutdowns_fail context.Background
                Ex.logConfig Ex.tracingConfig Ex.metricsConfig Ex.s0) as H.
  destruct (InitializeObservabilityProvider Ex.shutdowns_fail context.Background
              Ex.logConfig Ex.tracingConfig Ex.metricsConfig Ex.s0) as [o s1] eqn:Hi.
  lazy -[cleanup] in Hi. injection Hi as <- Hs1.
  eexists _, _, s1. split; [reflexivity|].
  destruct (H _ _ _ s1 {| logger := Ex.zl |} eq_refl)
    as (evsM & em & Hms & _ & Hr & Hc); [rewrite <- Hs1; reflexivity|].
  split; [by rewrite Hr|].
  rewrite Hc. lazy in Hms. injection Hms as <- _. reflexivity.
Defined.

(** C2 as stated fails on the code: the three shutdown calls are not all
    guarded by the five-second context.  With metrics enabled, the meter
    provider is shut down with the context of the initialization, here the
    background context, which has no timeout; and the sync of the logger
    has no context at all. *)
Lemma cleanup_shutdowns_not_all_guarded :
  ∃ (p : ObservabilityProvider.t) (c : M unit) (s1 : State),
    InitializeObservabilityProvider Ex.all_well context.Background
      Ex.logConfig Ex.tracingConfig Ex.metricsConfig Ex.s0 = (Done (Ok (p, c)), s1) ∧
    teardowns (run_events c s1) =
      [Some context.Background; Some timeoutCtx; None] ∧
    ctx_timeout context.Background = None ∧
    ctx_timeout timeoutCtx = Some 5000000000 ∧
    shutdowns_guarded_by timeoutCtx (run_events c s1) = false.
Proof.
  eexists _, _, _. split; [lazy -[cleanup]; reflexivity|].
  split; [reflexivity|]. split; [reflexivity|]. split; reflexivity.
Qed.

(** * Further properties of the package *)

(** ** Parsing the configuration *)

(** X1: [ParseLogLevel] answers one of the five levels for every string:
    each level for its lower-case name, the warn level also for "warning",
    and the info level for every other string. *)
Theorem ParseLogLevel_cases (level : string) :
  (ParseLogLevel level = DebugLevel ↔ level = "debug") ∧
  (ParseLogLevel level = WarnLevel ↔ level = "warn" ∨ level = "warning") ∧
  (ParseLogLevel level = ErrorLevel ↔ level = "error") ∧
  (ParseLogLevel level = FatalLevel ↔ level = "fatal") ∧
  (ParseLogLevel level = InfoLevel ↔
     level ∉ ["debug"; "warn"; "warning"; "error"; "fatal"]) ∧
  DebugLevel ≤ ParseLogLevel level ≤ FatalLevel ∧
  effective_level (ParseLogLevel level) = ParseLogLevel level.
Proof.
  unfold ParseLogLevel.
  destruct (String.eqb_spec level "debug") as [->|Hd];
    [|destruct (String.eqb_spec level "info") as [->|Hi];
      [|destruct (String.eqb_spec level "warn") as [->|Hw];
        [|destruct (String.eqb_spec level "warning") as [->|Hw'];
          [|destruct (String.eqb_spec level "error") as [->|He];
            [|destruct (String.eqb_spec level "fatal") as [->|Hf]]]]]];
    cbn [orb]; rewrite !not_elem_of_cons;
    unfold DebugLevel, InfoLevel, WarnLevel, ErrorLevel, FatalLevel, effective_level;
    cbn [Z.leb Z.compare andb];
    repeat split; try lia; try (intuition (discriminate || congruence || done));
    apply not_elem_of_nil.
Qed.

(** X2: [ParseLogFormat] answers the console format for "console" and the
    JSON format for every other string. *)
Theorem ParseLogFormat_cases (format : string) :
  (ParseLogFormat format = ConsoleFormat ↔ format = "console") ∧
  (ParseLogFormat format = JSONFormat ↔ format ≠ "console").
Proof.
  unfold ParseLogFormat.
  destruct (String.eqb_spec format "json") as [->|Hj];
    [|destruct (String.eqb_spec format "console") as [->|Hc]];
    repeat split; try (intros; discriminate); try done.
Qed.

(** ** Building the logger *)

Lemma emit_bind_run {B : Type} (e : Event) (f : unit → M B) (s : State) :
  (emit e ≫= f) s = f tt (add_events s [e]).
Proof. reflexivity. Qed.

Lemma add_events_nil (s : State) : add_events s [] = s.
Proof. unfold add_events. rewrite app_nil_r. by destruct s. Qed.

Lemma filter_is_file_app (xs ys : list string) :
  List.filter is_file (xs ++ ys) = List.filter is_file xs ++ List.filter is_file ys.
Proof. apply List.filter_app. Qed.

Lemma writer_of_not_file (path : string) :
  is_file path = false →
  (String.eqb path "stdout" = true ∧ writer_of path = zap.Stdout) ∨
  (String.eqb path "stdout" = false ∧ String.eqb path "stderr" = true ∧
   writer_of path = zap.Stderr).
Proof.
  unfold is_file, writer_of.
  destruct (String.eqb path "stdout"); [by left|].
  destruct (String.eqb path "stderr"); [by right | done].
Qed.

Lemma is_file_eqb (path : string) :
  is_file path = true →
  String.eqb path "stdout" = false ∧ String.eqb path "stderr" = false ∧
  writer_of path = zap.File path.
Proof.
  unfold is_file, writer_of.
  destruct (String.eqb path "stdout"); [done|].
  by destruct (String.eqb path "stderr").
Qed.

(** The loop over the output paths: every file opens and the loop answers
    the writers of all paths, or the loop stops at the first file that does
    not open. *)
Lemma open_outputs_cases (env : Env) (paths : list string) :
  ∀ (outputs : list zap.Writer) (s : State),
    (Forall (λ p, is_file p = true → os_OpenFile env p = None) paths ∧
     open_outputs env paths outputs s =
       (Done (Ok (outputs ++ (writer_of <$> paths))),
        add_events s (OpenFile <$> List.filter is_file paths))) ∨
    (∃ pre path post err,
       paths = pre ++ path :: post ∧
       Forall (λ p, is_file p = true → os_OpenFile env p = None) pre ∧
       is_file path = true ∧ os_OpenFile env path = Some err ∧
       open_outputs env paths outputs s =
         (Done (Err err),
          add_events s (OpenFile <$> (List.filter is_file pre ++ [path])))).
Proof.
  induction paths as [|path paths IH]; intros outputs s.
  { left. split; [constructor|]. cbn. by rewrite app_nil_r, add_events_nil. }
  cbn [open_outputs].
  destruct (is_file path) eqn:Ef.
  - destruct (is_file_eqb _ Ef) as (-> & -> & Hw).
    rewrite emit_bind_run.
    destruct (os_OpenFile env path) as [err|] eqn:Eo.
    + right. exists [], path, paths, err. cbn. by rewrite Ef.
    + destruct (IH (outputs ++ [zap.File path]) (add_events s [OpenFile path]))
        as [[Hall Hr]|(pre & p & post & err & -> & Hall & Hf & Ho & Hr)].
      * left. split; [by constructor|]. rewrite Hr, add_events_add_events.
        cbn [List.filter fmap list_fmap]. rewrite Ef, Hw, <- app_assoc. done.
      * right. exists (path :: pre), p, post, err.
        split; [done|]. split; [by constructor|]. split; [done|]. split; [done|].
        rewrite Hr, add_events_add_events. cbn [List.filter app]. by rewrite Ef.
  - assert (open_outputs env paths (outputs ++ [writer_of path]) s =
            (if String.eqb path "stdout"
             then open_outputs env paths (outputs ++ [zap.Stdout])
             else if String.eqb path "stderr"
                  then open_outputs env paths (outputs ++ [zap.Stderr])
                  else emit (OpenFile path);;
                       match os_OpenFile env path with
                       | Some err => mret (Err err)
                       | None => open_outputs env paths (outputs ++ [zap.File path])
                       end) s) as <-.
    { destruct (writer_of_not_file _ Ef) as [[-> ->]|(-> & -> & ->)]; done. }
    destruct (IH (outputs ++ [writer_of path]) s)
      as [[Hall Hr]|(pre & p & post & err & -> & Hall & Hf & Ho & Hr)].
    + left. split; [constructor; [congruence | done]|]. rewrite Hr.
      cbn [List.filter fmap list_fmap]. by rewrite Ef, <- app_assoc.
    + right. exists (path :: pre), p, post, err.
      split; [done|]. split; [constructor; [congruence | done]|].
      split; [done|]. split; [done|]. rewrite Hr. cbn [List.filter]. by rewrite Ef.
Qed.

Lemma open_outputs_exclusive (env : Env) (pre post : list string) (path : string)
    (err : error) :
  is_file path = true → os_OpenFile env path = Some err →
  ¬ Forall (λ p, is_file p = true → os_OpenFile env p = None) (pre ++ path :: post).
Proof.
  intros Hf Ho Hall. apply Forall_app in Hall as [_ Hall].
  apply Forall_cons in Hall as [H _]. rewrite (H Hf) in Ho. discriminate.
Qed.

(** The threshold of the zap logger [NewLogger] builds, read on the levels
    of the configuration. *)
Lemma NewLogger_level (l : LogLevel) (mth : Method) :
  zapcore.Enabled
    (if l =? DebugLevel then zapcore.DebugLevel
     else if l =? InfoLevel then zapcore.InfoLevel
     else if l =? WarnLevel then zapcore.WarnLevel
     else if l =? ErrorLevel then zapcore.ErrorLevel
     else if l =? FatalLevel then zapcore.FatalLevel
     else zapcore.InfoLevel)
    (method_level mth) =
  (effective_level l <=? Method_LogLevel mth).
Proof.
  unfold effective_level, zapcore.Enabled, DebugLevel, InfoLevel, WarnLevel,
    ErrorLevel, FatalLevel.
  destruct (Z.eqb_spec l 0) as [->|?]; [by destruct mth|].
  destruct (Z.eqb_spec l 1) as [->|?]; [by destruct mth|].
  destruct (Z.eqb_spec l 2) as [->|?]; [by destruct mth|].
  destruct (Z.eqb_spec l 3) as [->|?]; [by destruct mth|].
  destruct (Z.eqb_spec l 4) as [->|?]; [by destruct mth|].
  destruct (Z.leb_spec 0 l), (Z.leb_spec l 4); cbn [andb]; try lia;
    by destruct mth.
Qed.

(** What [NewLogger] has built when it answers a logger. *)
Lemma NewLogger_Ok_inv (env : Env) (config : LogConfig.t) (s : State) (l : ptr)
    (s' : State) :
  NewLogger env config s = (Done (Ok l), s') →
  ∃ zl : zap.Logger,
    Forall (λ p, is_file p = true → os_OpenFile env p = None)
      (LogConfig.OutputPaths config) ∧
    l = length (loggers s) ∧
    loggers s' = loggers s ++ [{| logger := zl |}] ∧
    instruments s' = instruments s ∧
    events s' = events s ++ (OpenFile <$> List.filter is_file (LogConfig.OutputPaths config)) ∧
    zap.outputs zl =
      (match LogConfig.OutputPaths config with
       | [] => [zap.Stdout]
       | _ => writer_of <$> LogConfig.OutputPaths config
       end) ∧
    zap.encoder zl =
      (if LogConfig.Format config =? JSONFormat
       then zapcore.JSONEncoder else zapcore.ConsoleEncoder) ∧
    zap.context zl = [] ∧
    zap.development zl = LogConfig.Development config ∧
    (∀ mth, zapcore.Enabled (zap.level zl) (method_level mth) =
            (effective_level (LogConfig.Level config) <=? Method_LogLevel mth)).
Proof.
  unfold NewLogger.
  destruct (open_outputs_cases env (LogConfig.OutputPaths config) [] s)
    as [[Hall Hr]|(pre & p & post & err & Hp & Hall & Hf & Ho & Hr)].
  - rewrite (bind_Done _ _ _ _ _ Hr). run. intros [= <- <-].
    eexists. split; [exact Hall|]. split; [done|]. cbn [loggers instruments events zap.outputs
      zap.encoder zap.context zap.development zap.level add_events].
    split; [reflexivity|]. split; [done|]. split; [done|].
    split; [by destruct (LogConfig.OutputPaths config)|].
    split; [done|]. split; [done|]. split; [done|]. apply NewLogger_level.
  - rewrite (bind_Done _ _ _ _ _ Hr). run. discriminate.
Qed.

(** X3: when every file among the output paths opens, [NewLogger] answers a
    new facade struct, having opened the files in the order of the paths;
    the logger writes to the writers of the paths in that order, to the
    standard output alone when no path is configured, with the encoder of
    the configured format and no bound field. *)
Theorem NewLogger_builds (env : Env) (config : LogConfig.t) (s : State) :
  Forall (λ p, is_file p = true → os_OpenFile env p = None)
    (LogConfig.OutputPaths config) →
  ∃ (zl : zap.Logger) (s' : State),
    NewLogger env config s = (Done (Ok (length (loggers s))), s') ∧
    loggers s' = loggers s ++ [{| logger := zl |}] ∧
    events s' =
      events s ++ (OpenFile <$> List.filter is_file (LogConfig.OutputPaths config)) ∧
    zap.outputs zl =
      (match LogConfig.OutputPaths config with
       | [] => [zap.Stdout]
       | _ => writer_of <$> LogConfig.OutputPaths config
       end) ∧
    zap.encoder zl =
      (if LogConfig.Format config =? JSONFormat
       then zapcore.JSONEncoder else zapcore.ConsoleEncoder) ∧
    zap.context zl = [] ∧
    zap.development zl = LogConfig.Development config.
Proof.
  intros Hall.
  destruct (NewLogger env config s) as [o s'] eqn:E.
  assert (∃ l, o = Done (Ok l)) as [l ->].
  { revert E. unfold NewLogger.
    destruct (open_outputs_cases env (LogConfig.OutputPaths config) [] s)
      as [[_ Hr]|(pre & p & post & err & Hp & _ & Hf & Ho & _)].
    - rewrite (bind_Done _ _ _ _ _ Hr). run. intros [= <- _]. eauto.
    - rewrite Hp in Hall. by destruct (open_outputs_exclusive env pre post p err Hf Ho). }
  destruct (NewLogger_Ok_inv _ _ _ _ _ E)
    as (zl & _ & -> & Hl & _ & He & Ho & Hen & Hc & Hd & _).
  by exists zl, s'.
Qed.

(** X3, for a log file and the standard error. *)
Lemma NewLogger_builds_witness :
  ∃ (zl : zap.Logger) (s' : State),
    NewLogger Ex.all_well
      {| LogConfig.Level := WarnLevel; LogConfig.Format := ConsoleFormat;
         LogConfig.OutputPaths := ["/var/log/app.log"; "stderr"];
         LogConfig.Development := true |} Ex.s0 = (Done (Ok 0%nat), s') ∧
    events s' = [OpenFile "/var/log/app.log"] ∧
    zap.outputs zl = [zap.File "/var/log/app.log"; zap.Stderr] ∧
    zap.encoder zl = zapcore.ConsoleEncoder.
Proof.
  destruct (NewLogger_builds Ex.all_well
              {| LogConfig.Level := WarnLevel; LogConfig.Format := ConsoleFormat;
                 LogConfig.OutputPaths := ["/var/log/app.log"; "stderr"];
                 LogConfig.Development := true |} Ex.s0)
    as (zl & s' & Hr & _ & He & Ho & Hen & _).
  { repeat constructor. }
  by exists zl, s'.
Defined.

Lemma first_failure_unique (env : Env) (pre : list string) (p : string)
    (post pre' : list string) (p' : string) (post' : list string) :
  pre ++ p :: post = pre' ++ p' :: post' →
  Forall (λ p, is_file p = true → os_OpenFile env p = None) pre →
  Forall (λ p, is_file p = true → os_OpenFile env p = None) pre' →
  ¬ (is_file p = true → os_OpenFile env p = None) →
  ¬ (is_file p' = true → os_OpenFile env p' = None) →
  pre' = pre ∧ p' = p.
Proof.
  revert pre'. induction pre as [|x pre IH]; intros [|x' pre'] He Hall Hall' Hp Hp';
    cbn [app] in He.
  - by injection He as -> _.
  - injection He as <- _. apply Forall_cons in Hall' as [H _]. done.
  - injection He as -> _. apply Forall_cons in Hall as [H _]. done.
  - injection He as -> He.
    apply Forall_cons in Hall as [_ Hall]. apply Forall_cons in Hall' as [_ Hall'].
    by destruct (IH pre' He Hall Hall' Hp Hp') as [-> ->].
Qed.

(** X4: [NewLogger] fails exactly when a file among the output paths does
    not open.  It answers the error of the first such file as it is, has
    opened the files before it and none after it, and has allocated no
    facade struct. *)
Theorem NewLogger_fails (env : Env) (config : LogConfig.t) (s : State)
    (err : error) (s' : State) :
  NewLogger env config s = (Done (Err err), s') ↔
  ∃ (pre : list string) (path : string) (post : list string),
    LogConfig.OutputPaths config = pre ++ path :: post ∧
    Forall (λ p, is_file p = true → os_OpenFile env p = None) pre ∧
    is_file path = true ∧
    os_OpenFile env path = Some err ∧
    s' = add_events s (OpenFile <$> (List.filter is_file pre ++ [path])).
Proof.
  unfold NewLogger.
  destruct (open_outputs_cases env (LogConfig.OutputPaths config) [] s)
    as [[Hall Hr]|(pre & p & post & e & Hp & Hall & Hf & Ho & Hr)];
    rewrite (bind_Done _ _ _ _ _ Hr); run.
  - split; [discriminate|].
    intros (pre & p & post & Hp & _ & Hf & Ho & _). rewrite Hp in Hall.
    by destruct (open_outputs_exclusive env pre post p err Hf Ho).
  - split.
    + intros [= <- <-]. by exists pre, p, post.
    + intros (pre' & p' & post' & Hp' & Hall' & Hf' & Ho' & ->).
      (* the first failing file is the same in both decompositions *)
      rewrite Hp in Hp'.
      destruct (first_failure_unique env pre p post pre' p' post' Hp' Hall Hall')
        as [-> ->];
        [intros H; specialize (H Hf); congruence
        |intros H; specialize (H Hf'); congruence|].
      rewrite Ho in Ho'. by injection Ho' as ->.
Qed.

(** X5: a logger built by [NewLogger] writes the call of a logging method
    exactly when the level of the method is at least the configured level,
    a configured level that is none of the five constants acting as the
    info level.  A call below the level leaves the state as it is.  The
    entry carries the fields of the call and the correlation fields; no
    call changes a facade struct; [Fatal] is always written and ends the
    process, the other methods return. *)
Theorem NewLogger_threshold (env : Env) (config : LogConfig.t) (s : State)
    (l : ptr) (s1 : State) :
  NewLogger env config s = (Done (Ok l), s1) →
  ∃ zl : zap.Logger,
    loggers s1 !! l = Some {| logger := zl |} ∧
    ∀ (mth : Method) (ctx : Context) (msg : string) (fields : list zap.Field),
      Logger_call mth l ctx msg fields s1 =
        (match mth with Method_Fatal => Exit 1 | _ => Done tt end,
         if effective_level (LogConfig.Level config) <=? Method_LogLevel mth
         then add_events s1
                [ZapWrite {| zap.entry_level := method_level mth;
                             zap.entry_message := msg;
                             zap.entry_fields := fields ++ extractTraceFields ctx;
                             zap.entry_outputs := zap.outputs zl;
                             zap.entry_encoder := zap.encoder zl |}]
         else s1) ∧
      (effective_level (LogConfig.Level config) <=? Method_LogLevel Method_Fatal) = true.
Proof.
  intros Hn.
  destruct (NewLogger_Ok_inv _ _ _ _ _ Hn)
    as (zl & _ & -> & Hl & _ & _ & _ & _ & Hc & _ & Hen).
  exists zl.
  assert (loggers s1 !! length (loggers s) = Some {| logger := zl |}) as Hlk.
  { rewrite Hl. by rewrite lookup_app_r, Nat.sub_diag. }
  split; [exact Hlk|]. intros mth ctx msg fields. split.
  - rewrite (Logger_call_run mth _ _ ctx msg fields s1 Hlk), zap_log_run.
    change (zap.level (zap.AddCallerSkip zl 1)) with (zap.level zl).
    rewrite Hen. unfold entry_of. cbn [zap.AddCallerSkip zap.context zap.outputs
      zap.encoder logger]. rewrite Hc. cbn [app].
    f_equal. by destruct mth.
  - cbn [Method_LogLevel]. unfold effective_level, DebugLevel, InfoLevel, FatalLevel.
    destruct (Z.leb_spec 0 (LogConfig.Level config)),
      (Z.leb_spec (LogConfig.Level config) 4); cbn [andb];
      try reflexivity; apply Z.leb_le; lia.
Qed.

(** X5, for a logger at the warn level: an info call writes nothing. *)
Lemma NewLogger_threshold_witness :
  ∃ s1 : State,
    NewLogger Ex.all_well
      {| LogConfig.Level := WarnLevel; LogConfig.Format := JSONFormat;
         LogConfig.OutputPaths := []; LogConfig.Development := false |} Ex.s0 =
      (Done (Ok 0%nat), s1) ∧
    Logger_call Method_Info 0%nat context.Background "started" [] s1 = (Done tt, s1) ∧
    run_events (Logger_call Method_Error 0%nat context.Background "failed" []) s1 =
      [ZapWrite {| zap.entry_level := zapcore.ErrorLevel;
                   zap.entry_message := "failed";
                   zap.entry_fields := [];
                   zap.entry_outputs := [zap.Stdout];
                   zap.entry_encoder := zapcore.JSONEncoder |}].
Proof.
  eexists. split; [lazy; reflexivity|].
  edestruct (NewLogger_threshold Ex.all_well
               {| LogConfig.Level := WarnLevel; LogConfig.Format := JSONFormat;
                  LogConfig.OutputPaths := []; LogConfig.Development := false |}
               Ex.s0 0%nat) as (zl & Hl & H); [lazy; reflexivity|].
  injection Hl as <-.
  split; [exact (proj1 (H Method_Info context.Background "started" []))|].
  apply run_events_app.
  by rewrite (proj1 (H Method_Error context.Background "failed" [])).
Defined.

(** ** Deriving loggers *)

Lemma zap_With_With (zl : zap.Logger) (f1 f2 : list zap.Field) :
  zap.With (zap.With zl f1) f2 = zap.With zl (f1 ++ f2).
Proof. unfold zap.With. cbn. by rewrite app_assoc. Qed.

(** X6: deriving a child of a child adds up the bound fields in the order
    of the derivations: the grandchild is a third facade struct, it holds
    the logger a single derivation with both field lists would hold, its
    entries carry the fields of the parent, of the first and of the second
    derivation, of the call, and the correlation fields, and the parent and
    the first child are left as they were. *)
Theorem With_composes (l : ptr) (lg : Logger) (f1 f2 : list zap.Field) (s : State) :
  loggers s !! l = Some lg →
  ∃ (c1 c2 : ptr) (s2 : State),
    (c1 ← With l f1; c2 ← With c1 f2; mret (c1, c2)) s = (Done (c1, c2), s2) ∧
    c1 ≠ l ∧ c2 ≠ l ∧ c2 ≠ c1 ∧
    loggers s2 !! l = Some lg ∧
    loggers s2 !! c1 = Some {| logger := zap.With (logger lg) f1 |} ∧
    loggers s2 !! c2 = Some {| logger := zap.With (logger lg) (f1 ++ f2) |} ∧
    events s2 = events s ∧
    ∀ (mth : Method) (ctx : Context) (msg : string) (fields : list zap.Field),
      zapcore.Enabled (zap.level (logger lg)) (method_level mth) = true →
      ∃ e : zap.Entry,
        run_events (Logger_call mth c2 ctx msg fields) s2 = [ZapWrite e] ∧
        zap.entry_fields e =
          zap.context (logger lg) ++ f1 ++ f2 ++ fields ++ extractTraceFields ctx.
Proof.
  intros Hl.
  assert (l < length (loggers s))%nat as Hlt by (by eapply lookup_lt_Some).
  pose proof (With_run l lg f1 s Hl) as H1.
  set (s1 := {| loggers := loggers s ++ [{| logger := zap.With (logger lg) f1 |}];
                instruments := instruments s; now := now s; events := events s |}) in *.
  assert (loggers s1 !! length (loggers s) =
          Some {| logger := zap.With (logger lg) f1 |}) as Hc1.
  { cbn [s1 loggers]. by rewrite lookup_app_r, Nat.sub_diag. }
  pose proof (With_run (length (loggers s)) _ f2 s1 Hc1) as H2.
  cbn [logger] in H2. rewrite zap_With_With in H2.
  eexists (length (loggers s)), (length (loggers s1)), _.
  split.
  { rewrite (bind_Done _ _ _ _ _ H1), (bind_Done _ _ _ _ _ H2). reflexivity. }
  cbn [s1 loggers instruments now events]. rewrite length_app. cbn [length].
  split; [lia|]. split; [lia|]. split; [lia|].
  split; [rewrite !lookup_app_l; [done | lia | rewrite length_app; cbn; lia]|].
  split; [rewrite lookup_app_l by (rewrite length_app; cbn; lia);
          by rewrite lookup_app_r, Nat.sub_diag|].
  assert (((loggers s ++ [{| logger := zap.With (logger lg) f1 |}]) ++
           [{| logger := zap.With (logger lg) (f1 ++ f2) |}]) !! (length (loggers s) + 1)%nat
          = Some {| logger := zap.With (logger lg) (f1 ++ f2) |}) as Hc2.
  { rewrite lookup_app_r by (rewrite length_app; cbn; lia).
    rewrite length_app. cbn [length]. by rewrite Nat.sub_diag. }
  split; [exact Hc2|]. split; [done|].
  intros mth ctx msg fields Hen.
  destruct (child_entry mth l (length (loggers s) + 1)%nat lg (f1 ++ f2) ctx msg fields
              {| loggers := (loggers s ++ [{| logger := zap.With (logger lg) f1 |}]) ++
                            [{| logger := zap.With (logger lg) (f1 ++ f2) |}];
                 instruments := instruments s; now := now s; events := events s |}
              Hc2 Hen) as (e & He & Hf & _).
  exists e. split; [exact He|]. by rewrite Hf, <- app_assoc.
Qed.

(** X6, for a request identifier and then a user. *)
Lemma With_composes_witness :
  ∃ (c1 c2 : ptr) (s2 : State),
    (c1 ← With 0%nat [zap.String "request_id" "42"];
     c2 ← With c1 [zap.Any "user" (zap.VInt 7)]; mret (c1, c2)) Ex.s_logger =
      (Done (c1, c2), s2) ∧
    loggers s2 !! c2 =
      Some {| logger := zap.With Ex.zl [zap.String "request_id" "42";
                                        zap.Any "user" (zap.VInt 7)] |} ∧
    loggers s2 !! 0%nat = Some {| logger := Ex.zl |}.
Proof.
  destruct (With_composes 0%nat {| logger := Ex.zl |} [zap.String "request_id" "42"]
              [zap.Any "user" (zap.VInt 7)] Ex.s_logger eq_refl)
    as (c1 & c2 & s2 & Hr & _ & _ & _ & Hl & _ & Hc2 & _).
  by exists c1, c2, s2.
Defined.

(** ** Building the tracer and the metrics *)

Lemma setupTracing_cases (env : Env) (ctx : Context) (config : TracingConfig.t)
    (s : State) :
  setupTracing env ctx config s =
    if TracingConfig.Enabled config
    then
      match resource_New env (tracing_attrs config) with
      | Some err =>
          (Done (Err (Errorf "failed to create resource" err)),
           add_events s [ResourceNew (tracing_attrs config)])
      | None =>
          match otlptrace_New env (TracingConfig.Endpoint config) with
          | Some err =>
              (Done (Err (Errorf "failed to create OTLP exporter" err)),
               add_events s [ResourceNew (tracing_attrs config);
                             TraceExporterNew (TracingConfig.Endpoint config)])
          | None =>
              (Done (Ok (NewTracer (TracingConfig.ServiceName config), tp_Shutdown env)),
               add_events s (tracing_events config))
          end
      end
    else
      (Done (Ok (NewTracer (TracingConfig.ServiceName config), λ _, mret None)),
       add_events s (tracing_events config)).
Proof.
  unfold setupTracing, tracing_events, tracing_attrs, add_events.
  destruct (TracingConfig.Enabled config); run; [|reflexivity].
  destruct (resource_New env _); run; [reflexivity|].
  destruct (otlptrace_New env _); run; [by rewrite <- app_assoc|].
  by rewrite <- !app_assoc.
Qed.

Lemma NewMetrics_cases (env : Env) (ctx : Context) (config : MetricsConfig.t)
    (s : State) :
  NewMetrics env ctx config s =
    if MetricsConfig.Enabled config
    then
      match resource_New env (metrics_attrs config) with
      | Some err =>
          (Done (Err (Errorf "failed to create resource" err)),
           add_events s [ResourceNew (metrics_attrs config)])
      | None =>
          match otlpmetricgrpc_New env (MetricsConfig.Endpoint config) with
          | Some err =>
              (Done (Err (Errorf "failed to create OTLP exporter" err)),
               add_events s [ResourceNew (metrics_attrs config);
                             MetricExporterNew (MetricsConfig.Endpoint config)])
          | None =>
              (Done (Ok {| meter := Some {| meter_name := MetricsConfig.ServiceName config |};
                           counters := ∅; gauges := ∅; histograms := ∅;
                           shutdown := meterProvider_Shutdown env ctx |}),
               add_events s (metrics_events config))
          end
      end
    else
      (Done (Ok {| meter := None; counters := ∅; gauges := ∅; histograms := ∅;
                   shutdown := mret None |}),
       s).
Proof.
  unfold NewMetrics, metrics_events, metrics_attrs, add_events.
  destruct (MetricsConfig.Enabled config) eqn:E; run; [|reflexivity].
  destruct (resource_New env _); run; [reflexivity|].
  destruct (otlpmetricgrpc_New env _); run; [by rewrite <- app_assoc|].
  by rewrite <- !app_assoc.
Qed.

(** X7: with tracing disabled [setupTracing] always answers a tracer, bound
    to the service name, whatever the backends would answer and whatever
    the sampling rate: it builds no resource, no exporter and no provider,
    and the shutdown function it answers does nothing and returns nil. *)
Theorem setupTracing_disabled (env : Env) (ctx : Context) (config : TracingConfig.t)
    (s : State) :
  TracingConfig.Enabled config = false →
  ∃ (t : Tracer) (tracerShutdown : Context → M (option error)),
    setupTracing env ctx config s =
      (Done (Ok (t, tracerShutdown)),
       add_events s [OtelTracer (TracingConfig.ServiceName config)]) ∧
    GetName t = TracingConfig.ServiceName config ∧
    ∀ (ctx' : Context) (s' : State), tracerShutdown ctx' s' = (Done None, s').
Proof.
  intros He. rewrite setupTracing_cases. unfold tracing_events. rewrite He.
  by eexists _, _.
Qed.

(** X7, in a world where no exporter can be built. *)
Lemma setupTracing_disabled_witness :
  ∃ (t : Tracer) (tracerShutdown : Context → M (option error)),
    setupTracing Ex.no_trace_exporter context.Background
      {| TracingConfig.ServiceName := "svc"; TracingConfig.ServiceVersion := "1.0.0";
         TracingConfig.Environment := "dev"; TracingConfig.Endpoint := "localhost:4317";
         TracingConfig.Enabled := false; TracingConfig.SamplingRate := 0.5%float |}
      Ex.s0 = (Done (Ok (t, tracerShutdown)), add_events Ex.s0 [OtelTracer "svc"]) ∧
    GetName t = "svc" ∧
    ∀ (ctx' : Context) (s' : State), tracerShutdown ctx' s' = (Done None, s').
Proof.
  exact (setupTracing_disabled Ex.no_trace_exporter context.Background
           {| TracingConfig.ServiceName := "svc"; TracingConfig.ServiceVersion := "1.0.0";
              TracingConfig.Environment := "dev"; TracingConfig.Endpoint := "localhost:4317";
              TracingConfig.Enabled := false; TracingConfig.SamplingRate := 0.5%float |}
           Ex.s0 eq_refl).
Defined.

(** X8: the shutdown of a facade does not use the context it is given.  A
    facade built by [NewMetrics] with metrics enabled shuts the meter
    provider down with the context [NewMetrics] was given, whatever the
    context of the call, and answers what the provider answers; the facade
    of a disabled configuration returns nil and asks nothing. *)
Theorem Metrics_Shutdown_context (env : Env) (ctx ctx' : Context)
    (config : MetricsConfig.t) (s : State) (m : Metrics) (s1 s2 : State) :
  NewMetrics env ctx config s = (Done (Ok m), s1) →
  Metrics_Shutdown m ctx' s2 =
    if MetricsConfig.Enabled config
    then (Done (MeterProvider_Shutdown env ctx),
          add_events s2 [MeterProviderShutdown ctx])
    else (Done None, s2).
Proof.
  intros Hn. apply NewMetrics_shutdown in Hn. unfold Metrics_Shutdown. rewrite Hn.
  by destruct (MetricsConfig.Enabled config).
Qed.

(** X8, for a facade built in the background context and shut down in the
    context of the cleanup. *)
Lemma Metrics_Shutdown_context_witness :
  ∃ (m : Metrics) (s1 : State),
    NewMetrics Ex.all_well context.Background Ex.metricsConfig Ex.s0 = (Done (Ok m), s1) ∧
    run_events (Metrics_Shutdown m timeoutCtx) s1 =
      [MeterProviderShutdown context.Background].
Proof.
  eexists _, _. split; [lazy -[meterProvider_Shutdown]; reflexivity|].
  apply run_events_app.
  by rewrite (Metrics_Shutdown_context Ex.all_well context.Background timeoutCtx
                Ex.metricsConfig Ex.s0 _ _ _ eq_refl).
Defined.

(** ** Creating and using instruments *)

(** X9: when the meter refuses an instrument, the Create call answers the
    error of the meter wrapped under the message of its kind and leaves the
    facade, its caches and the meter as they were, so that the next call
    for the name asks the meter again. *)
Theorem Create_refused (env : Env) (k : InstrumentKind) (m : Metrics) (mt : Meter)
    (name description unit_ : string) (callback : unit → float) (s : State)
    (err : error) :
  meter m = Some mt →
  cache k m !! name = None →
  meter_new env (instruments s) k name = Some err →
  Create env k m name description unit_ callback s =
    (Done (Err (Errorf (failed_to_create k) err), m), s).
Proof.
  intros Hm Hc Hn.
  destruct k; cbn [cache] in Hc;
    unfold Create, CreateCounter, CreateHistogram, CreateGauge, meter_instrument;
    rewrite Hc, Hm; run; by rewrite Hn.
Qed.

(** X9, for a histogram the meter refuses. *)
Lemma Create_refused_witness :
  Create Ex.no_instruments Float64Histogram Ex.metrics "latency" "Duration of latency"
    "s" Ex.zero Ex.s0 =
    (Done (Err (Errorf "failed to create histogram"
                  (errorString "invalid instrument name")), Ex.metrics), Ex.s0).
Proof.
  exact (Create_refused Ex.no_instruments Float64Histogram Ex.metrics
           {| meter_name := "svc" |} "latency" "Duration of latency" "s" Ex.zero Ex.s0
           (errorString "invalid instrument name") eq_refl eq_refl eq_refl).
Defined.

(** X10: when the meter makes a gauge and then refuses its callback,
    [CreateGauge] answers the wrapped error and caches nothing, but the
    gauge stays in the meter; a later [CreateGauge] for the name that goes
    well makes a second gauge of that name and caches that one. *)
Theorem CreateGauge_callback_refused (env : Env) (m : Metrics) (mt : Meter)
    (name description description' : string) (callback callback' : unit → float)
    (s : State) (err : error) :
  meter m = Some mt →
  gauges m !! name = None →
  meter_new env (instruments s) Float64ObservableGauge name = None →
  meter_RegisterCallback env
    (instruments s ++ [next_instrument s Float64ObservableGauge name description ""])
    (next_instrument s Float64ObservableGauge name description "") = Some err →
  ∃ (g : Instrument) (s1 : State),
    g = next_instrument s Float64ObservableGauge name description "" ∧
    CreateGauge env m name description callback s =
      (Done (Err (Errorf "failed to register callback" err), m), s1) ∧
    s1 = registered s g ∧
    (meter_new env (instruments s1) Float64ObservableGauge name = None →
     meter_RegisterCallback env
       (instruments s1 ++ [next_instrument s1 Float64ObservableGauge name description' ""])
       (next_instrument s1 Float64ObservableGauge name description' "") = None →
     ∃ (g' : Instrument) (m2 : Metrics) (s2 : State),
       CreateGauge env m name description' callback' s1 = (Done (Ok g', m2), s2) ∧
       g' ≠ g ∧
       gauges m2 !! name = Some g' ∧
       made Float64ObservableGauge name (instruments s2) =
         made Float64ObservableGauge name (instruments s) ++ [g; g']).
Proof.
  intros Hm Hc Hn Hr.
  eexists _, _. split; [reflexivity|].
  split.
  { unfold CreateGauge. rewrite Hc, Hm. run.
    rewrite (meter_instrument_ok env mt Float64ObservableGauge name description "" s Hn).
    unfold Meter_RegisterCallback. run. cbn [registered instruments]. rewrite Hr.
    reflexivity. }
  split; [reflexivity|].
  intros Hn' Hr'.
  destruct (Create_miss env Float64ObservableGauge m mt name description' "" callback'
              (registered s (next_instrument s Float64ObservableGauge name description ""))
              Hm Hc Hn' (λ _, Hr')) as (s2 & Hrun & Hi).
  eexists _, _, s2. split; [exact Hrun|].
  split.
  { unfold next_instrument. cbn [registered instruments]. rewrite length_app.
    cbn [length]. intros [= H]. lia. }
  split; [cbn; by rewrite lookup_insert_eq|].
  rewrite Hi. cbn [registered instruments]. rewrite !made_app. rewrite <- app_assoc.
  f_equal. unfold made. by rewrite !filter_cons, !decide_True, filter_nil.
Qed.

(** X10, where the meter refuses the first callback only. *)
Lemma CreateGauge_callback_refused_witness :
  ∃ (g g' : Instrument) (m2 : Metrics) (s1 s2 : State),
    CreateGauge Ex.first_callback_fails Ex.metrics "queue_depth" "Depth" Ex.zero Ex.s0 =
      (Done (Err (Errorf "failed to register callback" (errorString "callback rejected")),
             Ex.metrics), s1) ∧
    CreateGauge Ex.first_callback_fails Ex.metrics "queue_depth" "Depth" Ex.zero s1 =
      (Done (Ok g', m2), s2) ∧
    made Float64ObservableGauge "queue_depth" (instruments s2) = [g; g'] ∧ g' ≠ g.
Proof.
  destruct (CreateGauge_callback_refused Ex.first_callback_fails Ex.metrics
              {| meter_name := "svc" |} "queue_depth" "Depth" "Depth" Ex.zero Ex.zero
              Ex.s0 (errorString "callback rejected") eq_refl eq_refl eq_refl eq_refl)
    as (g & s1 & Hg & Hr & Hs & H).
  destruct H as (g' & m2 & s2 & Hr' & Hne & _ & Hm); [by subst | by subst |].
  by exists g, g', m2, s1, s2.
Defined.

(** X11: on a facade with a meter, the first [IncrementCounter] for a name
    makes the counter with the description "Counter for " and the name,
    stores it and adds the value to it with the context and the attributes
    of the call, returning nil; every later [IncrementCounter] for the name
    adds to that same counter and asks the meter for nothing. *)
Theorem IncrementCounter_first_use (env : Env) (m : Metrics) (mt : Meter)
    (ctx : Context) (name : string) (value : Z) (attrs : list KeyValue) (s : State) :
  meter m = Some mt →
  counters m !! name = None →
  meter_new env (instruments s) Int64Counter name = None →
  ∃ (i : Instrument) (m' : Metrics),
    i = next_instrument s Int64Counter name ("Counter for " +:+ name) "" ∧
    m' = set_counters m (<[name := i]> (counters m)) ∧
    IncrementCounter env m ctx name value attrs s =
      (Done (None, m'), add_events (registered s i) [CounterAdd i ctx value attrs]) ∧
    ∀ (ctx2 : Context) (value2 : Z) (attrs2 : list KeyValue) (s2 : State),
      IncrementCounter env m' ctx2 name value2 attrs2 s2 =
        (Done (None, m'), add_events s2 [CounterAdd i ctx2 value2 attrs2]).
Proof.
  intros Hm Hc Hn. eexists _, _. split; [reflexivity|]. split; [reflexivity|].
  split.
  - unfold IncrementCounter, CreateCounter. rewrite Hc, Hm. run.
    rewrite (meter_instrument_ok env mt Int64Counter name _ "" s Hn). reflexivity.
  - intros ctx2 value2 attrs2 s2. unfold IncrementCounter.
    cbn [set_counters counters]. by rewrite lookup_insert_eq.
Qed.

(** X11, for the counter named hits. *)
Lemma IncrementCounter_first_use_witness :
  ∃ m' : Metrics,
    IncrementCounter Ex.all_well Ex.metrics Ex.ctx_in_span "hits" 3 [("route", "/")]
      Ex.s0 =
      (Done (None, m'),
       add_events (registered Ex.s0 Ex.hits)
         [CounterAdd Ex.hits Ex.ctx_in_span 3 [("route", "/")]]) ∧
    counters m' !! "hits" = Some Ex.hits.
Proof.
  destruct (IncrementCounter_first_use Ex.all_well Ex.metrics {| meter_name := "svc" |}
              Ex.ctx_in_span "hits" 3 [("route", "/")] Ex.s0 eq_refl eq_refl eq_refl)
    as (i & m' & -> & -> & Hr & _).
  eexists. split; [exact Hr|]. reflexivity.
Defined.

(** X12: when the meter refuses the counter, [IncrementCounter] adds
    nothing, prints the failure, and returns the error of the meter wrapped
    once, leaving the facade as it was.  The printed line names the failure
    twice, once from [IncrementCounter] and once from the wrapped error. *)
Theorem IncrementCounter_refused (env : Env) (m : Metrics) (mt : Meter)
    (ctx : Context) (name : string) (value : Z) (attrs : list KeyValue) (s : State)
    (err : error) :
  meter m = Some mt →
  counters m !! name = None →
  meter_new env (instruments s) Int64Counter name = Some err →
  IncrementCounter env m ctx name value attrs s =
    (Done (Some (Errorf "failed to create counter" err), m),
     add_events s
       [Printf ("Failed to create counter: failed to create counter: " +:+
                Error err +:+ newline)]).
Proof.
  intros Hm Hc Hn. unfold IncrementCounter, CreateCounter, meter_instrument.
  rewrite Hc, Hm. run. rewrite Hn. reflexivity.
Qed.

(** X12, where the meter makes no instrument. *)
Lemma IncrementCounter_refused_witness :
  IncrementCounter Ex.no_instruments Ex.metrics context.Background "hits" 1 [] Ex.s0 =
    (Done (Some (Errorf "failed to create counter"
                   (errorString "invalid instrument name")), Ex.metrics),
     add_events Ex.s0
       [Printf ("Failed to create counter: failed to create counter: " +:+
                "invalid instrument name" +:+ newline)]).
Proof.
  exact (IncrementCounter_refused Ex.no_instruments Ex.metrics {| meter_name := "svc" |}
           context.Background "hits" 1 [] Ex.s0 (errorString "invalid instrument name")
           eq_refl eq_refl eq_refl).
Defined.

(** X13: [MeasureDuration] only reads the clock.  The stop function it
    answers, run when the histogram of the name is not cached and the meter
    makes it, creates the histogram with the description and the unit
    [RecordHistogram] uses, stores it, and records the seconds between the
    two readings of the clock; [RecordHistogram] for the name then records
    to that same histogram; and a stop function run a second time records a
    second value. *)
Theorem MeasureDuration_records (env : Env) (m : Metrics) (mt : Meter)
    (ctx : Context) (name : string) (attrs : list KeyValue) (s s1 : State) :
  meter m = Some mt →
  histograms m !! name = None →
  meter_new env (instruments s1) Float64Histogram name = None →
  ∃ (stop : Metrics → M Metrics) (h : Instrument) (m' : Metrics),
    MeasureDuration env m ctx name attrs s = (Done stop, s) ∧
    h = next_instrument s1 Float64Histogram name ("Duration of " +:+ name) "s" ∧
    m' = set_histograms m (<[name := h]> (histograms m)) ∧
    stop m s1 =
      (Done m',
       add_events (registered s1 h)
         [HistogramRecord h ctx (Duration_Seconds (now s1 - now s)) attrs]) ∧
    (∀ (ctx2 : Context) (value : float) (attrs2 : list KeyValue) (s2 : State),
       RecordHistogram env m' ctx2 name value attrs2 s2 =
         (Done (None, m'), add_events s2 [HistogramRecord h ctx2 value attrs2])) ∧
    (∀ s2 : State,
       stop m' s2 =
         (Done m',
          add_events s2 [HistogramRecord h ctx (Duration_Seconds (now s2 - now s)) attrs])).
Proof.
  intros Hm Hc Hn. eexists _, _, _.
  split; [reflexivity|]. split; [reflexivity|]. split; [reflexivity|].
  split; [|split].
  - unfold MeasureDuration_stop, CreateHistogram. rewrite Hc, Hm. run.
    rewrite (meter_instrument_ok env mt Float64Histogram name _ "s" s1 Hn). reflexivity.
  - intros ctx2 value attrs2 s2. unfold RecordHistogram.
    cbn [set_histograms histograms]. by rewrite lookup_insert_eq.
  - intros s2. unfold MeasureDuration_stop. run.
    cbn [set_histograms histograms]. by rewrite lookup_insert_eq.
Qed.

(** X13, for an operation that starts at 0 and stops after a second and a
    half. *)
Lemma MeasureDuration_records_witness :
  ∃ (stop : Metrics → M Metrics) (h : Instrument),
    MeasureDuration Ex.all_well Ex.metrics context.Background "op" [] Ex.s0 =
      (Done stop, Ex.s0) ∧
    inst_description h = "Duration of op" ∧ inst_unit h = "s" ∧
    run_events (stop Ex.metrics)
        {| loggers := []; instruments := []; now := 1500000000; events := [] |} =
      [MeterInstrument h;
       HistogramRecord h context.Background (Duration_Seconds 1500000000) []] ∧
    Duration_Seconds 1500000000 = 1.5%float.
Proof.
  destruct (MeasureDuration_records Ex.all_well Ex.metrics {| meter_name := "svc" |}
              context.Background "op" [] Ex.s0
              {| loggers := []; instruments := []; now := 1500000000; events := [] |}
              eq_refl eq_refl eq_refl)
    as (stop & h & m' & Hr & -> & -> & Hs & _).
  exists stop,
    (next_instrument {| loggers := []; instruments := []; now := 1500000000; events := [] |}
       Float64Histogram "op" ("Duration of " +:+ "op") "s").
  split; [exact Hr|]. split; [reflexivity|]. split; [reflexivity|].
  split; [|vm_compute; reflexivity].
  apply run_events_app. by rewrite Hs.
Defined.

(** X14: when the meter refuses the histogram, the stop function of
    [MeasureDuration] records nothing, prints the failure and returns as if
    nothing had happened, the facade left as it was, where
    [RecordHistogram] prints the same line and returns the error. *)
Theorem MeasureDuration_stop_refused (env : Env) (m : Metrics) (mt : Meter)
    (ctx : Context) (name : string) (value : float) (attrs : list KeyValue)
    (start : Z) (s : State) (err : error) :
  meter m = Some mt →
  histograms m !! name = None →
  meter_new env (instruments s) Float64Histogram name = Some err →
  MeasureDuration_stop env start ctx name attrs m s =
    (Done m,
     add_events s
       [Printf ("Failed to create histogram: failed to create histogram: " +:+
                Error err +:+ newline)]) ∧
  RecordHistogram env m ctx name value attrs s =
    (Done (Some (Errorf "failed to create histogram" err), m),
     add_events s
       [Printf ("Failed to create histogram: failed to create histogram: " +:+
                Error err +:+ newline)]).
Proof.
  intros Hm Hc Hn.
  unfold MeasureDuration_stop, RecordHistogram, CreateHistogram, meter_instrument.
  rewrite Hc, Hm. run. rewrite Hn. split; reflexivity.
Qed.

(** X14, where the meter makes no instrument. *)
Lemma MeasureDuration_stop_refused_witness :
  (MeasureDuration_stop Ex.no_instruments 0 context.Background "op" [] Ex.metrics Ex.s0).1
    = Done Ex.metrics ∧
  (RecordHistogram Ex.no_instruments Ex.metrics context.Background "op" 0.25%float []
     Ex.s0).1 =
    Done (Some (Errorf "failed to create histogram"
                  (errorString "invalid instrument name")), Ex.metrics).
Proof.
  destruct (MeasureDuration_stop_refused Ex.no_instruments Ex.metrics
              {| meter_name := "svc" |} context.Background "op" 0.25%float [] 0 Ex.s0
              (errorString "invalid instrument name") eq_refl eq_refl eq_refl)
    as [H1 H2].
  by rewrite H1, H2.
Defined.

(** ** Initialization, as a whole *)

Lemma NewLogger_dichotomy (env : Env) (config : LogConfig.t) (s : State) :
  (∃ (l : ptr) (s' : State),
     NewLogger env config s = (Done (Ok l), s') ∧
     Forall (λ p, is_file p = true → os_OpenFile env p = None)
       (LogConfig.OutputPaths config) ∧
     events s' =
       events s ++ (OpenFile <$> List.filter is_file (LogConfig.OutputPaths config))) ∨
  (∃ (pre : list string) (path : string) (post : list string) (err : error),
     LogConfig.OutputPaths config = pre ++ path :: post ∧
     Forall (λ p, is_file p = true → os_OpenFile env p = None) pre ∧
     is_file path = true ∧ os_OpenFile env path = Some err ∧
     NewLogger env config s =
       (Done (Err err), add_events s (OpenFile <$> (List.filter is_file pre ++ [path])))).
Proof.
  destruct (NewLogger env config s) as [o s'] eqn:E. revert E. unfold NewLogger.
  destruct (open_outputs_cases env (LogConfig.OutputPaths config) [] s)
    as [[Hall Hr]|(pre & p & post & err & Hp & Hall & Hf & Ho & Hr)];
    rewrite (bind_Done _ _ _ _ _ Hr); run; intros [= <- <-].
  - left. eexists _, _. split; [reflexivity|]. split; [done|]. done.
  - right. by exists pre, p, post, err.
Qed.

Lemma Initialize_run (env : Env) (ctx : Context) (logConfig : LogConfig.t)
    (tracingConfig : TracingConfig.t) (metricsConfig : MetricsConfig.t) (s : State) :
  InitializeObservabilityProvider env ctx logConfig tracingConfig metricsConfig s =
    match NewLogger env logConfig (called Call_NewLogger s) with
    | (Done (Err err), sL) => (Done (Err (Errorf "failed to initialize logger" err)), sL)
    | (Done (Ok logger), sL) =>
        match setupTracing env ctx tracingConfig (called Call_setupTracing sL) with
        | (Done (Err err), sT) =>
            (Done (Err (Errorf "failed to initialize tracer" err)), sT)
        | (Done (Ok (tracer, tracerShutdown)), sT) =>
            match NewMetrics env ctx metricsConfig (called Call_NewMetrics sT) with
            | (Done (Err err), sM) =>
                match tracerShutdown ctx (called (Call_tracerShutdown ctx) sM) with
                | (Done _, s4) =>
                    (Done (Err (Errorf "failed to initialize metrics" err)), s4)
                | (Panic msg, s4) => (Panic msg, s4)
                | (Exit code, s4) => (Exit code, s4)
                end
            | (Done (Ok metrics), sM) =>
                (Done (Ok (NewObservabilityProvider logger tracer metrics
                             (TracingConfig.ServiceName tracingConfig)
                             (TracingConfig.ServiceVersion tracingConfig),
                           cleanup env metrics tracerShutdown logger)), sM)
            | (Panic msg, sM) => (Panic msg, sM)
            | (Exit code, sM) => (Exit code, sM)
            end
        | (Panic msg, sT) => (Panic msg, sT)
        | (Exit code, sT) => (Exit code, sT)
        end
    | (Panic msg, sL) => (Panic msg, sL)
    | (Exit code, sL) => (Exit code, sL)
    end.
Proof.
  unfold InitializeObservabilityProvider, call, called. run.
  destruct (NewLogger env logConfig _) as [[[l|e]| |] sL]; try done; run.
  destruct (setupTracing env ctx tracingConfig _) as [[[[t sh]|e]| |] sT]; try done; run.
  by destruct (NewMetrics env ctx metricsConfig _) as [[[m|e]| |] sM].
Qed.

(** X15: when every backend the configurations ask for can be built,
    initialization answers the provider and the cleanup.  The provider
    holds the new logger, a tracer bound to the service name of the tracing
    configuration, a metrics facade with empty caches that has a meter
    exactly when metrics are enabled, and the service name and version of
    the tracing configuration, also where the metrics configuration names
    another service.  The three constructors have run in order and no
    backend was shut down. *)
Theorem Initialize_succeeds (env : Env) (ctx : Context) (logConfig : LogConfig.t)
    (tracingConfig : TracingConfig.t) (metricsConfig : MetricsConfig.t) (s : State) :
  backends_ready env logConfig tracingConfig metricsConfig →
  ∃ (p : ObservabilityProvider.t) (c : M unit) (s1 : State),
    InitializeObservabilityProvider env ctx logConfig tracingConfig metricsConfig s =
      (Done (Ok (p, c)), s1) ∧
    p = NewObservabilityProvider (length (loggers s))
          (NewTracer (TracingConfig.ServiceName tracingConfig))
          (ObservabilityProvider.Metrics p)
          (TracingConfig.ServiceName tracingConfig)
          (TracingConfig.ServiceVersion tracingConfig) ∧
    meter (ObservabilityProvider.Metrics p) =
      (if MetricsConfig.Enabled metricsConfig
       then Some {| meter_name := MetricsConfig.ServiceName metricsConfig |} else None) ∧
    counters (ObservabilityProvider.Metrics p) = ∅ ∧
    gauges (ObservabilityProvider.Metrics p) = ∅ ∧
    histograms (ObservabilityProvider.Metrics p) = ∅ ∧
    is_Some (loggers s1 !! ObservabilityProvider.Logger p) ∧
    events s1 =
      events s ++ logger_events logConfig ++
      [Called Call_setupTracing] ++ tracing_events tracingConfig ++
      [Called Call_NewMetrics] ++ metrics_events metricsConfig.
Proof.
  intros (Hfiles & Ht & Hm).
  rewrite Initialize_run.
  destruct (NewLogger_dichotomy env logConfig (called Call_NewLogger s))
    as [(l & sL & HL & _ & HeL)|(pre & path & post & err & Hp & _ & Hf & Ho & _)].
  2: { rewrite Hp in Hfiles.
       by destruct (open_outputs_exclusive env pre post path err Hf Ho). }
  rewrite HL.
  destruct (NewLogger_Ok_inv _ _ _ _ _ HL) as (zl & _ & Hl & Hlg & _).
  assert (loggers sL !! l = Some {| logger := zl |}) as Hlk.
  { rewrite Hlg, Hl. by rewrite lookup_app_r, Nat.sub_diag. }
  cbn [called emit snd loggers] in Hl. subst l.
  rewrite setupTracing_cases.
  destruct (TracingConfig.Enabled tracingConfig) eqn:Et;
    [destruct (Ht eq_refl) as [-> ->]|];
    (rewrite NewMetrics_cases;
     destruct (MetricsConfig.Enabled metricsConfig) eqn:Em;
     [destruct (Hm eq_refl) as [-> ->]|]);
    (eexists _, _, _; split; [reflexivity|];
     cbn [NewObservabilityProvider ObservabilityProvider.Metrics
          ObservabilityProvider.Logger meter counters gauges histograms];
     split; [reflexivity|]; split; [reflexivity|]; split; [reflexivity|];
     split; [reflexivity|]; split; [reflexivity|];
     split; [cbn [add_events called emit snd loggers]; by rewrite Hlk|];
     unfold metrics_events, logger_events; rewrite ?Em;
     cbn [add_events called emit snd events]; rewrite HeL;
     cbn [add_events called emit snd events];
     rewrite <- ?app_assoc; cbn [app]; by rewrite ?app_nil_r).
Qed.

(** X15, with tracing enabled, metrics disabled and a metrics configuration
    that names another service. *)
Lemma Initialize_succeeds_witness :
  ∃ (p : ObservabilityProvider.t) (c : M unit) (s1 : State),
    InitializeObservabilityProvider Ex.no_metric_exporter context.Background
      Ex.logConfig Ex.tracingConfig
      {| MetricsConfig.ServiceName := "other"; MetricsConfig.ServiceVersion := "2";
         MetricsConfig.Environment := "dev"; MetricsConfig.Enabled := false;
         MetricsConfig.Endpoint := "localhost:4317" |} Ex.s0 = (Done (Ok (p, c)), s1) ∧
    ObservabilityProvider.serviceName p = "svc" ∧
    ObservabilityProvider.Logger p = 0%nat ∧
    meter (ObservabilityProvider.Metrics p) = None.
Proof.
  destruct (Initialize_succeeds Ex.no_metric_exporter context.Background
              Ex.logConfig Ex.tracingConfig
              {| MetricsConfig.ServiceName := "other"; MetricsConfig.ServiceVersion := "2";
                 MetricsConfig.Environment := "dev"; MetricsConfig.Enabled := false;
                 MetricsConfig.Endpoint := "localhost:4317" |} Ex.s0)
    as (p & c & s1 & Hr & Hp & Hm & _).
  { split; [repeat constructor|]. split; [done | discriminate]. }
  exists p, c, s1. split; [exact Hr|]. rewrite Hp. by split.
Defined.


(** What a successful initialization has built, and what its cleanup does
    in any state that holds the logger. *)
Lemma Initialize_Ok_inv (env : Env) (ctx : Context) (logConfig : LogConfig.t)
    (tracingConfig : TracingConfig.t) (metricsConfig : MetricsConfig.t)
    (s : State) (p : ObservabilityProvider.t) (c : M unit) (s1 : State) :
  InitializeObservabilityProvider env ctx logConfig tracingConfig metricsConfig s =
    (Done (Ok (p, c)), s1) →
  ∃ zl : zap.Logger,
    loggers s1 !! ObservabilityProvider.Logger p = Some {| logger := zl |} ∧
    loggers s1 = loggers s ++ [{| logger := zl |}] ∧
    (∀ mth, zapcore.Enabled (zap.level zl) (method_level mth) =
            (effective_level (LogConfig.Level logConfig) <=? Method_LogLevel mth)) ∧
    zap.context zl = [] ∧
    zap.outputs zl =
      (match LogConfig.OutputPaths logConfig with
       | [] => [zap.Stdout]
       | _ => writer_of <$> LogConfig.OutputPaths logConfig
       end) ∧
    ∀ s2 : State,
      loggers s2 !! ObservabilityProvider.Logger p = Some {| logger := zl |} →
      c s2 = (Done tt,
              add_events s2 (cleanup_events env ctx tracingConfig metricsConfig zl)).
Proof.
  intros Hi. pose proof (Initialize_Ok _ _ _ _ _ _ _ _ _ Hi) as [-> Hs].
  revert Hi. rewrite Initialize_run.
  destruct (NewLogger env logConfig _) as [[[l|e]| |] sL] eqn:HL; try done.
  destruct (NewLogger_Ok_inv _ _ _ _ _ HL)
    as (zl & _ & Hl & Hlg & _ & _ & Ho & _ & Hctx & _ & Hen).
  cbn [called emit snd loggers] in Hl, Hlg.
  rewrite setupTracing_cases.
  intros Hi.
  assert (ObservabilityProvider.Logger p = l ∧ loggers s1 = loggers sL) as [Hp Hls].
  { revert Hi.
    destruct (TracingConfig.Enabled tracingConfig);
      repeat (match goal with
              | |- context [match ?x with _ => _ end] =>
                  lazymatch x with
                  | resource_New _ _ => destruct x
                  | otlptrace_New _ _ => destruct x
                  | otlpmetricgrpc_New _ _ => destruct x
                  | MetricsConfig.Enabled _ => destruct x
                  end
              | |- context [NewMetrics _ _ _ _] => rewrite NewMetrics_cases
              | |- context [if MetricsConfig.Enabled ?m then _ else _] =>
                  destruct (MetricsConfig.Enabled m)
              end); try done; by intros [= <- _ <-]. }
  exists zl. rewrite Hp, Hls, Hlg, Hl.
  split; [by rewrite lookup_app_r, Nat.sub_diag|]. split; [done|].
  split; [done|]. split; [done|]. split; [done|].
  intros s2 Hl2.
  rewrite (cleanup_run env _ _ _ {| logger := zl |}
             (if MetricsConfig.Enabled metricsConfig then [MeterProviderShutdown ctx] else [])
             (if TracingConfig.Enabled tracingConfig
              then [TracerProviderShutdown timeoutCtx] else [])
             (if MetricsConfig.Enabled metricsConfig
              then MeterProvider_Shutdown env ctx else None)
             (if TracingConfig.Enabled tracingConfig
              then TracerProvider_Shutdown env timeoutCtx else None) s2).
  - reflexivity.
  - exact Hl2.
  - intros s'. rewrite Hs.
    destruct (MetricsConfig.Enabled metricsConfig); [reflexivity|].
    by rewrite add_events_nil.
  - intros s'. destruct (TracingConfig.Enabled tracingConfig); [reflexivity|].
    by rewrite add_events_nil.
Qed.

Lemma Initialize_ready (env : Env) (ctx : Context) (logConfig : LogConfig.t)
    (tracingConfig : TracingConfig.t) (metricsConfig : MetricsConfig.t) (s : State) :
  backends_ready env logConfig tracingConfig metricsConfig →
  ∃ (p : ObservabilityProvider.t) (c : M unit) (s1 : State),
    InitializeObservabilityProvider env ctx logConfig tracingConfig metricsConfig s =
      (Done (Ok (p, c)), s1) ∧
    events s1 =
      events s ++ logger_events logConfig ++
      [Called Call_setupTracing] ++ tracing_events tracingConfig ++
      [Called Call_NewMetrics] ++ metrics_events metricsConfig.
Proof.
  intros (Hfiles & Ht & Hm).
  rewrite Initialize_run.
  destruct (NewLogger_dichotomy env logConfig (called Call_NewLogger s))
    as [(l & sL & HL & _ & HeL)|(pre & path & post & err & Hp & _ & Hf & Ho & _)].
  2: { rewrite Hp in Hfiles.
       by destruct (open_outputs_exclusive env pre post path err Hf Ho). }
  rewrite HL, setupTracing_cases.
  destruct (TracingConfig.Enabled tracingConfig) eqn:Et;
    [destruct (Ht eq_refl) as [-> ->]|];
    (rewrite NewMetrics_cases;
     destruct (MetricsConfig.Enabled metricsConfig) eqn:Em;
     [destruct (Hm eq_refl) as [-> ->]|]);
    (eexists _, _, _; split; [reflexivity|];
     unfold metrics_events, logger_events; rewrite ?Em;
     cbn [add_events called emit snd events]; rewrite HeL;
     cbn [add_events called emit snd events];
     rewrite <- ?app_assoc; cbn [app]; by rewrite ?app_nil_r).
Qed.

(** ** Initialization and cleanup together *)

Lemma filter_no_file (paths : list string) :
  Forall (λ p, is_file p = false) paths → List.filter is_file paths = [].
Proof.
  induction 1 as [|p paths Hp _ IH]; [done|]. cbn [List.filter]. by rewrite Hp.
Qed.

(** X17: with tracing and metrics disabled and only the standard streams as
    outputs, initialization succeeds whatever the backends would answer and
    asks them for nothing but the tracer of the service name; the cleanup
    it answers then calls the three shutdown steps in order and the only
    backend it asks is the logger, for its sync. *)
Theorem disabled_initialize_and_cleanup (env : Env) (ctx : Context)
    (logConfig : LogConfig.t) (tracingConfig : TracingConfig.t)
    (metricsConfig : MetricsConfig.t) (s : State) :
  Forall (λ p, is_file p = false) (LogConfig.OutputPaths logConfig) →
  TracingConfig.Enabled tracingConfig = false →
  MetricsConfig.Enabled metricsConfig = false →
  ∃ (p : ObservabilityProvider.t) (c : M unit) (s1 : State) (zl : zap.Logger),
    InitializeObservabilityProvider env ctx logConfig tracingConfig metricsConfig s =
      (Done (Ok (p, c)), s1) ∧
    events s1 =
      events s ++
      [Called Call_NewLogger; Called Call_setupTracing;
       OtelTracer (TracingConfig.ServiceName tracingConfig); Called Call_NewMetrics] ∧
    loggers s1 !! ObservabilityProvider.Logger p = Some {| logger := zl |} ∧
    c s1 =
      (Done tt,
       add_events s1
         ([Called (Call_Metrics_Shutdown timeoutCtx);
           Called (Call_tracerShutdown timeoutCtx);
           Called Call_Logger_Sync; ZapSync (zap.outputs zl)] ++
          print_sync_error (zap_Sync env (zap.outputs zl)) ++ [Cancel])).
Proof.
  intros Hf Ht Hm.
  destruct (Initialize_ready env ctx logConfig tracingConfig metricsConfig s)
    as (p & c & s1 & Hi & He).
  { split; [|split; intros; congruence].
    eapply Forall_impl; [exact Hf|]. intros p Hp. cbn in Hp. congruence. }
  destruct (Initialize_Ok_inv _ _ _ _ _ _ _ _ _ Hi) as (zl & Hl & _ & _ & _ & _ & Hc).
  exists p, c, s1, zl. split; [exact Hi|]. split.
  { rewrite He. unfold logger_events, tracing_events, metrics_events.
    by rewrite (filter_no_file _ Hf), Ht, Hm. }
  split; [exact Hl|]. rewrite (Hc s1 Hl). unfold cleanup_events. by rewrite Ht, Hm.
Qed.

(** X17, in a world where no exporter can be built. *)
Lemma disabled_initialize_and_cleanup_witness :
  ∃ (p : ObservabilityProvider.t) (c : M unit) (s1 : State),
    InitializeObservabilityProvider Ex.no_trace_exporter context.Background Ex.logConfig
      {| TracingConfig.ServiceName := "svc"; TracingConfig.ServiceVersion := "1.0.0";
         TracingConfig.Environment := "dev"; TracingConfig.Endpoint := "localhost:4317";
         TracingConfig.Enabled := false; TracingConfig.SamplingRate := 1.0%float |}
      Ex.metricsConfig_disabled Ex.s0 = (Done (Ok (p, c)), s1) ∧
    events s1 =
      [Called Call_NewLogger; Called Call_setupTracing; OtelTracer "svc";
       Called Call_NewMetrics] ∧
    (c s1).1 = Done tt.
Proof.
  destruct (disabled_initialize_and_cleanup Ex.no_trace_exporter context.Background
              Ex.logConfig
              {| TracingConfig.ServiceName := "svc"; TracingConfig.ServiceVersion := "1.0.0";
                 TracingConfig.Environment := "dev"; TracingConfig.Endpoint := "localhost:4317";
                 TracingConfig.Enabled := false; TracingConfig.SamplingRate := 1.0%float |}
              Ex.metricsConfig_disabled Ex.s0)
    as (p & c & s1 & zl & Hi & He & _ & Hc); [by repeat constructor | done | done |].
  exists p, c, s1. split; [exact Hi|]. split; [exact He|]. by rewrite Hc.
Defined.





(** X19: when the shutdown of the tracer fails, the cleanup always calls
    [Logger.Error], but the entry reaches the outputs only when the
    configured level lets the error level through: with the logger
    configured at the fatal level the cleanup writes no entry at all and
    the failure of the shutdown leaves no line in the log. *)
Theorem cleanup_error_log_threshold (env : Env) (ctx : Context)
    (logConfig : LogConfig.t) (tracingConfig : TracingConfig.t)
    (metricsConfig : MetricsConfig.t) (s : State) (p : ObservabilityProvider.t)
    (c : M unit) (s1 : State) (err : error) :
  InitializeObservabilityProvider env ctx logConfig tracingConfig metricsConfig s =
    (Done (Ok (p, c)), s1) →
  TracingConfig.Enabled tracingConfig = true →
  TracerProvider_Shutdown env timeoutCtx = Some err →
  Called (Call_Logger_Error timeoutCtx "Error shutting down tracer" [zap.Error err])
    ∈ run_events c s1 ∧
  (effective_level (LogConfig.Level logConfig) ≤ ErrorLevel →
   ∃ e : zap.Entry,
     ZapWrite e ∈ run_events c s1 ∧
     zap.entry_level e = zapcore.ErrorLevel ∧
     zap.entry_message e = "Error shutting down tracer" ∧
     zap.entry_fields e = [zap.Error err]) ∧
  (LogConfig.Level logConfig = FatalLevel →
   List.filter is_write (run_events c s1) = []).
Proof.
  intros Hi Ht He.
  destruct (Initialize_Ok_inv _ _ _ _ _ _ _ _ _ Hi) as (zl & Hl & _ & Hen & Hctx & _ & Hc).
  rewrite (run_events_at _ _ _ _ _ (Hc s1 Hl) eq_refl).
  unfold cleanup_events. rewrite Ht, He.
  specialize (Hen Method_Error). cbn [method_level Method_LogLevel] in Hen.
  split; [|split].
  - rewrite !elem_of_app. do 5 right. left. unfold log_error. apply elem_of_cons. by left.
  - intros Hle. apply Z.leb_le in Hle.
    eexists. split.
    + rewrite !elem_of_app. do 5 right. left. unfold log_error.
      cbn [logger]. rewrite Hen, Hle. apply elem_of_cons. right.
      apply elem_of_cons. left. reflexivity.
    + cbn [entry_of zap.entry_level zap.entry_message zap.entry_fields
           zap.AddCallerSkip zap.context method_level].
      rewrite Hctx. split; [reflexivity|]. split; reflexivity.
  - intros Hf. rewrite Hf in Hen. cbn in Hen.
    rewrite !List.filter_app. unfold log_error. cbn [logger]. rewrite Hen.
    destruct (MetricsConfig.Enabled metricsConfig);
      [destruct (MeterProvider_Shutdown env ctx)|]; cbn [List.filter is_write app];
      by destruct (zap_Sync env _).
Qed.

(** X19, where every shutdown fails and the logger is at the fatal level. *)
Lemma cleanup_error_log_threshold_witness :
  ∃ (p : ObservabilityProvider.t) (c : M unit) (s1 : State),
    InitializeObservabilityProvider Ex.shutdowns_fail context.Background
      {| LogConfig.Level := FatalLevel; LogConfig.Format := JSONFormat;
         LogConfig.OutputPaths := ["stdout"]; LogConfig.Development := false |}
      Ex.tracingConfig Ex.metricsConfig Ex.s0 = (Done (Ok (p, c)), s1) ∧
    Called (Call_Logger_Error timeoutCtx "Error shutting down tracer"
              [zap.Error (errorString "export timed out")]) ∈ run_events c s1 ∧
    List.filter is_write (run_events c s1) = [].
Proof.
  pose proof (cleanup_error_log_threshold Ex.shutdowns_fail context.Background
                {| LogConfig.Level := FatalLevel; LogConfig.Format := JSONFormat;
                   LogConfig.OutputPaths := ["stdout"]; LogConfig.Development := false |}
                Ex.tracingConfig Ex.metricsConfig Ex.s0) as H.
  destruct (InitializeObservabilityProvider Ex.shutdowns_fail context.Background _
              Ex.tracingConfig Ex.metricsConfig Ex.s0) as [o s1] eqn:Hi.
  lazy -[cleanup] in Hi. injection Hi as <- Hs1.
  destruct (H _ _ s1 (errorString "export timed out") eq_refl eq_refl eq_refl)
    as (H1 & _ & H3).
  eexists _, _, s1. split; [reflexivity|]. split; [exact H1 | exact (H3 eq_refl)].
Defined.

(** X20: on a facade with a meter, the first [RecordHistogram] for a name
    makes the histogram with the description "Duration of " and the name
    and the unit "s", stores it and records the value to it, returning nil;
    every later [RecordHistogram] for the name records to that same
    histogram and asks the meter for nothing. *)
Theorem RecordHistogram_first_use (env : Env) (m : Metrics) (mt : Meter)
    (ctx : Context) (name : string) (value : float) (attrs : list KeyValue) (s : State) :
  meter m = Some mt →
  histograms m !! name = None →
  meter_new env (instruments s) Float64Histogram name = None →
  ∃ (h : Instrument) (m' : Metrics),
    h = next_instrument s Float64Histogram name ("Duration of " +:+ name) "s" ∧
    m' = set_histograms m (<[name := h]> (histograms m)) ∧
    RecordHistogram env m ctx name value attrs s =
      (Done (None, m'), add_events (registered s h) [HistogramRecord h ctx value attrs]) ∧
    counters m' = counters m ∧ gauges m' = gauges m ∧
    ∀ (ctx2 : Context) (value2 : float) (attrs2 : list KeyValue) (s2 : State),
      RecordHistogram env m' ctx2 name value2 attrs2 s2 =
        (Done (None, m'), add_events s2 [HistogramRecord h ctx2 value2 attrs2]).
Proof.
  intros Hm Hc Hn. eexists _, _. split; [reflexivity|]. split; [reflexivity|].
  split; [|split; [reflexivity|split; [reflexivity|]]].
  - unfold RecordHistogram, CreateHistogram. rewrite Hc, Hm. run.
    rewrite (meter_instrument_ok env mt Float64Histogram name _ "s" s Hn). reflexivity.
  - intros ctx2 value2 attrs2 s2. unfold RecordHistogram.
    cbn [set_histograms histograms]. by rewrite lookup_insert_eq.
Qed.

(** X20, for a histogram named like the counter the facade holds. *)
Lemma RecordHistogram_first_use_witness :
  ∃ (h : Instrument) (m' : Metrics),
    RecordHistogram Ex.all_well Ex.metrics_hits context.Background "hits" 0.25%float []
      Ex.s_hits =
      (Done (None, m'),
       add_events (registered Ex.s_hits h)
         [HistogramRecord h context.Background 0.25%float []]) ∧
    inst_kind h = Float64Histogram ∧ inst_unit h = "s" ∧
    counters m' !! "hits" = Some Ex.hits ∧ histograms m' !! "hits" = Some h.
Proof.
  destruct (RecordHistogram_first_use Ex.all_well Ex.metrics_hits {| meter_name := "svc" |}
              context.Background "hits" 0.25%float [] Ex.s_hits eq_refl eq_refl eq_refl)
    as (h & m' & -> & -> & Hr & _).
  eexists _, _. split; [exact Hr|]. repeat split; reflexivity.
Defined.

(** ** The format of the identifiers *)

Lemma hexdigits_of_byte (b : byte) :
  is_hexdigit (trace.hexdigit (N.shiftr (Byte.to_N b) 4)) = true ∧
  is_hexdigit (trace.hexdigit (N.land (Byte.to_N b) 15)) = true.
Proof. destruct b; split; vm_compute; reflexivity. Qed.

Lemma hex_hexdigits (bs : list byte) :
  forallb is_hexdigit (list_ascii_of_string (trace.hex bs)) = true.
Proof.
  induction bs as [|b bs IH]; [done|].
  destruct (hexdigits_of_byte b) as [H1 H2].
  cbn [trace.hex list_ascii_of_string forallb]. by rewrite H1, H2, IH.
Qed.

(** X21: for a context that carries a valid span with a trace identifier of
    16 bytes and a span identifier of 8 bytes, [GetTraceID] answers 32
    characters and [GetSpanID] 16, all of them lower-case hexadecimal
    digits. *)
Theorem ids_have_fixed_format (ctx : Context) :
  trace.wf (SpanContextFromContext ctx) →
  carries_valid_span ctx = true →
  String.length (GetTraceID ctx) = 32%nat ∧
  String.length (GetSpanID ctx) = 16%nat ∧
  forallb is_hexdigit (list_ascii_of_string (GetTraceID ctx)) = true ∧
  forallb is_hexdigit (list_ascii_of_string (GetSpanID ctx)) = true.
Proof.
  intros [Ht Hs] Hv. rewrite GetTraceID_eq, GetSpanID_eq, Hv.
  unfold trace.ID_String. rewrite !hex_length, Ht, Hs, !hex_hexdigits. done.
Qed.

(** X21, for the context of the examples. *)
Lemma ids_have_fixed_format_witness :
  String.length (GetTraceID Ex.ctx_in_span) = 32%nat ∧
  String.length (GetSpanID Ex.ctx_in_span) = 16%nat ∧
  forallb is_hexdigit (list_ascii_of_string (GetTraceID Ex.ctx_in_span)) = true ∧
  forallb is_hexdigit (list_ascii_of_string (GetSpanID Ex.ctx_in_span)) = true.
Proof.
  apply (ids_have_fixed_format Ex.ctx_in_span); [split; reflexivity | reflexivity].
Defined.
